(** * Weather page: series normalisation, temporal windowing, classification

    A shallow embedding of the data derivations of
    [src/client/src/pages/Weather.tsx]: the hourly charts and detail boxes
    of the "current" tab, the daily charts and cards of the "forecast" tab,
    and [formatHistoricalChartData] of the "historical" tab.

    Modelling conventions.
    - JavaScript numbers coming from the provider are rationals ([Q]); the
      only arithmetic the page does on them is [(min + max) / 2].  The
      model holds finite numbers only and computes exactly: the infinities
      and the rounding and overflow of doubles are not represented, and a
      statement about the result of that arithmetic is made for magnitudes
      at which a double sum cannot overflow.
    - A value read from a record is a [value]: [undefined], [null], [NaN] or
      a number.  [a || b] is [or], [a ?? b] is [nullish], [a?.[i]] is
      [optIndex].
    - Property access through [.] on [undefined] raises a [TypeError]; code
      that uses it lives in the [result] monad.  Access through [?.] is
      total.
    - The [Date] object and the locale formatting functions belong to the
      platform; they are the fields of the class [DatePlatform]. *)

From Stdlib Require Import List String Ascii Bool Arith ZArith QArith Lia.
From Stdlib Require Import Sorted Lqa.
From Stdlib Require Import Qabs.
From Stdlib Require Import DecimalString.
From Stdlib Require HexadecimalString.
From Stdlib Require Qcanon.
Import ListNotations.

Local Open Scope string_scope.
Local Open Scope nat_scope.

(** ** JavaScript values *)

Module JS.

Inductive value : Type :=
| Undefined
| Null
| NaN
| Num (q : Q).

(** ToBoolean: [0], [NaN], [null] and [undefined] are falsy. *)
Definition truthy (v : value) : bool :=
  match v with
  | Num q => negb (Qnum q =? 0)%Z
  | _ => false
  end.

(** [a || b] *)
Definition or (a b : value) : value := if truthy a then a else b.

(** [a ?? b] *)
Definition nullish (a b : value) : value :=
  match a with
  | Undefined | Null => b
  | _ => a
  end.

(** ToNumber; [None] stands for NaN. *)
Definition toNumber (v : value) : option Q :=
  match v with
  | Undefined | NaN => None
  | Null => Some 0%Q
  | Num q => Some q
  end.

Definition ofNumber (n : option Q) : value :=
  match n with
  | Some q => Num q
  | None => NaN
  end.

(** [a + b] on non-string operands. *)
Definition add (a b : value) : value :=
  match toNumber a, toNumber b with
  | Some x, Some y => Num (x + y)
  | _, _ => NaN
  end.

(** [a / 2] *)
Definition half (a : value) : value :=
  match toNumber a with
  | Some x => Num (x / 2)
  | None => NaN
  end.

(** [a <= n] for an integer literal [n]; any comparison with NaN is false. *)
Definition le (a : value) (n : Z) : bool :=
  match toNumber a with
  | Some x => Qle_bool x (inject_Z n)
  | None => false
  end.

(** [a > b] on the integer-or-NaN results of the [Date] getters. *)
Definition gt (a b : option Z) : bool :=
  match a, b with
  | Some x, Some y => (y <? x)%Z
  | _, _ => false
  end.

(** Number-to-string conversion of a [Date] getter result. *)
Definition intToString (a : option Z) : string :=
  match a with
  | Some z => NilZero.string_of_int (Z.to_int z)
  | None => "NaN"
  end.

(** Arrays of optional numbers ([None] is a [null] entry) and of optional
    strings. *)
Definition numArray : Type := list (option Q).
Definition strArray : Type := list (option string).

(** [arr?.[i]] on a possibly absent numeric array. *)
Definition optIndex (arr : option numArray) (i : nat) : value :=
  match arr with
  | None => Undefined
  | Some l =>
      match nth_error l i with
      | Some (Some q) => Num q
      | Some None => Null
      | None => Undefined
      end
  end.

(** [arr?.[i]] on a possibly absent string array; the outer [None] of the
    result is [undefined] or [null]. *)
Definition optIndexStr (arr : option strArray) (i : nat) : option string :=
  match arr with
  | None => None
  | Some l =>
      match nth_error l i with
      | Some (Some s) => Some s
      | _ => None
      end
  end.

(** ToBoolean of a string-or-nullish value: the empty string is falsy. *)
Definition truthyStr (s : option string) : bool :=
  match s with
  | Some s => negb (s =? "")%string
  | None => false
  end.

(** Exceptions. *)
Inductive exn : Type := TypeError.

Inductive result (A : Type) : Type :=
| Ok (a : A)
| Throw (e : exn).
Arguments Ok {A} a.
Arguments Throw {A} e.

Definition bind {A B} (m : result A) (k : A -> result B) : result B :=
  match m with
  | Ok a => k a
  | Throw e => Throw e
  end.

(** [o.f]: raises when [o] is [undefined]. *)
Definition dot {A B} (o : option A) (f : A -> B) : result B :=
  match o with
  | Some a => Ok (f a)
  | None => Throw TypeError
  end.

(** [o?.f] *)
Definition qdot {A B} (o : option A) (f : A -> option B) : option B :=
  match o with
  | Some a => f a
  | None => None
  end.

(** [a || b] with the second operand evaluated only when needed. *)
Definition orM (a b : result value) : result value :=
  bind a (fun x => if truthy x then Ok x else b).

(** [arr[i]] on a string array known to exist; a hole reads as
    [undefined]. *)
Definition index (arr : strArray) (i : nat) : option string :=
  optIndexStr (Some arr) i.

End JS.

Import JS.

Declare Scope js_scope.
Delimit Scope js_scope with js.
Notation "x <- m ;; k" := (bind m (fun x => k))
  (at level 61, m at next level, right associativity) : js_scope.
Local Open Scope js_scope.

(** ** The provider response *)

(** Modelled from the spec: the declaration of [WeatherData] lives in
    [@/types/index], which is not part of the sources at hand.  Every
    section and every array is optional; the fields are the ones the page
    reads. *)
Record Hourly : Type := {
  h_time : option (list string);
  h_temperature_2m : option numArray;
  h_temperature : option numArray;
  h_apparent_temperature : option numArray;
  h_apparentTemperature : option numArray;
  h_relative_humidity_2m : option numArray;
  h_humidity : option numArray;
  h_wind_speed_10m : option numArray;
  h_wind_speed : option numArray;
  h_precipitation_probability : option numArray;
  h_precipitation : option numArray;
  h_precipitation_sum : option numArray;
  h_weather_code : option numArray
}.

Record Daily : Type := {
  d_time : option (list string);
  d_temperature_2m_min : option numArray;
  d_temperature_2m_mean : option numArray;
  d_temperature_2m_max : option numArray;
  d_precipitation_sum : option numArray;
  d_precipitation_probability_max : option numArray;
  d_weather_code : option numArray;
  d_wind_speed_10m : option numArray;
  d_wind_speed : option numArray;
  d_relative_humidity_2m : option numArray;
  d_humidity : option numArray;
  d_sunrise : option strArray;
  d_sunset : option strArray
}.

Record WeatherData : Type := {
  hourly : option Hourly;
  daily : option Daily
}.

(** ** The platform: [Date] and locale formatting *)

Inductive DateFormat : Type :=
| WeekdayShort          (* 'en-US', { weekday: 'short' } *)
| MonthShortDayNumeric. (* 'en-US', { month: 'short', day: 'numeric' } *)

Class DatePlatform : Type := {
  Date : Type;
  (** [new Date(s)] *)
  newDate : string -> Date;
  (** [getHours()] and [getDate()]: an integer, or NaN ([None]) on an
      invalid date. *)
  getHours : Date -> option Z;
  getDate : Date -> option Z;
  (** The date [new Date(undefined)] evaluates to. *)
  invalidDate : Date;
  toLocaleDateString : Date -> DateFormat -> string;
  (** [toLocaleTimeString([], {hour: '2-digit', minute: '2-digit'})] *)
  toLocaleTimeString : Date -> string
}.

(** ** Output samples *)

(** A point of the "Temperature and Feels Like" chart. *)
Record TemperaturePoint : Type := {
  tp_name : string;
  tp_hour : option Z;
  tp_temperature : value;
  tp_feels_like : value
}.

(** A bar pair of the hourly "Precipitation Forecast" chart. *)
Record PrecipitationPoint : Type := {
  pp_name : string;
  pp_probability : value;
  pp_amount : value
}.

(** The data shown in one "Humidity and Wind" box. *)
Record DetailBox : Type := {
  db_key : nat;
  db_hour : option Z;
  db_humidity : value;
  db_windSpeed : value
}.

(** The data shown in one hourly "Weather Conditions" box. *)
Record ConditionBox : Type := {
  cb_key : nat;
  cb_hour : option Z;
  cb_weatherIcon : string;
  cb_description : string
}.

(** A point of the "7-Day Temperature Forecast" chart. *)
Record DailyTemperaturePoint : Type := {
  dt_name : string;
  dt_min : value;
  dt_max : value;
  dt_avg : value
}.

(** The data shown in one "Daily Weather Details" card. *)
Record DailyCard : Type := {
  dc_key : string;
  dc_day : string;
  dc_dateFormatted : string;
  dc_weatherIcon : string;
  dc_description : string;
  dc_min : value;
  dc_max : value;
  dc_precipProb : value;
  dc_precipSum : value;
  dc_windSpeed : value;
  dc_humidity : value;
  dc_sunrise : string;
  dc_sunset : string
}.

(** A bar pair of the daily "Precipitation Forecast" chart. *)
Record DailyPrecipitationPoint : Type := {
  dp_name : string;
  dp_amount : value;
  dp_probability : value
}.

(** The data shown in one daily "Weather Conditions" tile; [dn_windSpeed]
    is the number handed to [toFixed(1)]. *)
Record DailyConditionTile : Type := {
  dn_key : string;
  dn_day : string;
  dn_weatherIcon : string;
  dn_windSpeed : value
}.

(** An entry of the historical chart. *)
Record HistoricalPoint : Type := {
  hp_name : string;
  hp_temperature : value;
  hp_precipitation : value
}.

(** ** Weather-code classification *)

(** The icon chain of the hourly "Weather Conditions" boxes. *)
Definition hourlyWeatherIcon (weatherCode : value) : string :=
  if le weatherCode 3 then "wb_sunny"
  else if le weatherCode 49 then "cloud"
  else if le weatherCode 59 then "grain"
  else if le weatherCode 69 then "ac_unit"
  else if le weatherCode 79 then "ac_unit"
  else if le weatherCode 82 then "rainy"
  else if le weatherCode 86 then "ac_unit"
  else "thunderstorm".

(** The description chain of the hourly "Weather Conditions" boxes. *)
Definition hourlyDescription (weatherCode : value) : string :=
  if le weatherCode 3 then "Clear"
  else if le weatherCode 49 then "Cloudy"
  else if le weatherCode 59 then "Drizzle"
  else if le weatherCode 69 then "Rain"
  else if le weatherCode 79 then "Snow"
  else if le weatherCode 82 then "Showers"
  else if le weatherCode 86 then "Snow"
  else "Thunder".

(** The icon-and-description chain of the "Daily Weather Details" cards. *)
Definition dailyIconDescription (weatherCode : value) : string * string :=
  if le weatherCode 3 then ("wb_sunny", "Clear")
  else if le weatherCode 49 then ("cloud", "Cloudy")
  else if le weatherCode 59 then ("grain", "Drizzle")
  else if le weatherCode 69 then ("rainy", "Rain")
  else if le weatherCode 79 then ("ac_unit", "Snow")
  else if le weatherCode 82 then ("rainy", "Showers")
  else if le weatherCode 86 then ("ac_unit", "Snow")
  else ("thunderstorm", "Thunder").

(** The exact-match table of [getWeatherIcon]. *)
Definition iconMap : list (Z * string) :=
  [ (0, "wb_sunny"); (1, "wb_sunny"); (2, "cloud"); (3, "cloud");
    (45, "cloud"); (48, "cloud");
    (51, "grain"); (53, "grain"); (55, "grain");
    (61, "rainy"); (63, "rainy"); (65, "rainy");
    (71, "ac_unit"); (73, "ac_unit"); (75, "ac_unit"); (77, "ac_unit");
    (80, "rainy"); (81, "rainy"); (82, "rainy");
    (85, "ac_unit"); (86, "ac_unit");
    (95, "thunderstorm"); (96, "thunderstorm"); (99, "thunderstorm") ]%Z.

Fixpoint assocZ (k : Z) (m : list (Z * string)) : option string :=
  match m with
  | [] => None
  | (k', v) :: rest => if (k =? k')%Z then Some v else assocZ k rest
  end.

(** [iconMap[code]]: the property named by the decimal form of [code];
    only an integral number names one of the keys. *)
Definition iconMapGet (code : value) : option string :=
  match code with
  | Num q =>
      let r := Qred q in
      if (Z.pos (Qden r) =? 1)%Z then assocZ (Qnum r) iconMap else None
  | _ => None
  end.

Definition getWeatherIcon (code : value) : string :=
  match iconMapGet code with
  | Some icon => if negb (icon =? "")%string then icon else "help_outline"
  | None => "help_outline"
  end.

(** ** The page *)

Section Page.

Context `{DatePlatform}.

(** [new Date(v)] for a value read from a string array. *)
Definition newDateOf (v : option string) : Date :=
  match v with
  | Some s => newDate s
  | None => invalidDate
  end.

(** [arr || []] *)
Definition orEmpty {A} (arr : option (list A)) : list A :=
  match arr with
  | Some l => l
  | None => []
  end.

(** [arr.map((x, i) => f(x, i))] with a callback that may raise; [i] is the
    index of the head of [l]. *)
Fixpoint mapiM {A B} (f : A -> nat -> result B) (l : list A) (i : nat)
  : result (list B) :=
  match l with
  | [] => Ok []
  | x :: rest =>
      y <- f x i ;;
      ys <- mapiM f rest (S i) ;;
      Ok (y :: ys)
  end.

(** *** Current tab: the hourly window *)

(** [time.getHours() > currentHour || time.getDate() > new Date().getDate()],
    where [now] is the [new Date()] of the rendering. *)
Definition afterNow (now time : Date) : bool :=
  gt (getHours time) (getHours now) || gt (getDate time) (getDate now).

(** The [for] loop shared by the four hourly blocks: [times] is what is
    left of [currentData.hourly.time] from index [i] on, [acc] the array
    built so far; [body] builds the pushed element and [limit] is the
    length at which the loop breaks. *)
Fixpoint forEachHour {A} (limit : nat) (now : Date)
  (body : Date -> nat -> result A) (times : list string) (i : nat)
  (acc : list A) : result (list A) :=
  match times with
  | [] => Ok acc
  | timeStr :: rest =>
      let time := newDate timeStr in
      if afterNow now time then
        x <- body time i ;;
        let acc' := (acc ++ [x])%list in
        if limit <=? List.length acc' then Ok acc'
        else forEachHour limit now body rest (S i) acc'
      else forEachHour limit now body rest (S i) acc
  end.

(** [if (currentData?.hourly?.time) { for (...) {...} } return acc] *)
Definition hourlyWindow {A} (limit : nat) (now : Date)
  (body : Date -> nat -> result A) (currentData : option WeatherData)
  : result (list A) :=
  match qdot (qdot currentData hourly) h_time with
  | Some _ =>
      hr <- dot currentData hourly ;;
      tm <- dot hr h_time ;;
      times <- dot tm (fun l => l) ;;
      forEachHour limit now body times 0 []
  | None => Ok []
  end.

(** [currentData.hourly.f?.[i]] *)
Definition hourlyAt (currentData : option WeatherData)
  (f : Hourly -> option numArray) (i : nat) : result value :=
  hr <- dot currentData hourly ;;
  arr <- dot hr f ;;
  Ok (optIndex arr i).

Definition temperaturePoint (currentData : option WeatherData)
  (time : Date) (i : nat) : result TemperaturePoint :=
  temperature <- orM (orM (hourlyAt currentData h_temperature_2m i)
                          (hourlyAt currentData h_temperature i))
                     (Ok (Num 0)) ;;
  feels_like <- orM (orM (hourlyAt currentData h_apparent_temperature i)
                         (hourlyAt currentData h_apparentTemperature i))
                    (Ok Null) ;;
  Ok {| tp_name := intToString (getHours time) ++ "h";
        tp_hour := getHours time;
        tp_temperature := temperature;
        tp_feels_like := feels_like |}.

Definition precipitationPoint (currentData : option WeatherData)
  (time : Date) (i : nat) : result PrecipitationPoint :=
  probability <- orM (hourlyAt currentData h_precipitation_probability i)
                     (Ok (Num 0)) ;;
  amount <- orM (orM (hourlyAt currentData h_precipitation i)
                     (hourlyAt currentData h_precipitation_sum i))
                (Ok (Num 0)) ;;
  Ok {| pp_name := intToString (getHours time) ++ "h";
        pp_probability := probability;
        pp_amount := amount |}.

Definition detailBox (currentData : option WeatherData)
  (time : Date) (i : nat) : result DetailBox :=
  humidity <- orM (orM (hourlyAt currentData h_relative_humidity_2m i)
                       (hourlyAt currentData h_humidity i))
                  (Ok (Num 0)) ;;
  windSpeed <- orM (orM (hourlyAt currentData h_wind_speed_10m i)
                        (hourlyAt currentData h_wind_speed i))
                   (Ok (Num 0)) ;;
  Ok {| db_key := i;
        db_hour := getHours time;
        db_humidity := humidity;
        db_windSpeed := windSpeed |}.

Definition conditionBox (currentData : option WeatherData)
  (time : Date) (i : nat) : result ConditionBox :=
  weatherCode <- orM (hourlyAt currentData h_weather_code i) (Ok (Num 0)) ;;
  Ok {| cb_key := i;
        cb_hour := getHours time;
        cb_weatherIcon := hourlyWeatherIcon weatherCode;
        cb_description := hourlyDescription weatherCode |}.

(** The data of the "Temperature and Feels Like" chart. *)
Definition hourlyTemperatureData (now : Date)
  (currentData : option WeatherData) : result (list TemperaturePoint) :=
  hourlyWindow 24 now (temperaturePoint currentData) currentData.

(** The data of the hourly "Precipitation Forecast" chart. *)
Definition hourlyPrecipitationData (now : Date)
  (currentData : option WeatherData) : result (list PrecipitationPoint) :=
  hourlyWindow 24 now (precipitationPoint currentData) currentData.

(** The boxes under "Humidity and Wind". *)
Definition hourlyDetails (now : Date)
  (currentData : option WeatherData) : result (list DetailBox) :=
  hourlyWindow 9 now (detailBox currentData) currentData.

(** The boxes under the hourly "Weather Conditions". *)
Definition hourlyConditions (now : Date)
  (currentData : option WeatherData) : result (list ConditionBox) :=
  hourlyWindow 9 now (conditionBox currentData) currentData.

(** The indices [i] at which the loop of the two charts pushes a sample:
    the same loop with the index itself as the pushed element. *)
Definition hourlyIndices (now : Date) (currentData : option WeatherData)
  : result (list nat) :=
  hourlyWindow 24 now (fun _ i => Ok i) currentData.

(** *** Forecast tab: the daily series *)

(** [data.daily?.f?.[i]] *)
Definition dailyAt (data : option WeatherData)
  (f : Daily -> option numArray) (i : nat) : result value :=
  dl <- dot data daily ;;
  Ok (optIndex (qdot dl f) i).

(** [data.daily?.time || []] *)
Definition dailyTimes (data : option WeatherData) : result (list string) :=
  dl <- dot data daily ;;
  Ok (orEmpty (qdot dl d_time)).

Definition weekday (date : string) : string :=
  toLocaleDateString (newDate date) WeekdayShort.

Definition dailyTemperaturePoint (forecastData : option WeatherData)
  (date : string) (i : nat) : result DailyTemperaturePoint :=
  min <- orM (dailyAt forecastData d_temperature_2m_min i) (Ok (Num 0)) ;;
  max <- orM (dailyAt forecastData d_temperature_2m_max i) (Ok (Num 0)) ;;
  Ok {| dt_name := weekday date;
        dt_min := min;
        dt_max := max;
        dt_avg := half (add min max) |}.

(** The data of the "7-Day Temperature Forecast" chart. *)
Definition dailyTemperatureData (forecastData : option WeatherData)
  : result (list DailyTemperaturePoint) :=
  times <- dailyTimes forecastData ;;
  mapiM (dailyTemperaturePoint forecastData) times 0.

(** [forecastData.daily?.f?.[i] ? new Date(forecastData.daily.f[i])
    .toLocaleTimeString(...) : '–'] for [f] one of [sunrise], [sunset]. *)
Definition sunTime (forecastData : option WeatherData)
  (f : Daily -> option strArray) (i : nat) : result string :=
  dl <- dot forecastData daily ;;
  if truthyStr (optIndexStr (qdot dl f) i) then
    dl' <- dot forecastData daily ;;
    arr <- dot dl' f ;;
    s <- dot arr (fun a => index a i) ;;
    Ok (toLocaleTimeString (newDateOf s))
  else Ok "–".

Definition dailyCard (forecastData : option WeatherData)
  (date : string) (i : nat) : result DailyCard :=
  weatherCode <- orM (dailyAt forecastData d_weather_code i) (Ok (Num 0)) ;;
  windSpeed <- orM (orM (dailyAt forecastData d_wind_speed_10m i)
                        (dailyAt forecastData d_wind_speed i))
                   (Ok (Num 0)) ;;
  humidity <- orM (orM (dailyAt forecastData d_relative_humidity_2m i)
                       (dailyAt forecastData d_humidity i))
                  (Ok (Num 0)) ;;
  precipProb <- orM (dailyAt forecastData d_precipitation_probability_max i)
                    (Ok (Num 0)) ;;
  precipSum <- orM (dailyAt forecastData d_precipitation_sum i)
                   (Ok (Num 0)) ;;
  sunrise <- sunTime forecastData d_sunrise i ;;
  sunset <- sunTime forecastData d_sunset i ;;
  min <- orM (dailyAt forecastData d_temperature_2m_min i) (Ok (Num 0)) ;;
  max <- orM (dailyAt forecastData d_temperature_2m_max i) (Ok (Num 0)) ;;
  Ok {| dc_key := date;
        dc_day := weekday date;
        dc_dateFormatted :=
          toLocaleDateString (newDate date) MonthShortDayNumeric;
        dc_weatherIcon := fst (dailyIconDescription weatherCode);
        dc_description := snd (dailyIconDescription weatherCode);
        dc_min := min;
        dc_max := max;
        dc_precipProb := precipProb;
        dc_precipSum := precipSum;
        dc_windSpeed := windSpeed;
        dc_humidity := humidity;
        dc_sunrise := sunrise;
        dc_sunset := sunset |}.

(** The cards under "Daily Weather Details". *)
Definition dailyDetails (forecastData : option WeatherData)
  : result (list DailyCard) :=
  times <- dailyTimes forecastData ;;
  mapiM (dailyCard forecastData) times 0.

Definition dailyPrecipitationPoint (forecastData : option WeatherData)
  (date : string) (i : nat) : result DailyPrecipitationPoint :=
  amount <- orM (dailyAt forecastData d_precipitation_sum i) (Ok (Num 0)) ;;
  probability <- orM (dailyAt forecastData d_precipitation_probability_max i)
                     (Ok (Num 0)) ;;
  Ok {| dp_name := weekday date;
        dp_amount := amount;
        dp_probability := probability |}.

(** The data of the daily "Precipitation Forecast" chart. *)
Definition dailyPrecipitationData (forecastData : option WeatherData)
  : result (list DailyPrecipitationPoint) :=
  times <- dailyTimes forecastData ;;
  mapiM (dailyPrecipitationPoint forecastData) times 0.

Definition dailyConditionTile (forecastData : option WeatherData)
  (date : string) (i : nat) : result DailyConditionTile :=
  code <- dailyAt forecastData d_weather_code i ;;
  let weatherCode := nullish code (Num 0) in
  windSpeed <- orM (orM (dailyAt forecastData d_wind_speed_10m i)
                        (dailyAt forecastData d_wind_speed i))
                   (Ok (Num 0)) ;;
  Ok {| dn_key := date;
        dn_day := weekday date;
        dn_weatherIcon := getWeatherIcon weatherCode;
        dn_windSpeed := windSpeed |}.

(** The tiles under the daily "Weather Conditions"; [None] is the
    "No forecast data available" placeholder. *)
Definition dailyConditions (forecastData : option WeatherData)
  : result (option (list DailyConditionTile)) :=
  match qdot (qdot forecastData daily) d_time with
  | Some _ =>
      dl <- dot forecastData daily ;;
      tm <- dot dl d_time ;;
      len <- dot tm (@List.length string) ;;
      if 0 <? len then
        dl' <- dot forecastData daily ;;
        tm' <- dot dl' d_time ;;
        tiles <- mapiM (dailyConditionTile forecastData) (orEmpty tm') 0 ;;
        Ok (Some tiles)
      else Ok None
  | None => Ok None
  end.

Record ForecastView : Type := {
  fv_temperature : list DailyTemperaturePoint;
  fv_details : list DailyCard;
  fv_precipitation : list DailyPrecipitationPoint;
  fv_conditions : option (list DailyConditionTile)
}.

(** The forecast tab once loading has finished:
    [forecastData ? (...) : "No forecast data available"]. *)
Definition forecastTab (forecastData : option WeatherData)
  : result (option ForecastView) :=
  match forecastData with
  | Some _ =>
      t <- dailyTemperatureData forecastData ;;
      d <- dailyDetails forecastData ;;
      p <- dailyPrecipitationData forecastData ;;
      c <- dailyConditions forecastData ;;
      Ok (Some {| fv_temperature := t;
                  fv_details := d;
                  fv_precipitation := p;
                  fv_conditions := c |})
  | None => Ok None
  end.

(** *** Historical tab *)

Definition historicalPoint (data : option WeatherData)
  (date : string) (index : nat) : result HistoricalPoint :=
  temperature <- orM (orM (orM (dailyAt data d_temperature_2m_min index)
                               (dailyAt data d_temperature_2m_mean index))
                          (dailyAt data d_temperature_2m_max index))
                     (Ok (Num 0)) ;;
  precipitation <- orM (dailyAt data d_precipitation_sum index)
                       (Ok (Num 0)) ;;
  Ok {| hp_name := weekday date;
        hp_temperature := temperature;
        hp_precipitation := precipitation |}.

Definition formatHistoricalChartData (data : option WeatherData)
  : result (list HistoricalPoint) :=
  match data with
  | None => Ok []
  | Some _ =>
      dl <- dot data daily ;;
      match dl with
      | None => Ok []
      | Some _ =>
          dl' <- dot data daily ;;
          tm <- dot dl' d_time ;;
          mapiM (historicalPoint data) (orEmpty tm) 0
      end
  end.

End Page.

(** ** A concrete platform

    A browser in the Asia/Ho_Chi_Minh time zone (UTC+7, no daylight
    saving), reading the two ISO 8601 forms the provider sends:
    [YYYY-MM-DDTHH:MM], which [Date] takes as local time, and [YYYY-MM-DD],
    which it takes as midnight UTC.  Any other string is an invalid date
    here.  Times are formatted on the 24-hour clock. *)

Module IsoLocal.

Record civil : Type := {
  year : Z;
  month : Z;
  day : Z;
  hour : Z;
  minute : Z
}.

Definition digit (c : ascii) : option Z :=
  let n := nat_of_ascii c in
  if (48 <=? n) && (n <=? 57) then Some (Z.of_nat (n - 48)) else None.

(** Reads exactly [n] decimal digits. *)
Fixpoint digits (n : nat) (s : string) (acc : Z) : option (Z * string) :=
  match n with
  | O => Some (acc, s)
  | S n' =>
      match s with
      | String c rest =>
          match digit c with
          | Some d => digits n' rest (10 * acc + d)%Z
          | None => None
          end
      | EmptyString => None
      end
  end.

Definition expect (c : ascii) (s : string) : option string :=
  match s with
  | String c' rest => if Ascii.eqb c c' then Some rest else None
  | EmptyString => None
  end.

Definition leap (y : Z) : bool :=
  ((y mod 4 =? 0) && negb (y mod 100 =? 0) || (y mod 400 =? 0))%Z.

Definition daysInMonth (y m : Z) : Z :=
  (if m =? 2 then (if leap y then 29 else 28)
   else if (m =? 4) || (m =? 6) || (m =? 9) || (m =? 11) then 30
   else 31)%Z.

Definition validDay (y m d : Z) : bool :=
  ((1 <=? m) && (m <=? 12) && (1 <=? d) && (d <=? daysInMonth y m))%Z.

Definition parseTime (s : string) : option (Z * Z) :=
  match digits 2 s 0 with
  | Some (h, s1) =>
      match expect ":" s1 with
      | Some s2 =>
          match digits 2 s2 0 with
          | Some (mi, EmptyString) =>
              if ((h <=? 23) && (mi <=? 59))%Z then Some (h, mi) else None
          | _ => None
          end
      | None => None
      end
  | None => None
  end.

Definition parse (s : string) : option civil :=
  match digits 4 s 0 with
  | Some (y, s1) =>
      match expect "-" s1 with
      | Some s2 =>
          match digits 2 s2 0 with
          | Some (m, s3) =>
              match expect "-" s3 with
              | Some s4 =>
                  match digits 2 s4 0 with
                  | Some (d, s5) =>
                      if validDay y m d then
                        match s5 with
                        | EmptyString =>
                            Some {| year := y; month := m; day := d;
                                    hour := 7; minute := 0 |}
                        | String c s6 =>
                            if Ascii.eqb c "T" then
                              match parseTime s6 with
                              | Some (h, mi) =>
                                  Some {| year := y; month := m; day := d;
                                          hour := h; minute := mi |}
                              | None => None
                              end
                            else None
                        end
                      else None
                  | None => None
                  end
              | None => None
              end
          | None => None
          end
      | None => None
      end
  | None => None
  end.

(** Day of the week, 0 for Sunday. *)
Definition dayOfWeek (y m d : Z) : Z :=
  let t := nth (Z.to_nat (m - 1)) [0; 3; 2; 5; 0; 3; 5; 1; 4; 6; 2; 4]%Z 0%Z in
  let y' := (if m <? 3 then y - 1 else y)%Z in
  ((y' + y' / 4 - y' / 100 + y' / 400 + t + d) mod 7)%Z.

Definition weekdayName (w : Z) : string :=
  nth (Z.to_nat w) ["Sun"; "Mon"; "Tue"; "Wed"; "Thu"; "Fri"; "Sat"] "".

Definition monthName (m : Z) : string :=
  nth (Z.to_nat (m - 1))
      ["Jan"; "Feb"; "Mar"; "Apr"; "May"; "Jun";
       "Jul"; "Aug"; "Sep"; "Oct"; "Nov"; "Dec"] "".

Definition decimal (z : Z) : string := NilZero.string_of_int (Z.to_int z).

Definition twoDigits (z : Z) : string :=
  ((if (z <? 10)%Z then "0" else "") ++ decimal z)%string.

Definition formatDate (d : option civil) (f : DateFormat) : string :=
  match d with
  | None => "Invalid Date"
  | Some c =>
      match f with
      | WeekdayShort => weekdayName (dayOfWeek (year c) (month c) (day c))
      | MonthShortDayNumeric =>
          (monthName (month c) ++ " " ++ decimal (day c))%string
      end
  end.

Definition formatTime (d : option civil) : string :=
  match d with
  | None => "Invalid Date"
  | Some c => (twoDigits (hour c) ++ ":" ++ twoDigits (minute c))%string
  end.

#[export] Instance platform : DatePlatform := {|
  Date := option civil;
  newDate := parse;
  getHours := option_map hour;
  getDate := option_map day;
  invalidDate := None;
  toLocaleDateString := formatDate;
  toLocaleTimeString := formatTime
|}.

(** The instant [new Date()] returns at [h]:[mi] on day [d] of month [m] of
    year [y]. *)
Definition at_ (y m d h mi : Z) : option civil :=
  Some {| year := y; month := m; day := d; hour := h; minute := mi |}.

End IsoLocal.

(** ** Specification vocabulary *)

(** The fallback chain [a1?.[i] || a2?.[i] || ... || dflt] the page writes
    out at each use, over the alias arrays in priority order. *)
Definition resolve (aliases : list (option numArray)) (i : nat)
  (dflt : value) : value :=
  fold_right (fun arr rest => or (optIndex arr i) rest) dflt aliases.

(** A value is present when it is neither [undefined] nor [null]. *)
Definition present (v : value) : bool :=
  match v with
  | Undefined | Null => false
  | _ => true
  end.

(** The field resolver in the words of the specification: the value of the
    first alias whose array exists and whose entry at [i] is present and
    not null, else the default. *)
Fixpoint specResolve (aliases : list (option numArray)) (i : nat)
  (dflt : value) : value :=
  match aliases with
  | [] => dflt
  | arr :: rest =>
      if present (optIndex arr i) then optIndex arr i
      else specResolve rest i dflt
  end.

(** No alias has a present entry at [i]. *)
Definition missingAt (i : nat) (aliases : list (option numArray)) : Prop :=
  Forall (fun arr => present (optIndex arr i) = false) aliases.

(** No alias has a truthy entry at [i]: each is absent, [null] or zero. *)
Definition falsyAt (i : nat) (aliases : list (option numArray)) : Prop :=
  Forall (fun arr => truthy (optIndex arr i) = false) aliases.

(** The daily mean in the words of the specification: the mean of the two
    bounds when both are present, the lone bound when one is, else [0]. *)
Definition specMeanTemperature (minV maxV : value) : value :=
  match present minV, present maxV with
  | true, true => half (add minV maxV)
  | true, false => minV
  | false, true => maxV
  | false, false => Num 0
  end.

(** [v] is a number equal to [q]. *)
Definition isNum (v : value) (q : Q) : Prop :=
  exists q', v = Num q' /\ q' == q.

(** The entries of an array paired with their indices. *)
Definition indexed {A} (l : list A) : list (nat * A) :=
  combine (seq 0 (List.length l)) l.

(** Indexed entries ordered by position. *)
Definition byIndex {A} (p p' : nat * A) : Prop := fst p < fst p'.

(** [currentData?.hourly?.time], read as empty when absent. *)
Definition hourlyTimes (currentData : option WeatherData) : list string :=
  orEmpty (qdot (qdot currentData hourly) h_time).

(** [currentData?.hourly?.f] *)
Definition hourlyField (currentData : option WeatherData)
  (f : Hourly -> option numArray) : option numArray :=
  qdot (qdot currentData hourly) f.

(** [data.daily?.time || []] for a response that exists. *)
Definition dailyTimesOf (data : WeatherData) : list string :=
  orEmpty (qdot (daily data) d_time).

(** [data.daily?.f] for a response that exists. *)
Definition dailyField {A} (data : WeatherData) (f : Daily -> option A)
  : option A :=
  qdot (daily data) f.

(** The hourly samples that pass the "after now" test, in input order. *)
Definition qualifying `{DatePlatform} (now : Date) (times : list string)
  : list (nat * string) :=
  filter (fun p => afterNow now (newDate (snd p))) (indexed times).

(** The number of samples before index [i] that pass the test. *)
Definition qualifyingBefore `{DatePlatform} (now : Date)
  (times : list string) (i : nat) : nat :=
  List.length (filter (fun t => afterNow now (newDate t)) (firstn i times)).

(** The element the loop of the temperature chart pushes at index [i], in
    closed form. *)
Definition temperatureSample `{DatePlatform}
  (currentData : option WeatherData) (time : Date) (i : nat)
  : TemperaturePoint :=
  {| tp_name := intToString (getHours time) ++ "h";
     tp_hour := getHours time;
     tp_temperature :=
       resolve [hourlyField currentData h_temperature_2m;
                hourlyField currentData h_temperature] i (Num 0);
     tp_feels_like :=
       resolve [hourlyField currentData h_apparent_temperature;
                hourlyField currentData h_apparentTemperature] i Null |}.

(** The closed forms of the other three hourly elements. *)
Definition precipitationSample `{DatePlatform}
  (currentData : option WeatherData) (time : Date) (i : nat)
  : PrecipitationPoint :=
  {| pp_name := intToString (getHours time) ++ "h";
     pp_probability :=
       resolve [hourlyField currentData h_precipitation_probability] i
               (Num 0);
     pp_amount :=
       resolve [hourlyField currentData h_precipitation;
                hourlyField currentData h_precipitation_sum] i (Num 0) |}.

Definition detailSample `{DatePlatform}
  (currentData : option WeatherData) (time : Date) (i : nat) : DetailBox :=
  {| db_key := i;
     db_hour := getHours time;
     db_humidity :=
       resolve [hourlyField currentData h_relative_humidity_2m;
                hourlyField currentData h_humidity] i (Num 0);
     db_windSpeed :=
       resolve [hourlyField currentData h_wind_speed_10m;
                hourlyField currentData h_wind_speed] i (Num 0) |}.

Definition conditionSample `{DatePlatform}
  (currentData : option WeatherData) (time : Date) (i : nat)
  : ConditionBox :=
  let weatherCode :=
    resolve [hourlyField currentData h_weather_code] i (Num 0) in
  {| cb_key := i;
     cb_hour := getHours time;
     cb_weatherIcon := hourlyWeatherIcon weatherCode;
     cb_description := hourlyDescription weatherCode |}.

(** The closed form of a point of the daily temperature chart. *)
Definition dailyTemperatureSample `{DatePlatform} (data : WeatherData)
  (date : string) (i : nat) : DailyTemperaturePoint :=
  let min := resolve [dailyField data d_temperature_2m_min] i (Num 0) in
  let max := resolve [dailyField data d_temperature_2m_max] i (Num 0) in
  {| dt_name := weekday date;
     dt_min := min;
     dt_max := max;
     dt_avg := half (add min max) |}.

(** The closed form of an entry of the historical chart. *)
Definition historicalSample `{DatePlatform} (data : WeatherData)
  (date : string) (i : nat) : HistoricalPoint :=
  {| hp_name := weekday date;
     hp_temperature :=
       resolve [dailyField data d_temperature_2m_min;
                dailyField data d_temperature_2m_mean;
                dailyField data d_temperature_2m_max] i (Num 0);
     hp_precipitation :=
       resolve [dailyField data d_precipitation_sum] i (Num 0) |}.

(** An integer weather code as the page receives it. *)
Definition codeOf (c : Z) : value := Num (inject_Z c).

(** The keys of [iconMap]. *)
Definition knownCodes : list Z :=
  [0; 1; 2; 3; 45; 48; 51; 53; 55; 61; 63; 65; 71; 73; 75; 77; 80; 81; 82;
   85; 86; 95; 96; 99]%Z.

(** ** Sample responses *)

Definition noHourly : Hourly := {|
  h_time := None;
  h_temperature_2m := None;
  h_temperature := None;
  h_apparent_temperature := None;
  h_apparentTemperature := None;
  h_relative_humidity_2m := None;
  h_humidity := None;
  h_wind_speed_10m := None;
  h_wind_speed := None;
  h_precipitation_probability := None;
  h_precipitation := None;
  h_precipitation_sum := None;
  h_weather_code := None
|}.

Definition noDaily : Daily := {|
  d_time := None;
  d_temperature_2m_min := None;
  d_temperature_2m_mean := None;
  d_temperature_2m_max := None;
  d_precipitation_sum := None;
  d_precipitation_probability_max := None;
  d_weather_code := None;
  d_wind_speed_10m := None;
  d_wind_speed := None;
  d_relative_humidity_2m := None;
  d_humidity := None;
  d_sunrise := None;
  d_sunset := None
|}.

(** An hourly section with the given times, the two temperature aliases
    and the primary feels-like alias. *)
Definition hourlyOf (time : list string)
  (temperature_2m temperature apparent_temperature : option numArray)
  : WeatherData :=
  {| hourly := Some {|
       h_time := Some time;
       h_temperature_2m := temperature_2m;
       h_temperature := temperature;
       h_apparent_temperature := apparent_temperature;
       h_apparentTemperature := None;
       h_relative_humidity_2m := None;
       h_humidity := None;
       h_wind_speed_10m := None;
       h_wind_speed := None;
       h_precipitation_probability := None;
       h_precipitation := None;
       h_precipitation_sum := None;
       h_weather_code := None |};
     daily := None |}.

(** A daily section with the given dates and the three temperature
    arrays. *)
Definition dailyOf (time : list string)
  (temperature_2m_min temperature_2m_mean temperature_2m_max
     : option numArray) : WeatherData :=
  {| hourly := None;
     daily := Some {|
       d_time := Some time;
       d_temperature_2m_min := temperature_2m_min;
       d_temperature_2m_mean := temperature_2m_mean;
       d_temperature_2m_max := temperature_2m_max;
       d_precipitation_sum := None;
       d_precipitation_probability_max := None;
       d_weather_code := None;
       d_wind_speed_10m := None;
       d_wind_speed := None;
       d_relative_humidity_2m := None;
       d_humidity := None;
       d_sunrise := None;
       d_sunset := None |} |}.

(** The three stamps of the end-to-end scenario. *)
Definition scenarioTimes : list string :=
  ["2024-01-01T05:00"; "2024-01-01T06:00"; "2024-01-01T07:00"].

(** Twenty-five stamps, 00:00 to 23:00 of 2 January 2024 and 00:00 of
    3 January 2024. *)
Definition twentyFiveHours : list string :=
  (map (fun h =>
          ("2024-01-02T" ++ IsoLocal.twoDigits (Z.of_nat h) ++ ":00")%string)
       (seq 0 24) ++ ["2024-01-03T00:00"])%list.

(** The scenario response: the three stamps with some temperatures. *)
Definition scenarioData : option WeatherData :=
  Some (hourlyOf scenarioTimes
          (Some [Some (21 # 1); Some (22 # 1); Some (23 # 1)]) None None).

(** A week of dates with minimum and maximum temperatures. *)
Definition weekData : WeatherData :=
  dailyOf ["2024-01-01"; "2024-01-02"; "2024-01-03"]
          (Some [Some (10 # 1); Some (11 # 1); None]) None
          (Some [Some (20 # 1); None; None]).

(** One stamp where the primary temperature and feels-like aliases hold a
    zero and the legacy temperature alias holds 5. *)
Definition zeroPrimaryData : WeatherData :=
  hourlyOf ["2024-01-02T06:00"] (Some [Some 0%Q]) (Some [Some (5 # 1)])
           (Some [Some 0%Q]).

(** The same stamp with no feels-like array at all. *)
Definition noFeelsLikeData : WeatherData :=
  hourlyOf ["2024-01-02T06:00"] (Some [Some 0%Q]) (Some [Some (5 # 1)]) None.

(** One day with only the maximum temperature, 20. *)
Definition onlyMaxData : WeatherData :=
  dailyOf ["2024-01-01"] None None (Some [Some (20 # 1)]).

(** One day with only the mean temperature, 18. *)
Definition onlyMeanData : WeatherData :=
  dailyOf ["2024-01-01"] None (Some [Some (18 # 1)]) None.

(** One day with no temperature at all. *)
Definition noTemperatureData : WeatherData :=
  dailyOf ["2024-01-01"] None None None.

(** One day with a minimum of 0 and a mean of 18. *)
Definition zeroMinData : WeatherData :=
  dailyOf ["2024-01-01"] (Some [Some 0%Q]) (Some [Some (18 # 1)]) None.

(** Forty-eight stamps: every hour of 10 and of 11 March 2024. *)
Definition twoDaysOfHours : list string :=
  (map (fun h =>
          ("2024-03-10T" ++ IsoLocal.twoDigits (Z.of_nat h) ++ ":00")%string)
       (seq 0 24) ++
   map (fun h =>
          ("2024-03-11T" ++ IsoLocal.twoDigits (Z.of_nat h) ++ ":00")%string)
       (seq 0 24))%list.

(** The icon tags of the range chains. *)
Definition rangeIcons : list string :=
  ["wb_sunny"; "cloud"; "grain"; "ac_unit"; "rainy"; "thunderstorm"].

(** The category names of the range chains. *)
Definition rangeDescriptions : list string :=
  ["Clear"; "Cloudy"; "Drizzle"; "Rain"; "Snow"; "Showers"; "Thunder"].



(** One day with the given weather code, sunrise and sunset entries. *)
Definition dayWith (code : option Q) (sunrise sunset : option string)
  : WeatherData :=
  {| hourly := None;
     daily := Some {|
       d_time := Some ["2024-03-10"];
       d_temperature_2m_min := None;
       d_temperature_2m_mean := None;
       d_temperature_2m_max := None;
       d_precipitation_sum := None;
       d_precipitation_probability_max := None;
       d_weather_code := Some [code];
       d_wind_speed_10m := None;
       d_wind_speed := None;
       d_relative_humidity_2m := None;
       d_humidity := None;
       d_sunrise := Some [sunrise];
       d_sunset := Some [sunset] |} |}.

(** The text of a sunrise or sunset entry, in closed form. *)
Definition sunText `{DatePlatform} (entry : option string) : string :=
  match entry with
  | Some s =>
      if negb (s =? "")%string then toLocaleTimeString (newDate s) else "–"
  | None => "–"
  end.

(** The closed forms of a daily card, of a bar pair of the daily
    precipitation chart and of a daily tile. *)
Definition dailyCardSample `{DatePlatform} (data : WeatherData)
  (date : string) (i : nat) : DailyCard :=
  let weatherCode := resolve [dailyField data d_weather_code] i (Num 0) in
  {| dc_key := date;
     dc_day := weekday date;
     dc_dateFormatted :=
       toLocaleDateString (newDate date) MonthShortDayNumeric;
     dc_weatherIcon := fst (dailyIconDescription weatherCode);
     dc_description := snd (dailyIconDescription weatherCode);
     dc_min := resolve [dailyField data d_temperature_2m_min] i (Num 0);
     dc_max := resolve [dailyField data d_temperature_2m_max] i (Num 0);
     dc_precipProb :=
       resolve [dailyField data d_precipitation_probability_max] i (Num 0);
     dc_precipSum := resolve [dailyField data d_precipitation_sum] i (Num 0);
     dc_windSpeed :=
       resolve [dailyField data d_wind_speed_10m;
                dailyField data d_wind_speed] i (Num 0);
     dc_humidity :=
       resolve [dailyField data d_relative_humidity_2m;
                dailyField data d_humidity] i (Num 0);
     dc_sunrise := sunText (optIndexStr (dailyField data d_sunrise) i);
     dc_sunset := sunText (optIndexStr (dailyField data d_sunset) i) |}.


Definition dailyTileSample `{DatePlatform} (data : WeatherData)
  (date : string) (i : nat) : DailyConditionTile :=
  {| dn_key := date;
     dn_day := weekday date;
     dn_weatherIcon :=
       getWeatherIcon
         (nullish (optIndex (dailyField data d_weather_code) i) (Num 0));
     dn_windSpeed :=
       resolve [dailyField data d_wind_speed_10m;
                dailyField data d_wind_speed] i (Num 0) |}.

(** ** The device identifier

    The functions [generateUUID], [getDeviceId] and [clearDeviceId] that
    follow the user context in
    [src/client/src/components/UserContext.tsx].  They read the browser's
    [localStorage] and [Math.random]; what they print through
    [console.error] is left out. *)

Module Browser.

(** What a storage call can raise. *)
Inductive domError : Type := SecurityError | QuotaExceededError.

Inductive attempt (A : Type) : Type :=
| Done (a : A)
| Raised (e : domError).
Arguments Done {A} a.
Arguments Raised {A} e.

(** [localStorage]: when it is not accessible every call raises; when it is
    full [setItem] raises and the other calls work. *)
Record Storage : Type := {
  accessible : bool;
  full : bool;
  items : list (string * string)
}.

Fixpoint lookup (key : string) (l : list (string * string))
  : option string :=
  match l with
  | [] => None
  | (k, v) :: rest => if (k =? key)%string then Some v else lookup key rest
  end.

Definition remove (key : string) (l : list (string * string))
  : list (string * string) :=
  filter (fun p => negb (fst p =? key)%string) l.

Definition getItem (st : Storage) (key : string) : attempt (option string) :=
  if accessible st then Done (lookup key (items st))
  else Raised SecurityError.

Definition setItem (st : Storage) (key value : string) : attempt Storage :=
  if accessible st then
    if full st then Raised QuotaExceededError
    else Done {| accessible := true;
                 full := false;
                 items := (key, value) :: remove key (items st) |}
  else Raised SecurityError.

Definition removeItem (st : Storage) (key : string) : attempt Storage :=
  if accessible st then
    Done {| accessible := true;
            full := full st;
            items := remove key (items st) |}
  else Raised SecurityError.

(** [x | 0]: truncation towards zero, wrapped to a signed 32-bit
    integer. *)
Definition toInt32 (x : Q) : Z :=
  let t := Z.quot (Qnum x) (Z.pos (Qden x)) in
  ((t + 2 ^ 31) mod 2 ^ 32 - 2 ^ 31)%Z.

(** [v.toString(16)] on an integer. *)
Definition toString16 (v : Z) : string :=
  HexadecimalString.NilZero.string_of_int (Z.to_hex_int v).

End Browser.

Module DeviceId.

Import Browser.

Definition DEVICE_ID_KEY : string := "device_id".

Definition template : string := "xxxxxxxx-xxxx-4xxx-yxxx-xxxxxxxxxxxx".

(** The callback of [replace]: [random] is the value [Math.random()]
    returns for this character. *)
Definition replacement (c : ascii) (random : Q) : string :=
  let r := toInt32 (random * 16) in
  let v := if Ascii.eqb c "x" then r else Z.lor (Z.land r 3) 8 in
  toString16 v.

(** [tmpl.replace(/[xy]/g, callback)]: [rnd j] is the value of the [j]-th
    call of [Math.random] and [k] the number of calls made so far; the
    result comes with the number of calls made afterwards. *)
Fixpoint replaceXY (rnd : nat -> Q) (tmpl : string) (k : nat)
  : string * nat :=
  match tmpl with
  | EmptyString => (EmptyString, k)
  | String c rest =>
      if Ascii.eqb c "x" || Ascii.eqb c "y" then
        let '(s, k') := replaceXY rnd rest (S k) in
        ((replacement c (rnd k) ++ s)%string, k')
      else
        let '(s, k') := replaceXY rnd rest k in
        (String c s, k')
  end.

Definition generateUUID (rnd : nat -> Q) (k : nat) : string * nat :=
  replaceXY rnd template k.

(** [!deviceId] on what [getItem] returns: [null] and the empty string are
    falsy. *)
Definition absent (deviceId : option string) : bool :=
  match deviceId with
  | Some s => (s =? "")%string
  | None => true
  end.

(** The identifier returned, the storage and the number of [Math.random]
    calls afterwards. *)
Definition getDeviceId (rnd : nat -> Q) (st : Storage) (k : nat)
  : string * Storage * nat :=
  match getItem st DEVICE_ID_KEY with
  | Done deviceId =>
      if absent deviceId then
        let '(fresh, k1) := generateUUID rnd k in
        match setItem st DEVICE_ID_KEY fresh with
        | Done st' => (fresh, st', k1)
        | Raised _ =>
            let '(fallback, k2) := generateUUID rnd k1 in
            (fallback, st, k2)
        end
      else
        match deviceId with
        | Some s => (s, st, k)
        | None => (EmptyString, st, k)
        end
  | Raised _ =>
      let '(fallback, k1) := generateUUID rnd k in
      (fallback, st, k1)
  end.

Definition clearDeviceId (st : Storage) : Storage :=
  match removeItem st DEVICE_ID_KEY with
  | Done st' => st'
  | Raised _ => st
  end.

(** The shape of one character of an identifier against the character of
    the template at the same place. *)
Definition hexDigits : list ascii :=
  list_ascii_of_string "0123456789abcdef".

Definition variantDigits : list ascii := list_ascii_of_string "89ab".

Definition charMatches (t c : ascii) : Prop :=
  if Ascii.eqb t "x" then In c hexDigits
  else if Ascii.eqb t "y" then In c variantDigits
  else c = t.

(** A string of the form [xxxxxxxx-xxxx-4xxx-yxxx-xxxxxxxxxxxx], with a
    lower-case hexadecimal digit for each [x] and one of 8, 9, a, b for
    [y]. *)
Definition wellFormed (id : string) : Prop :=
  Forall2 charMatches (list_ascii_of_string template)
          (list_ascii_of_string id).

(** [Math.random] returns a number from 0 inclusive to 1 exclusive. *)
Definition unitInterval (rnd : nat -> Q) : Prop :=
  forall j, (0 <= rnd j)%Q /\ (rnd j < 1)%Q.

(** A storage that works. *)
Definition working (st : Storage) : Prop :=
  accessible st = true /\ full st = false.

End DeviceId.

(** ** The user context

    The state of [UserProvider] and its three asynchronous operations, each
    taken as the change of state it has made once it settles; the outcome
    of the network call is an argument. *)

Module UserContext.

Import Browser.

Section Provider.

(** Modelled from the spec: [User] and [UserProfile] are declared in
    [@/types], which is not part of the sources at hand; the fields of
    [User] are those of the demo user the provider builds, and
    [UserProfile] is left open. *)
Variable UserProfile : Type.

Record User : Type := {
  u_id : Z;
  u_username : string;
  u_hasSurveyCompleted : bool;
  u_userProfile : option UserProfile;
  u_deviceId : string
}.

(** The three [useState] cells. *)
Record State : Type := {
  s_user : option User;
  s_loading : bool;
  s_hasSurveyCompleted : bool
}.

Definition initial : State :=
  {| s_user := None; s_loading := true; s_hasSurveyCompleted := false |}.

Definition setUser (u : option User) (s : State) : State :=
  {| s_user := u;
     s_loading := s_loading s;
     s_hasSurveyCompleted := s_hasSurveyCompleted s |}.

Definition setLoading (b : bool) (s : State) : State :=
  {| s_user := s_user s;
     s_loading := b;
     s_hasSurveyCompleted := s_hasSurveyCompleted s |}.

Definition setHasSurveyCompleted (b : bool) (s : State) : State :=
  {| s_user := s_user s;
     s_loading := s_loading s;
     s_hasSurveyCompleted := b |}.

(** [!!user && user.id !== 0] *)
Definition isAuthenticated (s : State) : bool :=
  match s_user s with
  | Some u => negb (u_id u =? 0)%Z
  | None => false
  end.

(** What [response.json()] gives for the profile request: a rejection, the
    value [null], or a user. *)
Inductive Body : Type :=
| BodyUnreadable
| BodyNull
| BodyUser (u : User).

(** How [fetch] settles: rejected, or resolved with a response. *)
Inductive FetchResult : Type :=
| FetchRejected
| Response (ok : bool) (body : Body).

Definition demoUser (deviceId : string) : User :=
  {| u_id := 0;
     u_username := "device_" ++ substring 0 8 deviceId;
     u_hasSurveyCompleted := false;
     u_userProfile := None;
     u_deviceId := deviceId |}.

(** The [catch] block of [fetchUser]. *)
Definition fetchUserCaught (rnd : nat -> Q) (st : Storage) (k : nat)
  (s : State) : State * Storage * nat :=
  let '(deviceId, st', k') := DeviceId.getDeviceId rnd st k in
  (setUser (Some (demoUser deviceId)) s, st', k').

(** [fetchUser], with its [finally] block. *)
Definition fetchUser (rnd : nat -> Q) (res : FetchResult) (st : Storage)
  (k : nat) (s : State) : State * Storage * nat :=
  let '(deviceId, st1, k1) := DeviceId.getDeviceId rnd st k in
  let '(s', st', k') :=
    match res with
    | FetchRejected => fetchUserCaught rnd st1 k1 s
    | Response true BodyUnreadable => fetchUserCaught rnd st1 k1 s
    | Response true BodyNull => fetchUserCaught rnd st1 k1 (setUser None s)
    | Response true (BodyUser userData) =>
        (setHasSurveyCompleted (u_hasSurveyCompleted userData)
           (setUser (Some userData) s), st1, k1)
    | Response false _ => (setUser (Some (demoUser deviceId)) s, st1, k1)
    end in
  (setLoading false s', st', k').

Inductive Toast : Type := ProfileUpdated | UpdateFailed | LoggedOut.

(** How the [apiRequest] of [updateUserProfile] settles; a resolved
    response carries whether it is ok and what [response.json()] gives, a
    rejection ([None]) or the updated user. *)
Inductive UpdateResult : Type :=
| UpdateRejected
| UpdateResponse (ok : bool) (updatedUser : option User).

Definition updateUserProfile (rnd : nat -> Q) (res : UpdateResult)
  (st : Storage) (k : nat) (s : State)
  : State * Storage * nat * option Toast :=
  let '(deviceId, st1, k1) := DeviceId.getDeviceId rnd st k in
  match res with
  | UpdateRejected => (s, st1, k1, Some UpdateFailed)
  | UpdateResponse true None => (s, st1, k1, Some UpdateFailed)
  | UpdateResponse true (Some updatedUser) =>
      (setUser
         (match s_user s with
          | Some prevUser =>
              Some {| u_id := u_id prevUser;
                      u_username := u_username prevUser;
                      u_hasSurveyCompleted := u_hasSurveyCompleted prevUser;
                      u_userProfile := u_userProfile updatedUser;
                      u_deviceId := u_deviceId prevUser |}
          | None => None
          end) s,
       st1, k1, Some ProfileUpdated)
  | UpdateResponse false _ => (s, st1, k1, None)
  end.

(** [logout]; [resolved] tells whether the [apiRequest] resolved. *)
Definition logout (rnd : nat -> Q) (resolved : bool) (st : Storage)
  (k : nat) (s : State) : State * Storage * nat * option Toast :=
  let '(deviceId, st1, k1) := DeviceId.getDeviceId rnd st k in
  if resolved then (setUser None s, st1, k1, Some LoggedOut)
  else (s, st1, k1, None).

End Provider.

Arguments u_id {UserProfile} u.
Arguments u_username {UserProfile} u.
Arguments u_hasSurveyCompleted {UserProfile} u.
Arguments u_userProfile {UserProfile} u.
Arguments u_deviceId {UserProfile} u.
Arguments s_user {UserProfile} s.
Arguments s_loading {UserProfile} s.
Arguments s_hasSurveyCompleted {UserProfile} s.
Arguments initial {UserProfile}.
Arguments setUser {UserProfile} u s.
Arguments setLoading {UserProfile} b s.
Arguments setHasSurveyCompleted {UserProfile} b s.
Arguments fetchUserCaught {UserProfile} rnd st k s.
Arguments isAuthenticated {UserProfile} s.
Arguments demoUser {UserProfile} deviceId.
Arguments FetchRejected {UserProfile}.
Arguments Response {UserProfile} ok body.
Arguments BodyUnreadable {UserProfile}.
Arguments BodyNull {UserProfile}.
Arguments BodyUser {UserProfile} u.
Arguments UpdateRejected {UserProfile}.
Arguments UpdateResponse {UserProfile} ok updatedUser.
Arguments fetchUser {UserProfile} rnd res st k s.
Arguments updateUserProfile {UserProfile} rnd res st k s.
Arguments logout {UserProfile} rnd resolved st k s.

End UserContext.

(** A working, empty storage and a source of random numbers. *)
Definition emptyStorage : Browser.Storage :=
  {| Browser.accessible := true; Browser.full := false;
     Browser.items := [] |}.

Definition blockedStorage : Browser.Storage :=
  {| Browser.accessible := false; Browser.full := false;
     Browser.items := [] |}.

Definition fullStorage : Browser.Storage :=
  {| Browser.accessible := true; Browser.full := true;
     Browser.items := [] |}.

(** A sequence of numbers of the unit interval. *)
Definition sampleRandom (j : nat) : Q :=
  (Z.of_nat ((7 * j + 3) mod 37) # 37).

(** ** Properties *)

Example twentyFiveHours_ends :
  nth_error twentyFiveHours 0 = Some "2024-01-02T00:00" /\
  nth_error twentyFiveHours 23 = Some "2024-01-02T23:00" /\
  nth_error twentyFiveHours 24 = Some "2024-01-03T00:00" /\
  List.length twentyFiveHours = 25.
Proof. repeat split. Qed.

Example parse_hourly_stamp :
  IsoLocal.parse "2024-01-01T05:00" = IsoLocal.at_ 2024 1 1 5 0.
Proof. reflexivity. Qed.

Example weekday_of_2024_01_01 :
  weekday (H := IsoLocal.platform) "2024-01-01" = "Mon".
Proof. reflexivity. Qed.

(** *** The [||] chains *)

Lemma or_assoc (a b c : value) : or (or a b) c = or a (or b c).
Proof.
  unfold or. destruct (truthy a) eqn:Ha.
  - now rewrite Ha.
  - reflexivity.
Qed.

Lemma orM_Ok (a b : value) : orM (Ok a) (Ok b) = Ok (or a b).
Proof. unfold orM, or. simpl. now destruct (truthy a). Qed.

Lemma present_of_truthy (v : value) : truthy v = true -> present v = true.
Proof. now destruct v. Qed.

Lemma or_falsy (a b : value) : truthy a = false -> or a b = b.
Proof. unfold or. now intros ->. Qed.

Lemma or_truthy (a b : value) : truthy a = true -> or a b = a.
Proof. unfold or. now intros ->. Qed.

(** The chain returns the first truthy alias value. *)
Lemma resolve_first_truthy (before after : list (option numArray))
  (arr : option numArray) (i : nat) (dflt : value) :
  Forall (fun a => truthy (optIndex a i) = false) before ->
  truthy (optIndex arr i) = true ->
  resolve (before ++ arr :: after) i dflt = optIndex arr i.
Proof.
  intros Hb Ht. induction Hb as [|a l Ha _ IH]; simpl.
  - now apply or_truthy.
  - rewrite (or_falsy _ _ Ha). exact IH.
Qed.

(** With no truthy alias value the chain returns the default. *)
Lemma resolve_none_truthy (aliases : list (option numArray)) (i : nat)
  (dflt : value) :
  Forall (fun a => truthy (optIndex a i) = false) aliases ->
  resolve aliases i dflt = dflt.
Proof.
  intros Hb. induction Hb as [|a l Ha _ IH]; simpl.
  - reflexivity.
  - now rewrite (or_falsy _ _ Ha).
Qed.

(** An array entry is a number, [null] or [undefined], never NaN. *)
Lemma optIndex_cases (arr : option numArray) (i : nat) :
  optIndex arr i = Undefined \/ optIndex arr i = Null \/
  exists q, optIndex arr i = Num q.
Proof.
  destruct arr as [l|]; simpl; [|now left].
  destruct (nth_error l i) as [[q|]|]; eauto.
Qed.

(** Where no present alias value is zero, the chain is the resolver of the
    specification. *)
Lemma resolve_specResolve (aliases : list (option numArray)) (i : nat)
  (dflt : value) :
  Forall (fun a => present (optIndex a i) = truthy (optIndex a i)) aliases ->
  resolve aliases i dflt = specResolve aliases i dflt.
Proof.
  intros Hb. induction Hb as [|a l Ha _ IH]; simpl.
  - reflexivity.
  - rewrite Ha. unfold or. destruct (truthy (optIndex a i)); [reflexivity|].
    exact IH.
Qed.

(** *** Classification of integer codes *)

Lemma le_codeOf (c n : Z) : le (codeOf c) n = (c <=? n)%Z.
Proof.
  unfold le, codeOf, Qle_bool. simpl. now rewrite !Z.mul_1_r.
Qed.

Lemma iconMapGet_codeOf (c : Z) : iconMapGet (codeOf c) = assocZ c iconMap.
Proof.
  unfold iconMapGet, codeOf.
  rewrite (Qcanon.Qred_identity (inject_Z c)) by apply Z.gcd_1_r.
  reflexivity.
Qed.

Lemma assocZ_None (c : Z) (m : list (Z * string)) :
  ~ In c (map fst m) -> assocZ c m = None.
Proof.
  induction m as [|[k v] m IH]; simpl; intros Hn; [reflexivity|].
  destruct (Z.eqb_spec c k) as [->|_]; [exfalso; auto|].
  apply IH. auto.
Qed.

Lemma knownCodes_keys : map fst iconMap = knownCodes.
Proof. reflexivity. Qed.

Ltac by_bands c :=
  rewrite ?le_codeOf;
  repeat match goal with
         | |- context [(c <=? ?n)%Z] => destruct (Z.leb_spec c n)
         end;
  try reflexivity; try lia.

Lemma hourlyDescription_bands (c : Z) :
  hourlyDescription (codeOf c) =
  if (c <=? 3)%Z then "Clear"
  else if (c <=? 49)%Z then "Cloudy"
  else if (c <=? 59)%Z then "Drizzle"
  else if (c <=? 69)%Z then "Rain"
  else if (c <=? 79)%Z then "Snow"
  else if (c <=? 82)%Z then "Showers"
  else if (c <=? 86)%Z then "Snow"
  else "Thunder".
Proof. unfold hourlyDescription. now rewrite !le_codeOf. Qed.

Lemma dailyDescription_hourly (v : value) :
  snd (dailyIconDescription v) = hourlyDescription v.
Proof.
  unfold dailyIconDescription, hourlyDescription.
  repeat match goal with
         | |- context [le v ?n] => destruct (le v n)
         end; reflexivity.
Qed.

Lemma hourlyDescription_named (v : value) :
  In (hourlyDescription v)
     ["Clear"; "Cloudy"; "Drizzle"; "Rain"; "Snow"; "Showers"; "Thunder"].
Proof.
  unfold hourlyDescription.
  repeat match goal with
         | |- context [le v ?n] => destruct (le v n)
         end; simpl; tauto.
Qed.

Lemma getWeatherIcon_unlisted (c : Z) :
  ~ In c knownCodes -> getWeatherIcon (codeOf c) = "help_outline".
Proof.
  intros Hn. unfold getWeatherIcon.
  rewrite iconMapGet_codeOf, assocZ_None; [reflexivity|].
  now rewrite knownCodes_keys.
Qed.

(** C4, as amended.  On integer codes the range chains are total and give
    exactly one of the seven named categories, never "Unknown": at most 3
    is Clear, then up to 49 Cloudy, up to 59 Drizzle, up to 69 Rain, up to
    79 Snow, up to 82 Showers, up to 86 Snow, and anything above 86 is
    Thunder; the hourly and the daily chain give the same description.  The
    exact-match table gives the icon of the daily range chain on every code
    it lists except 2 and 3, and the icon of the hourly range chain on every
    listed code except 2, 3, 61, 63 and 65.  A code the exact-match table
    does not list gets its "help_outline" icon.  Codes 0, 61 and 95 are
    Clear, Rain and Thunder. *)
Theorem classifier_total_tables_agree (c : Z) :
  (exists! d, hourlyDescription (codeOf c) = d) /\
  In (hourlyDescription (codeOf c))
     ["Clear"; "Cloudy"; "Drizzle"; "Rain"; "Snow"; "Showers"; "Thunder"] /\
  hourlyDescription (codeOf c) <> "Unknown" /\
  snd (dailyIconDescription (codeOf c)) = hourlyDescription (codeOf c) /\
  ((c <= 3)%Z -> hourlyDescription (codeOf c) = "Clear") /\
  ((3 < c <= 49)%Z -> hourlyDescription (codeOf c) = "Cloudy") /\
  ((49 < c <= 59)%Z -> hourlyDescription (codeOf c) = "Drizzle") /\
  ((59 < c <= 69)%Z -> hourlyDescription (codeOf c) = "Rain") /\
  ((69 < c <= 79)%Z -> hourlyDescription (codeOf c) = "Snow") /\
  ((79 < c <= 82)%Z -> hourlyDescription (codeOf c) = "Showers") /\
  ((82 < c <= 86)%Z -> hourlyDescription (codeOf c) = "Snow") /\
  ((86 < c)%Z -> hourlyDescription (codeOf c) = "Thunder") /\
  (In c knownCodes -> c <> 2%Z -> c <> 3%Z ->
   getWeatherIcon (codeOf c) = fst (dailyIconDescription (codeOf c))) /\
  (In c knownCodes -> ~ In c [2; 3; 61; 63; 65]%Z ->
   getWeatherIcon (codeOf c) = hourlyWeatherIcon (codeOf c)) /\
  (~ In c knownCodes -> getWeatherIcon (codeOf c) = "help_outline") /\
  hourlyDescription (codeOf 0) = "Clear" /\
  hourlyDescription (codeOf 61) = "Rain" /\
  hourlyDescription (codeOf 95) = "Thunder".
Proof.
  split; [exists (hourlyDescription (codeOf c)); split; congruence|].
  split; [apply hourlyDescription_named|].
  split.
  { pose proof (hourlyDescription_named (codeOf c)) as Hin.
    intros Heq. rewrite Heq in Hin. simpl in Hin.
    repeat destruct Hin as [Hin|Hin]; try discriminate; contradiction. }
  split; [apply dailyDescription_hourly|].
  repeat split; try reflexivity;
    try (intros Hc; rewrite hourlyDescription_bands; by_bands c).
  - intros Hin H2 H3. simpl in Hin.
    repeat destruct Hin as [Hin|Hin]; subst; try reflexivity;
      try contradiction; congruence.
  - intros Hin Hex. simpl in Hin, Hex.
    repeat destruct Hin as [Hin|Hin]; subst; try reflexivity;
      try contradiction; exfalso; apply Hex; tauto.
  - apply getWeatherIcon_unlisted.
Qed.

Lemma classifier_total_tables_agree_witness :
  getWeatherIcon (codeOf 61) = fst (dailyIconDescription (codeOf 61)) /\
  getWeatherIcon (codeOf 95) = hourlyWeatherIcon (codeOf 95) /\
  getWeatherIcon (codeOf 100) = "help_outline" /\
  hourlyDescription (codeOf 100) = "Thunder".
Proof.
  destruct (classifier_total_tables_agree 61)
    as (_ & _ & _ & _ & _ & _ & _ & _ & _ & _ & _ & _ & Hd & _).
  destruct (classifier_total_tables_agree 95)
    as (_ & _ & _ & _ & _ & _ & _ & _ & _ & _ & _ & _ & _ & Hh & _).
  destruct (classifier_total_tables_agree 100)
    as (_ & _ & _ & _ & _ & _ & _ & _ & _ & _ & _ & Ht & _ & _ & Hu & _).
  split; [apply Hd; [simpl; tauto | discriminate | discriminate]|].
  split; [apply Hh; [simpl; tauto | simpl; intuition discriminate]|].
  split; [apply Hu; simpl; intuition discriminate|].
  apply Ht. reflexivity.
Defined.

(** C4 as stated fails: code 2 is a key of the exact-match table, which
    gives it the "cloud" icon, while both range chains give "wb_sunny";
    and code 100, in neither list of codes, is Thunder, not Unknown. *)
Lemma classifier_tables_disagree_at_2 :
  In 2%Z knownCodes /\
  getWeatherIcon (codeOf 2) = "cloud" /\
  hourlyWeatherIcon (codeOf 2) = "wb_sunny" /\
  fst (dailyIconDescription (codeOf 2)) = "wb_sunny" /\
  getWeatherIcon (codeOf 2) <> hourlyWeatherIcon (codeOf 2) /\
  ~ In 100%Z knownCodes /\
  hourlyDescription (codeOf 100) = "Thunder".
Proof.
  repeat split; try reflexivity; try (simpl; tauto); try discriminate.
  simpl. intuition discriminate.
Qed.

(** *** The samples built at one index *)

Section Samples.

Context `{DatePlatform}.

Lemma hourlyAt_some (wd : WeatherData) (h : Hourly)
  (f : Hourly -> option numArray) (i : nat) :
  hourly wd = Some h ->
  hourlyAt (Some wd) f i = Ok (optIndex (f h) i).
Proof. unfold hourlyAt. simpl. now intros ->. Qed.

Lemma dailyAt_some (wd : WeatherData) (f : Daily -> option numArray)
  (i : nat) :
  dailyAt (Some wd) f i = Ok (optIndex (dailyField wd f) i).
Proof. reflexivity. Qed.

Ltac chains :=
  rewrite ?orM_Ok; cbn [bind]; rewrite ?orM_Ok; cbn [bind];
  rewrite ?or_assoc; reflexivity.

Lemma temperaturePoint_some (wd : WeatherData) (h : Hourly) (time : Date)
  (i : nat) :
  hourly wd = Some h ->
  temperaturePoint (Some wd) time i =
  Ok {| tp_name := intToString (getHours time) ++ "h";
        tp_hour := getHours time;
        tp_temperature :=
          resolve [h_temperature_2m h; h_temperature h] i (Num 0);
        tp_feels_like :=
          resolve [h_apparent_temperature h; h_apparentTemperature h] i
                  Null |}.
Proof.
  intros Hh. unfold temperaturePoint, resolve.
  rewrite !(hourlyAt_some wd h) by assumption. chains.
Qed.

Lemma precipitationPoint_some (wd : WeatherData) (h : Hourly) (time : Date)
  (i : nat) :
  hourly wd = Some h ->
  precipitationPoint (Some wd) time i =
  Ok {| pp_name := intToString (getHours time) ++ "h";
        pp_probability := resolve [h_precipitation_probability h] i (Num 0);
        pp_amount :=
          resolve [h_precipitation h; h_precipitation_sum h] i (Num 0) |}.
Proof.
  intros Hh. unfold precipitationPoint, resolve.
  rewrite !(hourlyAt_some wd h) by assumption. chains.
Qed.

Lemma detailBox_some (wd : WeatherData) (h : Hourly) (time : Date)
  (i : nat) :
  hourly wd = Some h ->
  detailBox (Some wd) time i =
  Ok {| db_key := i;
        db_hour := getHours time;
        db_humidity :=
          resolve [h_relative_humidity_2m h; h_humidity h] i (Num 0);
        db_windSpeed :=
          resolve [h_wind_speed_10m h; h_wind_speed h] i (Num 0) |}.
Proof.
  intros Hh. unfold detailBox, resolve.
  rewrite !(hourlyAt_some wd h) by assumption. chains.
Qed.

Lemma conditionBox_some (wd : WeatherData) (h : Hourly) (time : Date)
  (i : nat) :
  hourly wd = Some h ->
  conditionBox (Some wd) time i =
  Ok {| cb_key := i;
        cb_hour := getHours time;
        cb_weatherIcon :=
          hourlyWeatherIcon (resolve [h_weather_code h] i (Num 0));
        cb_description :=
          hourlyDescription (resolve [h_weather_code h] i (Num 0)) |}.
Proof.
  intros Hh. unfold conditionBox, resolve.
  rewrite !(hourlyAt_some wd h) by assumption. chains.
Qed.

Lemma dailyTemperaturePoint_some (wd : WeatherData) (date : string)
  (i : nat) :
  dailyTemperaturePoint (Some wd) date i =
  Ok {| dt_name := weekday date;
        dt_min := resolve [dailyField wd d_temperature_2m_min] i (Num 0);
        dt_max := resolve [dailyField wd d_temperature_2m_max] i (Num 0);
        dt_avg :=
          half (add (resolve [dailyField wd d_temperature_2m_min] i (Num 0))
                    (resolve [dailyField wd d_temperature_2m_max] i (Num 0)))
     |}.
Proof.
  unfold dailyTemperaturePoint, resolve. rewrite !dailyAt_some. chains.
Qed.

Lemma dailyPrecipitationPoint_some (wd : WeatherData) (date : string)
  (i : nat) :
  dailyPrecipitationPoint (Some wd) date i =
  Ok {| dp_name := weekday date;
        dp_amount := resolve [dailyField wd d_precipitation_sum] i (Num 0);
        dp_probability :=
          resolve [dailyField wd d_precipitation_probability_max] i (Num 0)
     |}.
Proof.
  unfold dailyPrecipitationPoint, resolve. rewrite !dailyAt_some. chains.
Qed.

Lemma dailyConditionTile_some (wd : WeatherData) (date : string) (i : nat) :
  dailyConditionTile (Some wd) date i =
  Ok {| dn_key := date;
        dn_day := weekday date;
        dn_weatherIcon :=
          getWeatherIcon
            (nullish (optIndex (dailyField wd d_weather_code) i) (Num 0));
        dn_windSpeed :=
          resolve [dailyField wd d_wind_speed_10m; dailyField wd d_wind_speed]
                  i (Num 0) |}.
Proof.
  unfold dailyConditionTile, resolve. rewrite !dailyAt_some. cbn [bind].
  chains.
Qed.

Lemma historicalPoint_some (wd : WeatherData) (date : string) (i : nat) :
  historicalPoint (Some wd) date i =
  Ok {| hp_name := weekday date;
        hp_temperature :=
          resolve [dailyField wd d_temperature_2m_min;
                   dailyField wd d_temperature_2m_mean;
                   dailyField wd d_temperature_2m_max] i (Num 0);
        hp_precipitation :=
          resolve [dailyField wd d_precipitation_sum] i (Num 0) |}.
Proof.
  unfold historicalPoint, resolve. rewrite !dailyAt_some. chains.
Qed.

(** The sunrise and sunset texts: the formatted time of a non-empty entry,
    else the dash. *)
Lemma sunTime_some (wd : WeatherData) (f : Daily -> option strArray)
  (i : nat) :
  sunTime (Some wd) f i =
  Ok (match optIndexStr (dailyField wd f) i with
      | Some s =>
          if negb (s =? "")%string then toLocaleTimeString (newDate s)
          else "–"
      | None => "–"
      end).
Proof.
  unfold sunTime, dailyField. cbn [dot bind].
  destruct (daily wd) as [dl|]; cbn [qdot]; [|reflexivity].
  destruct (f dl) as [arr|] eqn:Hf; cbn [optIndexStr truthyStr];
    [|reflexivity].
  unfold index, optIndexStr.
  destruct (nth_error arr i) as [[s|]|] eqn:Hn; cbn [truthyStr];
    try reflexivity.
  destruct (negb (s =? "")%string); [|reflexivity].
  cbn [dot bind]. rewrite Hf. cbn [dot bind]. rewrite Hn. reflexivity.
Qed.

Lemma dailyCard_some (wd : WeatherData) (date : string) (i : nat) :
  dailyCard (Some wd) date i =
  Ok (let weatherCode := resolve [dailyField wd d_weather_code] i (Num 0) in
      {| dc_key := date;
         dc_day := weekday date;
         dc_dateFormatted :=
           toLocaleDateString (newDate date) MonthShortDayNumeric;
         dc_weatherIcon := fst (dailyIconDescription weatherCode);
         dc_description := snd (dailyIconDescription weatherCode);
         dc_min := resolve [dailyField wd d_temperature_2m_min] i (Num 0);
         dc_max := resolve [dailyField wd d_temperature_2m_max] i (Num 0);
         dc_precipProb :=
           resolve [dailyField wd d_precipitation_probability_max] i (Num 0);
         dc_precipSum := resolve [dailyField wd d_precipitation_sum] i (Num 0);
         dc_windSpeed :=
           resolve [dailyField wd d_wind_speed_10m; dailyField wd d_wind_speed]
                   i (Num 0);
         dc_humidity :=
           resolve [dailyField wd d_relative_humidity_2m;
                    dailyField wd d_humidity] i (Num 0);
         dc_sunrise :=
           match optIndexStr (dailyField wd d_sunrise) i with
           | Some s =>
               if negb (s =? "")%string then toLocaleTimeString (newDate s)
               else "–"
           | None => "–"
           end;
         dc_sunset :=
           match optIndexStr (dailyField wd d_sunset) i with
           | Some s =>
               if negb (s =? "")%string then toLocaleTimeString (newDate s)
               else "–"
           | None => "–"
           end |}).
Proof.
  unfold dailyCard, resolve. rewrite !dailyAt_some, !sunTime_some.
  rewrite ?orM_Ok. cbn [bind]. rewrite ?orM_Ok. cbn [bind].
  rewrite ?or_assoc. reflexivity.
Qed.

End Samples.

(** *** The loops *)

Section Loops.

Context `{DatePlatform}.

Lemma mapiM_pure {A B} (f : A -> nat -> result B) (g : A -> nat -> B)
  (l : list A) (i : nat) :
  (forall x j, f x j = Ok (g x j)) ->
  mapiM f l i =
  Ok (map (fun p => g (snd p) (fst p)) (combine (seq i (List.length l)) l)).
Proof.
  intros Hf. revert i. induction l as [|x l IH]; intros i; simpl.
  - reflexivity.
  - rewrite Hf, IH. reflexivity.
Qed.

Lemma forEachHour_pure {A} (limit : nat) (now : Date)
  (body : Date -> nat -> result A) (g : Date -> nat -> A)
  (times : list string) (i : nat) (acc : list A) :
  (forall t j, body t j = Ok (g t j)) ->
  List.length acc < limit ->
  forEachHour limit now body times i acc =
  Ok (acc ++
      map (fun p => g (newDate (snd p)) (fst p))
          (firstn (limit - List.length acc)
             (filter (fun p => afterNow now (newDate (snd p)))
                (combine (seq i (List.length times)) times))))%list.
Proof.
  intros Hb. revert i acc.
  induction times as [|t times IH]; intros i acc Hlen; simpl.
  - now rewrite firstn_nil, app_nil_r.
  - destruct (afterNow now (newDate t)) eqn:Hq.
    + rewrite Hb. cbn [bind]. rewrite length_app. cbn [List.length].
      destruct (limit - List.length acc) as [|k] eqn:Hk; [lia|].
      cbn [firstn map fst snd].
      destruct (Nat.leb_spec limit (List.length acc + 1)) as [Hle|Hgt].
      * assert (k = 0) as -> by lia. now rewrite firstn_O.
      * rewrite IH by (rewrite length_app; cbn [List.length]; lia).
        rewrite length_app. cbn [List.length].
        replace (limit - (List.length acc + 1)) with k by lia.
        now rewrite <- app_assoc.
    + now apply IH.
Qed.

Lemma hourly_guard (currentData : option WeatherData) (ts : list string) :
  qdot (qdot currentData hourly) h_time = Some ts ->
  exists wd h, currentData = Some wd /\ hourly wd = Some h /\
               h_time h = Some ts.
Proof.
  destruct currentData as [wd|]; [|discriminate]. simpl.
  destruct (hourly wd) as [h|] eqn:Hh; [|discriminate]. simpl.
  intros Ht. now exists wd, h.
Qed.

Lemma hourlyField_some (wd : WeatherData) (h : Hourly)
  (f : Hourly -> option numArray) :
  hourly wd = Some h -> hourlyField (Some wd) f = f h.
Proof. unfold hourlyField. simpl. now intros ->. Qed.

Lemma hourlyWindow_pure {A} (limit : nat) (now : Date)
  (body : Date -> nat -> result A) (g : Date -> nat -> A)
  (currentData : option WeatherData) :
  1 <= limit ->
  (forall wd h, currentData = Some wd -> hourly wd = Some h ->
                forall t j, body t j = Ok (g t j)) ->
  hourlyWindow limit now body currentData =
  Ok (map (fun p => g (newDate (snd p)) (fst p))
          (firstn limit (qualifying now (hourlyTimes currentData)))).
Proof.
  intros Hl Hb. unfold hourlyWindow, hourlyTimes, qualifying, indexed.
  destruct (qdot (qdot currentData hourly) h_time) as [ts|] eqn:Hg.
  - destruct (hourly_guard _ _ Hg) as (wd & h & -> & Hh & Ht).
    cbn [dot bind]. rewrite Hh. cbn [dot bind]. rewrite Ht. cbn [dot bind].
    rewrite (forEachHour_pure limit now body g) by
      (simpl; eauto using Nat.lt_le_trans, Nat.lt_0_1).
    cbn [List.length app orEmpty]. now rewrite Nat.sub_0_r.
  - simpl. now rewrite firstn_nil.
Qed.

End Loops.

(** *** Prefixes of a filtered, indexed array *)

Section Selection.

Variable A : Type.

Lemma in_combine_seq (l : list A) (i j : nat) (x : A) :
  In (j, x) (combine (seq i (List.length l)) l) <->
  i <= j /\ nth_error l (j - i) = Some x.
Proof.
  revert i. induction l as [|y l IH]; intros i; simpl.
  - split; [tauto|]. intros [_ Hn]. now destruct (j - i).
  - rewrite IH. split.
    + intros [Heq|[Hle Hn]].
      * inversion Heq; subst. now rewrite Nat.sub_diag.
      * split; [lia|]. replace (j - i) with (S (j - S i)) by lia. exact Hn.
    + intros [Hle Hn]. destruct (Nat.eq_dec i j) as [->|Hne].
      * rewrite Nat.sub_diag in Hn. left. now inversion Hn.
      * right. split; [lia|].
        replace (j - i) with (S (j - S i)) in Hn by lia. exact Hn.
Qed.

Lemma sorted_combine_seq (l : list A) (i : nat) :
  StronglySorted byIndex (combine (seq i (List.length l)) l).
Proof.
  revert i. induction l as [|y l IH]; intros i; simpl; constructor.
  - apply IH.
  - apply Forall_forall. intros [j x] Hin.
    apply in_combine_seq in Hin. unfold byIndex. simpl. lia.
Qed.

Lemma sorted_filter (f : nat * A -> bool) (l : list (nat * A)) :
  StronglySorted byIndex l -> StronglySorted byIndex (filter f l).
Proof.
  induction 1 as [|p l Hs IH Hall]; simpl; [constructor|].
  destruct (f p); [|exact IH]. constructor; [exact IH|].
  apply Forall_forall. intros p' Hin. apply filter_In in Hin.
  rewrite Forall_forall in Hall. now apply Hall.
Qed.

Lemma in_firstn {B} (k : nat) (l : list B) (x : B) :
  In x (firstn k l) -> In x l.
Proof.
  revert k. induction l as [|y l IH]; intros [|k]; simpl; try tauto.
  intros [Heq|Hin]; [now left|right; eauto].
Qed.

Lemma sorted_firstn (k : nat) (l : list (nat * A)) :
  StronglySorted byIndex l -> StronglySorted byIndex (firstn k l).
Proof.
  intros Hs. revert k.
  induction Hs as [|p l Hs IH Hall]; intros [|k]; simpl; try constructor.
  - apply IH.
  - apply Forall_forall. intros p' Hin. apply in_firstn in Hin.
    rewrite Forall_forall in Hall. now apply Hall.
Qed.

(** Membership in the first [k] entries that pass [q]. *)
Lemma in_firstn_filter (q : A -> bool) (l : list A) (i k j : nat) (x : A) :
  In (j, x)
     (firstn k (filter (fun p => q (snd p))
                       (combine (seq i (List.length l)) l))) <->
  i <= j /\ nth_error l (j - i) = Some x /\ q x = true /\
  List.length (filter q (firstn (j - i) l)) < k.
Proof.
  revert i k. induction l as [|y l IH]; intros i k.
  - simpl. rewrite firstn_nil. simpl. split; [tauto|].
    intros (_ & Hn & _). now destruct (j - i).
  - cbn [List.length seq combine filter snd].
    destruct (q y) eqn:Hy.
    + destruct k as [|k].
      * simpl. split; [tauto|]. intros (_ & _ & _ & Hlt). lia.
      * cbn [firstn In]. rewrite IH. split.
        -- intros [Heq|(Hle & Hn & Hq & Hlt)].
           ++ inversion Heq; subst. rewrite Nat.sub_diag. simpl.
              repeat split; auto; lia.
           ++ replace (j - i) with (S (j - S i)) by lia. simpl.
              rewrite Hy. simpl. repeat split; auto; lia.
        -- intros (Hle & Hn & Hq & Hlt).
           destruct (Nat.eq_dec i j) as [->|Hne].
           ++ rewrite Nat.sub_diag in Hn. left. now inversion Hn.
           ++ right. replace (j - i) with (S (j - S i)) in Hn, Hlt by lia.
              simpl in Hn, Hlt. rewrite Hy in Hlt. simpl in Hlt.
              repeat split; auto; lia.
    + rewrite IH. split.
      * intros (Hle & Hn & Hq & Hlt).
        replace (j - i) with (S (j - S i)) by lia. simpl. rewrite Hy.
        repeat split; auto; lia.
      * intros (Hle & Hn & Hq & Hlt).
        destruct (Nat.eq_dec i j) as [->|Hne].
        -- rewrite Nat.sub_diag in Hn. simpl in Hn. congruence.
        -- replace (j - i) with (S (j - S i)) in Hn, Hlt by lia.
           simpl in Hn, Hlt. rewrite Hy in Hlt.
           repeat split; auto; lia.
Qed.

Lemma Forall2_map_same {B C D} (R : C -> D -> Prop) (f : B -> C)
  (g : B -> D) (l : list B) :
  (forall x, In x l -> R (f x) (g x)) -> Forall2 R (map f l) (map g l).
Proof.
  induction l as [|y l IH]; simpl; intros Hl; constructor; auto.
Qed.

Lemma length_filter_le {B} (f : B -> bool) (l : list B) :
  List.length (filter f l) <= List.length l.
Proof.
  induction l as [|y l IH]; simpl; [lia|]. destruct (f y); simpl; lia.
Qed.

Lemma length_combine_seq (l : list A) (i : nat) :
  List.length (combine (seq i (List.length l)) l) = List.length l.
Proof. rewrite length_combine, length_seq. lia. Qed.

End Selection.

(** *** The hourly window in closed form *)

Section HourlyWindow.

Context `{DatePlatform}.

Lemma hourlyTemperatureData_eq (now : Date)
  (currentData : option WeatherData) :
  hourlyTemperatureData now currentData =
  Ok (map (fun p => temperatureSample currentData (newDate (snd p)) (fst p))
          (firstn 24 (qualifying now (hourlyTimes currentData)))).
Proof.
  unfold hourlyTemperatureData. apply hourlyWindow_pure; [lia|].
  intros wd h -> Hh t j. rewrite (temperaturePoint_some wd h) by assumption.
  unfold temperatureSample. now rewrite !(hourlyField_some wd h).
Qed.

Lemma hourlyPrecipitationData_eq (now : Date)
  (currentData : option WeatherData) :
  hourlyPrecipitationData now currentData =
  Ok (map (fun p =>
             precipitationSample currentData (newDate (snd p)) (fst p))
          (firstn 24 (qualifying now (hourlyTimes currentData)))).
Proof.
  unfold hourlyPrecipitationData. apply hourlyWindow_pure; [lia|].
  intros wd h -> Hh t j. rewrite (precipitationPoint_some wd h) by assumption.
  unfold precipitationSample. now rewrite !(hourlyField_some wd h).
Qed.

Lemma hourlyDetails_eq (now : Date) (currentData : option WeatherData) :
  hourlyDetails now currentData =
  Ok (map (fun p => detailSample currentData (newDate (snd p)) (fst p))
          (firstn 9 (qualifying now (hourlyTimes currentData)))).
Proof.
  unfold hourlyDetails. apply hourlyWindow_pure; [lia|].
  intros wd h -> Hh t j. rewrite (detailBox_some wd h) by assumption.
  unfold detailSample. now rewrite !(hourlyField_some wd h).
Qed.

Lemma hourlyConditions_eq (now : Date) (currentData : option WeatherData) :
  hourlyConditions now currentData =
  Ok (map (fun p => conditionSample currentData (newDate (snd p)) (fst p))
          (firstn 9 (qualifying now (hourlyTimes currentData)))).
Proof.
  unfold hourlyConditions. apply hourlyWindow_pure; [lia|].
  intros wd h -> Hh t j. rewrite (conditionBox_some wd h) by assumption.
  unfold conditionSample. now rewrite !(hourlyField_some wd h).
Qed.

Lemma hourlyIndices_eq (now : Date) (currentData : option WeatherData) :
  hourlyIndices now currentData =
  Ok (map fst (firstn 24 (qualifying now (hourlyTimes currentData)))).
Proof.
  unfold hourlyIndices.
  now rewrite (hourlyWindow_pure 24 now _ (fun _ i => i)) by (lia || auto).
Qed.

Lemma qualifying_sound (now : Date) (times : list string) (k : nat)
  (p : nat * string) :
  In p (firstn k (qualifying now times)) ->
  nth_error times (fst p) = Some (snd p) /\
  afterNow now (newDate (snd p)) = true.
Proof.
  intros Hin. apply in_firstn in Hin. unfold qualifying in Hin.
  apply filter_In in Hin. destruct Hin as [Hin Hq]. split; [|exact Hq].
  destruct p as [j t]. unfold indexed in Hin.
  apply in_combine_seq in Hin. rewrite Nat.sub_0_r in Hin.
  exact (proj2 Hin).
Qed.

Lemma qualifying_sorted (now : Date) (times : list string) (k : nat) :
  StronglySorted byIndex (firstn k (qualifying now times)).
Proof.
  apply sorted_firstn, sorted_filter. unfold indexed.
  apply sorted_combine_seq.
Qed.

Lemma qualifying_length (now : Date) (times : list string) (k : nat) :
  List.length (firstn k (qualifying now times)) <= List.length times.
Proof.
  rewrite length_firstn. unfold qualifying.
  etransitivity; [apply Nat.le_min_r|].
  etransitivity; [apply length_filter_le|].
  unfold indexed. now rewrite length_combine_seq.
Qed.

End HourlyWindow.

(** *** The daily series in closed form *)

Section DailySeries.

Context `{DatePlatform}.

Lemma mapiM_total {A B} (f : A -> nat -> result B) (l : list A) (i : nat) :
  (forall x j, exists y, f x j = Ok y) ->
  exists out,
    mapiM f l i = Ok out /\
    List.length out = List.length l /\
    forall k x, nth_error l k = Some x ->
                exists y, nth_error out k = Some y /\ f x (i + k) = Ok y.
Proof.
  intros Hf. revert i. induction l as [|x l IH]; intros i; simpl.
  - exists []. repeat split. intros [|k] x Hn; discriminate.
  - destruct (Hf x i) as [y Hy]. destruct (IH (S i)) as (out & Ho & Hl & Hk).
    exists (y :: out). rewrite Hy, Ho. simpl. repeat split; [lia|].
    intros [|k] x' Hn; simpl in *.
    + inversion Hn; subst. exists y. now rewrite Nat.add_0_r.
    + destruct (Hk k x' Hn) as (y' & Hy' & Hf').
      exists y'. split; [assumption|].
      now replace (i + S k) with (S i + k) by lia.
Qed.

Lemma dailyTimes_some (wd : WeatherData) :
  dailyTimes (Some wd) = Ok (dailyTimesOf wd).
Proof. reflexivity. Qed.

Lemma dailyTemperatureData_eq (wd : WeatherData) :
  dailyTemperatureData (Some wd) =
  Ok (map (fun p => dailyTemperatureSample wd (snd p) (fst p))
          (indexed (dailyTimesOf wd))).
Proof.
  unfold dailyTemperatureData. rewrite dailyTimes_some. cbn [bind].
  apply mapiM_pure. intros date j. apply dailyTemperaturePoint_some.
Qed.

Lemma formatHistoricalChartData_eq (wd : WeatherData) :
  formatHistoricalChartData (Some wd) =
  Ok (map (fun p => historicalSample wd (snd p) (fst p))
          (indexed (dailyTimesOf wd))).
Proof.
  unfold formatHistoricalChartData, dailyTimesOf. cbn [dot bind].
  destruct (daily wd) as [dl|]; [|reflexivity]. cbn [dot bind qdot].
  apply mapiM_pure. intros date j. apply historicalPoint_some.
Qed.

Lemma nth_error_combine_seq {A} (l : list A) (i k : nat) (x : A) :
  nth_error l k = Some x ->
  nth_error (combine (seq i (List.length l)) l) k = Some (i + k, x).
Proof.
  revert i k.
  induction l as [|y l IH]; intros i [|k] Hn; simpl in *; try discriminate.
  - inversion Hn. now rewrite Nat.add_0_r.
  - rewrite (IH (S i) k Hn). f_equal. f_equal. lia.
Qed.

Lemma nth_error_indexed {A} (l : list A) (k : nat) (x : A) :
  nth_error l k = Some x -> nth_error (indexed l) k = Some (k, x).
Proof. intros Hn. unfold indexed. now rewrite (nth_error_combine_seq l 0 k x). Qed.

End DailySeries.

(** *** The hourly window: limit, predicate, order *)

Lemma afterNow_spec `{DatePlatform} (now time : Date) :
  afterNow now time = true <->
  (exists h h0, getHours time = Some h /\ getHours now = Some h0 /\
                (h0 < h)%Z) \/
  (exists d d0, getDate time = Some d /\ getDate now = Some d0 /\
                (d0 < d)%Z).
Proof.
  unfold afterNow, gt. rewrite orb_true_iff. split.
  - intros [Hh|Hd].
    + left. destruct (getHours time) as [h|], (getHours now) as [h0|];
        try discriminate.
      exists h, h0. repeat split. now apply Z.ltb_lt.
    + right. destruct (getDate time) as [d|], (getDate now) as [d0|];
        try discriminate.
      exists d, d0. repeat split. now apply Z.ltb_lt.
  - intros [(h & h0 & -> & -> & Hlt)|(d & d0 & -> & -> & Hlt)].
    + left. now apply Z.ltb_lt.
    + right. now apply Z.ltb_lt.
Qed.

(** C6.  The hourly window of the temperature chart holds at most 24
    samples; each comes from an input stamp that passes the "after now"
    test; the samples keep the order of the input (their indices increase
    strictly); and the loop stops at 24 samples or at the end of the input:
    the window is exactly the first 24 qualifying samples, or all of them
    when there are fewer. *)
Theorem hourly_window_limit_predicate_order `{DatePlatform} (now : Date)
  (currentData : option WeatherData) :
  exists (out : list TemperaturePoint) (sel : list (nat * string)),
    hourlyTemperatureData now currentData = Ok out /\
    hourlyIndices now currentData = Ok (map fst sel) /\
    out = map (fun p =>
                 temperatureSample currentData (newDate (snd p)) (fst p)) sel /\
    List.length out <= 24 /\
    (forall p, In p sel ->
       nth_error (hourlyTimes currentData) (fst p) = Some (snd p) /\
       afterNow now (newDate (snd p)) = true) /\
    StronglySorted byIndex sel /\
    sel = firstn 24 (qualifying now (hourlyTimes currentData)) /\
    List.length out =
    Nat.min 24 (List.length (qualifying now (hourlyTimes currentData))).
Proof.
  eexists. exists (firstn 24 (qualifying now (hourlyTimes currentData))).
  split; [apply hourlyTemperatureData_eq|].
  split; [apply hourlyIndices_eq|].
  split; [reflexivity|].
  split; [rewrite length_map, length_firstn; apply Nat.le_min_l|].
  split; [intros p; apply qualifying_sound|].
  split; [apply qualifying_sorted|].
  split; [reflexivity|].
  now rewrite length_map, length_firstn.
Qed.

(** C9.  The hourly window never has more samples than [hourly.time] has
    entries, every sample of it is built from an entry of [hourly.time] at
    that entry's index, and the indices increase.  The daily series has
    exactly one sample per entry of [daily.time], the k-th built from the
    k-th date, with no cap. *)
Theorem windows_within_input `{DatePlatform} (now : Date)
  (currentData : option WeatherData) (forecastData : WeatherData) :
  (exists (out : list TemperaturePoint) (sel : list (nat * string)),
     hourlyTemperatureData now currentData = Ok out /\
     out = map (fun p =>
                  temperatureSample currentData (newDate (snd p)) (fst p))
               sel /\
     List.length out <= List.length (hourlyTimes currentData) /\
     StronglySorted byIndex sel /\
     forall p, In p sel ->
               nth_error (hourlyTimes currentData) (fst p) = Some (snd p)) /\
  (exists out : list DailyTemperaturePoint,
     dailyTemperatureData (Some forecastData) = Ok out /\
     List.length out = List.length (dailyTimesOf forecastData) /\
     out = map (fun p => dailyTemperatureSample forecastData (snd p) (fst p))
               (indexed (dailyTimesOf forecastData)) /\
     forall k date,
       nth_error (dailyTimesOf forecastData) k = Some date ->
       nth_error out k = Some (dailyTemperatureSample forecastData date k)) /\
  (exists cards : list DailyCard,
     dailyDetails (Some forecastData) = Ok cards /\
     List.length cards = List.length (dailyTimesOf forecastData) /\
     forall k date,
       nth_error (dailyTimesOf forecastData) k = Some date ->
       exists c, nth_error cards k = Some c /\ dc_key c = date).
Proof.
  split; [|split].
  - eexists. exists (firstn 24 (qualifying now (hourlyTimes currentData))).
    split; [apply hourlyTemperatureData_eq|].
    split; [reflexivity|].
    split; [rewrite length_map; apply qualifying_length|].
    split; [apply qualifying_sorted|].
    intros p Hin. now apply (qualifying_sound now _ 24).
  - eexists. split; [apply dailyTemperatureData_eq|].
    split; [|split; [reflexivity|]].
    + rewrite length_map. unfold indexed. apply length_combine_seq.
    + intros k date Hn.
      rewrite nth_error_map, (nth_error_indexed _ k date Hn). reflexivity.
  - unfold dailyDetails. rewrite dailyTimes_some. cbn [bind].
    destruct (mapiM_total (dailyCard (Some forecastData))
                (dailyTimesOf forecastData) 0) as (cards & Hc & Hl & Hk).
    { intros date j. rewrite dailyCard_some. eauto. }
    exists cards. split; [exact Hc|]. split; [exact Hl|].
    intros k date Hn. destruct (Hk k date Hn) as (c & Hnc & Hf).
    exists c. split; [exact Hnc|].
    rewrite dailyCard_some in Hf. inversion Hf. reflexivity.
Qed.

Lemma hourly_window_limit_predicate_order_witness :
  exists out,
    hourlyTemperatureData (H := IsoLocal.platform)
      (IsoLocal.at_ 2024 1 1 5 30) scenarioData = Ok out /\
    List.length out <= 24.
Proof.
  destruct (hourly_window_limit_predicate_order (H := IsoLocal.platform)
              (IsoLocal.at_ 2024 1 1 5 30) scenarioData)
    as (out & sel & Hout & _ & _ & Hlen & _).
  exists out. split; assumption.
Defined.

Lemma windows_within_input_witness :
  exists out,
    dailyTemperatureData (H := IsoLocal.platform) (Some weekData) = Ok out /\
    List.length out = 3.
Proof.
  destruct (windows_within_input (H := IsoLocal.platform)
              (IsoLocal.at_ 2024 1 1 5 30) scenarioData weekData)
    as (_ & (out & Hout & Hlen & _) & _).
  exists out. split; [exact Hout | exact Hlen].
Defined.

Lemma length_filter_firstn_lt {A} (q : A -> bool) (l : list A) (i : nat)
  (x : A) :
  nth_error l i = Some x -> q x = true ->
  List.length (filter q (firstn i l)) < List.length (filter q l).
Proof.
  revert i. induction l as [|y l IH]; intros [|i] Hn Hq; simpl in *;
    try discriminate.
  - injection Hn as ->. rewrite Hq. simpl. lia.
  - specialize (IH i Hn Hq). destruct (q y); simpl; lia.
Qed.

Lemma length_filter_combine_seq {A} (q : A -> bool) (l : list A) (i : nat) :
  List.length (filter (fun p => q (snd p))
                      (combine (seq i (List.length l)) l))
  = List.length (filter q l).
Proof.
  revert i. induction l as [|y l IH]; intros i; simpl; [reflexivity|].
  destruct (q y); simpl; now rewrite IH.
Qed.

(** C3.  Walking the stamps in order up to the stop at 24 samples, the loop
    pushes sample [i] if and only if the stamp at [i] passes the test: its
    hour-of-day is strictly greater than the reference hour-of-day, or its
    date, which the test reads as the day-of-month, is strictly greater
    than the reference one.  So sample [i] is in the window exactly when
    its stamp passes the test and fewer than 24 earlier stamps pass it;
    and when no more than 24 stamps pass the test, exactly when its stamp
    passes the test.  On the stamps 05:00, 06:00, 07:00 of 1 January 2024
    with reference hour 5, whatever the reference day, the window holds
    exactly the 06:00 and the 07:00 sample, in that order. *)
Theorem hourly_sample_included_iff `{DatePlatform} (now : Date)
  (currentData : option WeatherData) :
  (exists idx out,
     hourlyIndices now currentData = Ok idx /\
     hourlyTemperatureData now currentData = Ok out /\
     Forall2 (fun x i =>
                exists t,
                  nth_error (hourlyTimes currentData) i = Some t /\
                  x = temperatureSample currentData (newDate t) i)
             out idx /\
     (forall i,
        In i idx <->
        exists t,
          nth_error (hourlyTimes currentData) i = Some t /\
          afterNow now (newDate t) = true /\
          qualifyingBefore now (hourlyTimes currentData) i < 24) /\
     (List.length (qualifying now (hourlyTimes currentData)) <= 24 ->
      forall i,
        In i idx <->
        exists t,
          nth_error (hourlyTimes currentData) i = Some t /\
          afterNow now (newDate t) = true)) /\
  (forall time,
     afterNow now time = true <->
     (exists h h0, getHours time = Some h /\ getHours now = Some h0 /\
                   (h0 < h)%Z) \/
     (exists d d0, getDate time = Some d /\ getDate now = Some d0 /\
                   (d0 < d)%Z)) /\
  (forall y m d mi t t' a,
     (1 <= d)%Z ->
     let ref := IsoLocal.at_ y m d 5 mi in
     let data := Some (hourlyOf scenarioTimes t t' a) in
     hourlyIndices (H := IsoLocal.platform) ref data = Ok [1; 2] /\
     exists p6 p7,
       hourlyTemperatureData (H := IsoLocal.platform) ref data
       = Ok [p6; p7] /\
       tp_name p6 = "6h" /\ tp_name p7 = "7h").
Proof.
  split; [|split].
  - do 2 eexists. split; [apply hourlyIndices_eq|].
    split; [apply hourlyTemperatureData_eq|].
    split.
    { apply Forall2_map_same. intros [j t] Hin.
      apply qualifying_sound in Hin. exists t. now split. }
    assert (Hiff : forall i,
              In i (map fst (firstn 24
                               (qualifying now (hourlyTimes currentData))))
              <->
              exists t,
                nth_error (hourlyTimes currentData) i = Some t /\
                afterNow now (newDate t) = true /\
                qualifyingBefore now (hourlyTimes currentData) i < 24).
    { intros i. rewrite in_map_iff.
      unfold qualifying, indexed, qualifyingBefore.
      split.
      + intros ([j t] & Hj & Hin). simpl in Hj. subst j.
        apply (in_firstn_filter string (fun t => afterNow now (newDate t)))
          in Hin.
        rewrite Nat.sub_0_r in Hin. exists t. tauto.
      + intros (t & Hn & Hq & Hlt). exists (i, t). split; [reflexivity|].
        apply (in_firstn_filter string (fun t => afterNow now (newDate t))).
        rewrite Nat.sub_0_r. repeat split; auto; lia. }
    split; [exact Hiff|].
    intros Hfew i. rewrite Hiff. split.
    + intros (t & Hn & Hq & _). now exists t.
    + intros (t & Hn & Hq). exists t. split; [exact Hn|].
      split; [exact Hq|].
      unfold qualifyingBefore.
      pose proof (length_filter_firstn_lt
                    (fun t => afterNow now (newDate t))
                    (hourlyTimes currentData) i t Hn Hq) as Hlt.
      unfold qualifying, indexed in Hfew.
      rewrite (length_filter_combine_seq
                 (fun t => afterNow now (newDate t))) in Hfew.
      lia.
  - intros time. apply afterNow_spec.
  - intros y m d mi t t' a Hd ref data.
    assert (Hq : qualifying (H := IsoLocal.platform) ref scenarioTimes =
                 [(1, "2024-01-01T06:00"); (2, "2024-01-01T07:00")]).
    { unfold qualifying, indexed, scenarioTimes, afterNow, ref.
      cbn [List.length seq combine filter snd].
      change (newDate "2024-01-01T05:00") with (IsoLocal.at_ 2024 1 1 5 0).
      change (newDate "2024-01-01T06:00") with (IsoLocal.at_ 2024 1 1 6 0).
      change (newDate "2024-01-01T07:00") with (IsoLocal.at_ 2024 1 1 7 0).
      cbn. destruct (Z.ltb_spec d 1); [lia|]. reflexivity. }
    split.
    + rewrite hourlyIndices_eq.
      change (hourlyTimes data) with scenarioTimes. now rewrite Hq.
    + rewrite hourlyTemperatureData_eq.
      change (hourlyTimes data) with scenarioTimes. rewrite Hq.
      cbn [firstn map]. do 2 eexists. split; [reflexivity|].
      split; reflexivity.
Qed.

Lemma hourly_sample_included_iff_witness :
  hourlyIndices (H := IsoLocal.platform)
    (IsoLocal.at_ 2024 1 1 5 30) scenarioData = Ok [1; 2].
Proof.
  destruct (hourly_sample_included_iff (H := IsoLocal.platform)
              (IsoLocal.at_ 2024 1 1 5 30) scenarioData) as (_ & _ & Hs).
  apply (Hs 2024 1 1 30 _ None None)%Z. lia.
Defined.

(** The stop at work: of twenty-five stamps that all lie on a later day
    than the reference day, the first twenty-four fill the window and the
    twenty-fifth, which passes the test too, is never visited. *)
Lemma hourly_25th_qualifying_sample_excluded :
  let now := IsoLocal.at_ 2024 1 1 5 0 in
  let data := Some (hourlyOf twentyFiveHours None None None) in
  nth_error twentyFiveHours 24 = Some "2024-01-03T00:00" /\
  afterNow (H := IsoLocal.platform) now (newDate "2024-01-03T00:00") = true /\
  exists idx,
    hourlyIndices (H := IsoLocal.platform) now data = Ok idx /\
    ~ In 24 idx.
Proof.
  split; [reflexivity|]. split; [reflexivity|].
  exists (seq 0 24). split; [vm_compute; reflexivity|].
  rewrite in_seq. lia.
Qed.

(** *** The field resolver *)

Lemma falsy_of_missing (i : nat) (aliases : list (option numArray)) :
  missingAt i aliases -> falsyAt i aliases.
Proof.
  unfold missingAt, falsyAt. apply Forall_impl. intros arr Hp.
  destruct (truthy (optIndex arr i)) eqn:Ht; [|reflexivity].
  apply present_of_truthy in Ht. congruence.
Qed.

Lemma resolve_falsy (i : nat) (aliases : list (option numArray))
  (dflt : value) :
  falsyAt i aliases -> resolve aliases i dflt = dflt.
Proof. apply resolve_none_truthy. Qed.

Lemma resolve_missing (i : nat) (aliases : list (option numArray))
  (dflt : value) :
  missingAt i aliases -> resolve aliases i dflt = dflt.
Proof. intros Hm. now apply resolve_falsy, falsy_of_missing. Qed.

(** C2, as amended.  The chain written at each use returns the value of the
    highest-priority alias whose entry at the index is present, not null
    and not zero; a zero entry is passed over like an absent one; when no
    alias has such an entry the chain returns the default of that use.
    Where no present entry is zero this is the resolver of the
    specification.  The hourly temperature and feels-like fields and the
    wind speed, humidity and precipitation fields of the daily cards are
    such chains. *)
Theorem resolver_returns_first_nonzero_alias `{DatePlatform} :
  (forall before arr after i dflt,
     falsyAt i before ->
     truthy (optIndex arr i) = true ->
     resolve (before ++ arr :: after) i dflt = optIndex arr i) /\
  (forall aliases i dflt,
     falsyAt i aliases -> resolve aliases i dflt = dflt) /\
  (forall aliases i dflt,
     Forall (fun a => present (optIndex a i) = truthy (optIndex a i))
            aliases ->
     resolve aliases i dflt = specResolve aliases i dflt) /\
  (forall wd h time i,
     hourly wd = Some h ->
     exists p,
       temperaturePoint (Some wd) time i = Ok p /\
       tp_temperature p =
       resolve [h_temperature_2m h; h_temperature h] i (Num 0) /\
       tp_feels_like p =
       resolve [h_apparent_temperature h; h_apparentTemperature h] i Null) /\
  (forall wd date i,
     exists c,
       dailyCard (Some wd) date i = Ok c /\
       dc_windSpeed c =
       resolve [dailyField wd d_wind_speed_10m; dailyField wd d_wind_speed]
               i (Num 0) /\
       dc_humidity c =
       resolve [dailyField wd d_relative_humidity_2m;
                dailyField wd d_humidity] i (Num 0) /\
       dc_precipProb c =
       resolve [dailyField wd d_precipitation_probability_max] i (Num 0) /\
       dc_precipSum c =
       resolve [dailyField wd d_precipitation_sum] i (Num 0)).
Proof.
  split; [intros; now apply resolve_first_truthy|].
  split; [intros; now apply resolve_falsy|].
  split; [intros; now apply resolve_specResolve|].
  split.
  - intros wd h time i Hh. eexists.
    split; [exact (temperaturePoint_some wd h time i Hh)|].
    split; reflexivity.
  - intros wd date i. eexists. split; [apply dailyCard_some|].
    repeat split.
Qed.

Lemma resolver_returns_first_nonzero_alias_witness :
  exists p,
    temperaturePoint (H := IsoLocal.platform) (Some zeroPrimaryData)
      (newDate "2024-01-02T06:00") 0 = Ok p /\
    tp_temperature p = Num (5 # 1) /\
    resolve [Some [Some 0%Q]; Some [Some (5 # 1)]] 0 (Num 0) = Num (5 # 1).
Proof.
  destruct (resolver_returns_first_nonzero_alias (H := IsoLocal.platform))
    as (Hfirst & _ & _ & Hsite & _).
  destruct (Hsite zeroPrimaryData
              {| h_time := Some ["2024-01-02T06:00"];
                 h_temperature_2m := Some [Some 0%Q];
                 h_temperature := Some [Some (5 # 1)];
                 h_apparent_temperature := Some [Some 0%Q];
                 h_apparentTemperature := None;
                 h_relative_humidity_2m := None;
                 h_humidity := None;
                 h_wind_speed_10m := None;
                 h_wind_speed := None;
                 h_precipitation_probability := None;
                 h_precipitation := None;
                 h_precipitation_sum := None;
                 h_weather_code := None |}
              (newDate "2024-01-02T06:00") 0 eq_refl)
    as (p & Hp & Ht & _).
  exists p. split; [exact Hp|]. split; [rewrite Ht; reflexivity|].
  apply (Hfirst [Some [Some 0%Q]] (Some [Some (5 # 1)]) [] 0 (Num 0)).
  - repeat constructor.
  - reflexivity.
Defined.

(** C2 as stated fails: with [temperature_2m[0] = 0] and
    [temperature[0] = 5] the highest-priority populated alias holds 0,
    present and not null, and the page resolves the temperature to 5; with
    [apparent_temperature[0] = 0] it resolves the feels-like value to
    [null]. *)
Lemma resolver_skips_zero_entry :
  specResolve [Some [Some 0%Q]; Some [Some (5 # 1)]] 0 (Num 0) = Num 0 /\
  specResolve [Some [Some 0%Q]; None] 0 Null = Num 0 /\
  exists p,
    temperaturePoint (H := IsoLocal.platform) (Some zeroPrimaryData)
      (newDate "2024-01-02T06:00") 0 = Ok p /\
    tp_temperature p = Num (5 # 1) /\
    tp_feels_like p = Null.
Proof.
  split; [reflexivity|]. split; [reflexivity|].
  eexists. split; [reflexivity|]. split; reflexivity.
Qed.

(** *** The daily mean *)

Lemma resolve_single_number (arr : option numArray) (i : nat) :
  exists q,
    resolve [arr] i (Num 0) = Num q /\
    (forall a, optIndex arr i = Num a -> q == a) /\
    (present (optIndex arr i) = false -> q = 0%Q).
Proof.
  unfold resolve. cbn [fold_right].
  destruct (optIndex_cases arr i) as [E|[E|[a E]]]; rewrite E.
  - exists 0%Q. repeat split. intros a Ha. discriminate.
  - exists 0%Q. repeat split. intros a Ha. discriminate.
  - unfold or. cbn [truthy]. destruct (Z.eqb_spec (Qnum a) 0) as [Hz|Hz].
    + exists 0%Q. cbn [negb]. repeat split.
      intros a' Ha. inversion Ha; subst a'.
      unfold Qeq. simpl. rewrite Hz. reflexivity.
    + exists a. cbn [negb]. repeat split.
      * intros a' Ha. inversion Ha. reflexivity.
      * discriminate.
Qed.

(** C1, as amended.  Each daily sample has
    [avg = (min + max) / 2], where [min] and [max] are the resolved bounds
    and a bound that does not resolve counts as 0.  So with both bounds
    present the mean is their mean (10 and 20 give 15); with exactly one
    bound present the mean is half that bound (only max = 20 gives 10); and
    with neither it is 0. *)
Theorem daily_mean_is_half_sum `{DatePlatform} (data : WeatherData)
  (date : string) (i : nat) :
  (exists p lo hi,
     dailyTemperaturePoint (Some data) date i = Ok p /\
     dt_min p = Num lo /\ dt_max p = Num hi /\
     dt_avg p = Num ((lo + hi) / 2) /\
     let minV := optIndex (dailyField data d_temperature_2m_min) i in
     let maxV := optIndex (dailyField data d_temperature_2m_max) i in
     (forall a b, minV = Num a -> maxV = Num b ->
                  isNum (dt_avg p) ((a + b) / 2)) /\
     (forall b, present minV = false -> maxV = Num b ->
                isNum (dt_avg p) (b / 2)) /\
     (forall a, minV = Num a -> present maxV = false ->
                isNum (dt_avg p) (a / 2)) /\
     (present minV = false -> present maxV = false ->
      isNum (dt_avg p) 0)) /\
  (exists p rest,
     dailyTemperatureData (H := IsoLocal.platform) (Some weekData)
     = Ok (p :: rest) /\
     isNum (dt_min p) 10 /\ isNum (dt_max p) 20 /\ isNum (dt_avg p) 15) /\
  (exists p,
     dailyTemperatureData (H := IsoLocal.platform) (Some onlyMaxData)
     = Ok [p] /\
     isNum (dt_avg p) 10).
Proof.
  split; [|split].
  - destruct (resolve_single_number (dailyField data d_temperature_2m_min) i)
      as (lo & Hlo & Hlo_num & Hlo_none).
    destruct (resolve_single_number (dailyField data d_temperature_2m_max) i)
      as (hi & Hhi & Hhi_num & Hhi_none).
    exists (dailyTemperatureSample data date i), lo, hi.
    split; [apply dailyTemperaturePoint_some|].
    unfold dailyTemperatureSample. cbn [dt_min dt_max dt_avg].
    rewrite Hlo, Hhi. cbn [add half toNumber].
    split; [reflexivity|]. split; [reflexivity|]. split; [reflexivity|].
    unfold isNum. repeat split.
    + intros a b Ha Hb. eexists. split; [reflexivity|].
      now rewrite (Hlo_num a Ha), (Hhi_num b Hb).
    + intros b Ha Hb. eexists. split; [reflexivity|].
      rewrite (Hlo_none Ha), (Hhi_num b Hb). field.
    + intros a Ha Hb. eexists. split; [reflexivity|].
      rewrite (Hlo_num a Ha), (Hhi_none Hb). field.
    + intros Ha Hb. eexists. split; [reflexivity|].
      rewrite (Hlo_none Ha), (Hhi_none Hb). reflexivity.
  - do 2 eexists. split; [rewrite dailyTemperatureData_eq; reflexivity|].
    unfold isNum. repeat split; eexists; split; reflexivity.
  - eexists. split; [rewrite dailyTemperatureData_eq; reflexivity|].
    unfold isNum. eexists; split; reflexivity.
Qed.

Lemma daily_mean_is_half_sum_witness :
  exists p,
    dailyTemperaturePoint (H := IsoLocal.platform) (Some onlyMaxData)
      "2024-01-01" 0 = Ok p /\
    isNum (dt_avg p) ((20 # 1) / 2).
Proof.
  destruct (daily_mean_is_half_sum (H := IsoLocal.platform) onlyMaxData
              "2024-01-01" 0)
    as ((p & lo & hi & Hp & _ & _ & _ & _ & Hmax & _) & _).
  exists p. split; [exact Hp|].
  apply (Hmax (20 # 1)); reflexivity.
Defined.

(** C1 as stated fails: on a day with only [temperature_2m_max = 20] the
    lone bound is 20 and the mean the page computes is 10. *)
Lemma daily_mean_of_lone_max_is_half :
  optIndex (dailyField onlyMaxData d_temperature_2m_min) 0 = Undefined /\
  optIndex (dailyField onlyMaxData d_temperature_2m_max) 0 = Num (20 # 1) /\
  specMeanTemperature Undefined (Num (20 # 1)) = Num (20 # 1) /\
  exists p q,
    dailyTemperatureData (H := IsoLocal.platform) (Some onlyMaxData)
    = Ok [p] /\
    dt_avg p = Num q /\ q == 10 /\ ~ q == 20.
Proof.
  repeat split.
  do 2 eexists. split; [reflexivity|]. split; [reflexivity|].
  split; [reflexivity|]. discriminate.
Qed.

(** *** The historical chart *)

(** C7, as amended.  For each day the historical chart takes the first of
    minimum, mean and maximum temperature whose entry is present, not null
    and not zero, in that priority, and 0 when there is none; a zero entry
    is passed over like an absent one.  A day with only
    [temperature_2m_mean = 18] gets 18, a day with no temperature gets 0,
    and an absent response or an absent daily bundle gives an empty
    chart. *)
Theorem historical_temperature_fallback `{DatePlatform} (data : WeatherData) :
  formatHistoricalChartData None = Ok [] /\
  (daily data = None -> formatHistoricalChartData (Some data) = Ok []) /\
  (exists out,
     formatHistoricalChartData (Some data) = Ok out /\
     List.length out = List.length (dailyTimesOf data) /\
     forall k date,
       nth_error (dailyTimesOf data) k = Some date ->
       exists p,
         nth_error out k = Some p /\
         let minV := optIndex (dailyField data d_temperature_2m_min) k in
         let meanV := optIndex (dailyField data d_temperature_2m_mean) k in
         let maxV := optIndex (dailyField data d_temperature_2m_max) k in
         (truthy minV = true -> hp_temperature p = minV) /\
         (truthy minV = false -> truthy meanV = true ->
          hp_temperature p = meanV) /\
         (truthy minV = false -> truthy meanV = false ->
          truthy maxV = true -> hp_temperature p = maxV) /\
         (truthy minV = false -> truthy meanV = false ->
          truthy maxV = false -> hp_temperature p = Num 0) /\
         hp_precipitation p =
         or (optIndex (dailyField data d_precipitation_sum) k) (Num 0)) /\
  (exists p,
     formatHistoricalChartData (H := IsoLocal.platform) (Some onlyMeanData)
     = Ok [p] /\
     hp_temperature p = Num (18 # 1)) /\
  (exists p,
     formatHistoricalChartData (H := IsoLocal.platform)
       (Some noTemperatureData) = Ok [p] /\
     hp_temperature p = Num 0).
Proof.
  split; [reflexivity|].
  split; [intros Hd; unfold formatHistoricalChartData; cbn [dot bind];
          now rewrite Hd|].
  split; [|split; eexists; split; reflexivity].
  eexists. split; [apply formatHistoricalChartData_eq|].
  split; [rewrite length_map; unfold indexed; apply length_combine_seq|].
  intros k date Hn. eexists.
  split; [rewrite nth_error_map, (nth_error_indexed _ k date Hn);
          reflexivity|].
  unfold historicalSample, resolve, or.
  cbn [hp_temperature hp_precipitation fold_right fst snd].
  repeat split.
  - now intros ->.
  - now intros -> ->.
  - now intros -> -> ->.
  - now intros -> -> ->.
Qed.

Lemma historical_temperature_fallback_witness :
  formatHistoricalChartData (H := IsoLocal.platform)
    (Some {| hourly := None; daily := None |}) = Ok [].
Proof.
  destruct (historical_temperature_fallback (H := IsoLocal.platform)
              {| hourly := None; daily := None |}) as (_ & Habsent & _).
  apply Habsent. reflexivity.
Defined.

(** C7 as stated fails: on a day whose minimum is 0 and whose mean is 18
    the minimum is the first populated entry, and the chart shows 18. *)
Lemma historical_zero_minimum_passed_over :
  optIndex (dailyField zeroMinData d_temperature_2m_min) 0 = Num 0 /\
  specResolve [dailyField zeroMinData d_temperature_2m_min;
               dailyField zeroMinData d_temperature_2m_mean;
               dailyField zeroMinData d_temperature_2m_max] 0 (Num 0)
  = Num 0 /\
  exists p,
    formatHistoricalChartData (H := IsoLocal.platform) (Some zeroMinData)
    = Ok [p] /\
    hp_temperature p = Num (18 # 1).
Proof.
  split; [reflexivity|]. split; [reflexivity|].
  eexists. split; reflexivity.
Qed.

(** *** Defaults of unresolved fields *)

Lemma truthy_nonzero (v : value) :
  truthy v = true -> exists q, v = Num q /\ ~ q == 0.
Proof.
  destruct v as [| | |q]; try discriminate. cbn [truthy]. intros Ht.
  exists q. split; [reflexivity|]. unfold Qeq. simpl. intros Hz.
  rewrite Z.mul_1_r in Hz. rewrite Hz in Ht. discriminate.
Qed.

Lemma resolve_null_never_zero (aliases : list (option numArray)) (i : nat) :
  resolve aliases i Null = Null \/
  exists q, resolve aliases i Null = Num q /\ ~ q == 0.
Proof.
  induction aliases as [|arr rest IH]; simpl; [now left|].
  unfold or. destruct (truthy (optIndex arr i)) eqn:Ht; [|exact IH].
  right. now apply truthy_nonzero.
Qed.

(** C10, as amended.  In an hourly sample the feels-like field is [null]
    when neither feels-like alias has an entry that is present and not
    zero, whereas temperature, humidity, wind speed and the precipitation
    fields are 0 in the same situation.  The feels-like field is never 0:
    it is [null] or a non-zero number, so a feels-like entry of zero is
    reported as [null], exactly like a missing one. *)
Theorem feels_like_defaults_to_null `{DatePlatform} (wd : WeatherData)
  (h : Hourly) (time : Date) (i : nat) :
  hourly wd = Some h ->
  exists tp pp db,
    temperaturePoint (Some wd) time i = Ok tp /\
    precipitationPoint (Some wd) time i = Ok pp /\
    detailBox (Some wd) time i = Ok db /\
    (missingAt i [h_apparent_temperature h; h_apparentTemperature h] ->
     tp_feels_like tp = Null) /\
    (falsyAt i [h_apparent_temperature h; h_apparentTemperature h] ->
     tp_feels_like tp = Null) /\
    (falsyAt i [h_temperature_2m h; h_temperature h] ->
     tp_temperature tp = Num 0) /\
    (falsyAt i [h_relative_humidity_2m h; h_humidity h] ->
     db_humidity db = Num 0) /\
    (falsyAt i [h_wind_speed_10m h; h_wind_speed h] ->
     db_windSpeed db = Num 0) /\
    (falsyAt i [h_precipitation_probability h] ->
     pp_probability pp = Num 0) /\
    (falsyAt i [h_precipitation h; h_precipitation_sum h] ->
     pp_amount pp = Num 0) /\
    (tp_feels_like tp = Null \/
     exists q, tp_feels_like tp = Num q /\ ~ q == 0).
Proof.
  intros Hh. do 3 eexists.
  split; [exact (temperaturePoint_some wd h time i Hh)|].
  split; [exact (precipitationPoint_some wd h time i Hh)|].
  split; [exact (detailBox_some wd h time i Hh)|].
  cbn [tp_feels_like tp_temperature db_humidity db_windSpeed
       pp_probability pp_amount].
  split; [apply resolve_missing|].
  repeat (split; [apply resolve_falsy|]).
  apply resolve_null_never_zero.
Qed.

Lemma feels_like_defaults_to_null_witness :
  exists tp,
    temperaturePoint (H := IsoLocal.platform) (Some noFeelsLikeData)
      (newDate "2024-01-02T06:00") 0 = Ok tp /\
    tp_feels_like tp = Null.
Proof.
  destruct (feels_like_defaults_to_null (H := IsoLocal.platform)
              noFeelsLikeData
              {| h_time := Some ["2024-01-02T06:00"];
                 h_temperature_2m := Some [Some 0%Q];
                 h_temperature := Some [Some (5 # 1)];
                 h_apparent_temperature := None;
                 h_apparentTemperature := None;
                 h_relative_humidity_2m := None;
                 h_humidity := None;
                 h_wind_speed_10m := None;
                 h_wind_speed := None;
                 h_precipitation_probability := None;
                 h_precipitation := None;
                 h_precipitation_sum := None;
                 h_weather_code := None |}
              (newDate "2024-01-02T06:00") 0 eq_refl)
    as (tp & pp & db & Htp & _ & _ & Hmissing & _).
  exists tp. split; [exact Htp|].
  apply Hmissing. repeat constructor.
Defined.

(** C10 as stated fails: a response whose feels-like entry is the number 0
    and a response with no feels-like array give the same sample, with a
    [null] feels-like field; the two are not told apart. *)
Lemma feels_like_zero_reported_as_null :
  optIndex (Some [Some 0%Q]) 0 = Num 0 /\
  hourlyField (Some zeroPrimaryData) h_apparent_temperature
  = Some [Some 0%Q] /\
  hourlyField (Some noFeelsLikeData) h_apparent_temperature = None /\
  exists tp,
    temperaturePoint (H := IsoLocal.platform) (Some zeroPrimaryData)
      (newDate "2024-01-02T06:00") 0 = Ok tp /\
    temperaturePoint (H := IsoLocal.platform) (Some noFeelsLikeData)
      (newDate "2024-01-02T06:00") 0 = Ok tp /\
    tp_feels_like tp = Null /\
    hourlyTemperatureData (H := IsoLocal.platform)
      (IsoLocal.at_ 2024 1 2 5 0) (Some zeroPrimaryData)
    = Ok [tp] /\
    hourlyTemperatureData (H := IsoLocal.platform)
      (IsoLocal.at_ 2024 1 2 5 0) (Some noFeelsLikeData)
    = Ok [tp].
Proof.
  repeat split. eexists. repeat split.
Qed.

Lemma optIndexStr_dash `{DatePlatform} (arr : option strArray) (i : nat) :
  optIndexStr arr i = None ->
  match optIndexStr arr i with
  | Some s =>
      if negb (s =? "")%string then toLocaleTimeString (newDate s) else "–"
  | None => "–"
  end = "–".
Proof. now intros ->. Qed.

(** C5, as amended.  A datum that does not resolve is never an error and
    degrades to the default written at its use: 0 for the numeric fields,
    [null] for the hourly feels-like field, the dash "–" for the sunrise
    and sunset texts; a missing weather code is read as code 0 and so shows
    as Clear with the "wb_sunny" icon, in the hourly boxes, the daily cards
    and the daily tiles alike; and an absent response, section or time
    array gives an empty series. *)
Theorem unresolved_datum_degrades_to_default `{DatePlatform} (now : Date)
  (data : WeatherData) (time : Date) (date : string) (i : nat) :
  (forall h,
     hourly data = Some h ->
     exists tp pp db cb,
       temperaturePoint (Some data) time i = Ok tp /\
       precipitationPoint (Some data) time i = Ok pp /\
       detailBox (Some data) time i = Ok db /\
       conditionBox (Some data) time i = Ok cb /\
       (missingAt i [h_temperature_2m h; h_temperature h] ->
        tp_temperature tp = Num 0) /\
       (missingAt i [h_apparent_temperature h; h_apparentTemperature h] ->
        tp_feels_like tp = Null) /\
       (missingAt i [h_precipitation_probability h] ->
        pp_probability pp = Num 0) /\
       (missingAt i [h_precipitation h; h_precipitation_sum h] ->
        pp_amount pp = Num 0) /\
       (missingAt i [h_relative_humidity_2m h; h_humidity h] ->
        db_humidity db = Num 0) /\
       (missingAt i [h_wind_speed_10m h; h_wind_speed h] ->
        db_windSpeed db = Num 0) /\
       (missingAt i [h_weather_code h] ->
        cb_description cb = "Clear" /\ cb_weatherIcon cb = "wb_sunny")) /\
  (exists c tile hp,
     dailyCard (Some data) date i = Ok c /\
     dailyConditionTile (Some data) date i = Ok tile /\
     historicalPoint (Some data) date i = Ok hp /\
     (missingAt i [dailyField data d_temperature_2m_min] ->
      dc_min c = Num 0) /\
     (missingAt i [dailyField data d_temperature_2m_max] ->
      dc_max c = Num 0) /\
     (missingAt i [dailyField data d_precipitation_probability_max] ->
      dc_precipProb c = Num 0) /\
     (missingAt i [dailyField data d_precipitation_sum] ->
      dc_precipSum c = Num 0 /\ hp_precipitation hp = Num 0) /\
     (missingAt i [dailyField data d_wind_speed_10m;
                   dailyField data d_wind_speed] ->
      dc_windSpeed c = Num 0 /\ dn_windSpeed tile = Num 0) /\
     (missingAt i [dailyField data d_relative_humidity_2m;
                   dailyField data d_humidity] ->
      dc_humidity c = Num 0) /\
     (missingAt i [dailyField data d_temperature_2m_min;
                   dailyField data d_temperature_2m_mean;
                   dailyField data d_temperature_2m_max] ->
      hp_temperature hp = Num 0) /\
     (optIndexStr (dailyField data d_sunrise) i = None ->
      dc_sunrise c = "–") /\
     (optIndexStr (dailyField data d_sunset) i = None ->
      dc_sunset c = "–") /\
     (missingAt i [dailyField data d_weather_code] ->
      dc_description c = "Clear" /\ dc_weatherIcon c = "wb_sunny" /\
      dn_weatherIcon tile = "wb_sunny")) /\
  hourlyTemperatureData now None = Ok [] /\
  formatHistoricalChartData None = Ok [] /\
  (hourlyTimes (Some data) = [] ->
   hourlyTemperatureData now (Some data) = Ok [] /\
   hourlyPrecipitationData now (Some data) = Ok [] /\
   hourlyDetails now (Some data) = Ok [] /\
   hourlyConditions now (Some data) = Ok []) /\
  (dailyTimesOf data = [] ->
   dailyTemperatureData (Some data) = Ok [] /\
   dailyDetails (Some data) = Ok [] /\
   dailyPrecipitationData (Some data) = Ok [] /\
   formatHistoricalChartData (Some data) = Ok []).
Proof.
  split; [|split; [|split; [reflexivity|split; [reflexivity|split]]]].
  - intros h Hh. do 4 eexists.
    split; [exact (temperaturePoint_some data h time i Hh)|].
    split; [exact (precipitationPoint_some data h time i Hh)|].
    split; [exact (detailBox_some data h time i Hh)|].
    split; [exact (conditionBox_some data h time i Hh)|].
    cbn [tp_feels_like tp_temperature db_humidity db_windSpeed
         pp_probability pp_amount cb_description cb_weatherIcon].
    repeat (split; [apply resolve_missing|]).
    intros Hm. now rewrite (resolve_missing _ _ _ Hm).
  - do 3 eexists.
    split; [apply dailyCard_some|].
    split; [apply dailyConditionTile_some|].
    split; [apply historicalPoint_some|].
    cbn zeta.
    cbn [dc_min dc_max dc_precipProb dc_precipSum dc_windSpeed dc_humidity
         dc_sunrise dc_sunset dc_description dc_weatherIcon
         dn_windSpeed dn_weatherIcon hp_temperature hp_precipitation].
    repeat (split; [apply resolve_missing|]).
    split; [intros Hm; now rewrite !(resolve_missing _ _ _ Hm)|].
    split; [intros Hm; now rewrite !(resolve_missing _ _ _ Hm)|].
    split; [apply resolve_missing|].
    split; [apply resolve_missing|].
    split; [apply optIndexStr_dash|].
    split; [apply optIndexStr_dash|].
    intros Hm. rewrite !(resolve_missing _ _ _ Hm).
    repeat split. inversion Hm as [|a l Ha _]; subst.
    destruct (optIndex (dailyField data d_weather_code) i);
      try discriminate; reflexivity.
  - intros Ht.
    rewrite hourlyTemperatureData_eq, hourlyPrecipitationData_eq,
      hourlyDetails_eq, hourlyConditions_eq, Ht.
    repeat split.
  - intros Ht.
    rewrite formatHistoricalChartData_eq.
    unfold dailyTemperatureData, dailyDetails, dailyPrecipitationData.
    rewrite !dailyTimes_some, Ht. repeat split.
Qed.

Lemma unresolved_datum_degrades_to_default_witness :
  exists cb,
    conditionBox (H := IsoLocal.platform) (Some noFeelsLikeData)
      (newDate "2024-01-02T06:00") 0 = Ok cb /\
    cb_description cb = "Clear" /\ cb_weatherIcon cb = "wb_sunny".
Proof.
  destruct (unresolved_datum_degrades_to_default (H := IsoLocal.platform)
              (IsoLocal.at_ 2024 1 2 5 0) noFeelsLikeData
              (newDate "2024-01-02T06:00") "2024-01-02" 0)
    as (Hhourly & _).
  destruct (Hhourly
              {| h_time := Some ["2024-01-02T06:00"];
                 h_temperature_2m := Some [Some 0%Q];
                 h_temperature := Some [Some (5 # 1)];
                 h_apparent_temperature := None;
                 h_apparentTemperature := None;
                 h_relative_humidity_2m := None;
                 h_humidity := None;
                 h_wind_speed_10m := None;
                 h_wind_speed := None;
                 h_precipitation_probability := None;
                 h_precipitation := None;
                 h_precipitation_sum := None;
                 h_weather_code := None |} eq_refl)
    as (tp & pp & db & cb & _ & _ & _ & Hcb & _ & _ & _ & _ & _ & _ & Hcode).
  exists cb. split; [exact Hcb|].
  apply Hcode. repeat constructor.
Defined.

(** C5 as stated fails: with no weather code at all the hourly box and the
    daily card and tile show Clear with the "wb_sunny" icon, not Unknown,
    and a missing sunrise shows as a dash, not as an empty text. *)
Lemma missing_weather_code_shows_clear :
  hourlyField (Some noFeelsLikeData) h_weather_code = None /\
  dailyField onlyMaxData d_weather_code = None /\
  dailyField onlyMaxData d_sunrise = None /\
  exists cb c tile,
    conditionBox (H := IsoLocal.platform) (Some noFeelsLikeData)
      (newDate "2024-01-02T06:00") 0 = Ok cb /\
    dailyCard (H := IsoLocal.platform) (Some onlyMaxData) "2024-01-01" 0
    = Ok c /\
    dailyConditionTile (H := IsoLocal.platform) (Some onlyMaxData)
      "2024-01-01" 0 = Ok tile /\
    cb_description cb = "Clear" /\ cb_description cb <> "Unknown" /\
    cb_weatherIcon cb = "wb_sunny" /\
    dc_description c = "Clear" /\ dc_weatherIcon c = "wb_sunny" /\
    dn_weatherIcon tile = "wb_sunny" /\
    dn_weatherIcon tile <> "help_outline" /\
    dc_sunrise c = "–" /\ dc_sunrise c <> "".
Proof.
  split; [reflexivity|]. split; [reflexivity|]. split; [reflexivity|].
  do 3 eexists.
  split; [reflexivity|]. split; [reflexivity|]. split; [reflexivity|].
  repeat split; discriminate.
Qed.

(** *** No series raises *)

Section Totality.

Context `{DatePlatform}.

Lemma dailyDetails_eq (wd : WeatherData) :
  exists cards,
    dailyDetails (Some wd) = Ok cards /\
    List.length cards = List.length (dailyTimesOf wd).
Proof.
  unfold dailyDetails. rewrite dailyTimes_some. cbn [bind].
  destruct (mapiM_total (dailyCard (Some wd)) (dailyTimesOf wd) 0)
    as (cards & Hc & Hl & _).
  { intros date j. rewrite dailyCard_some. eauto. }
  eauto.
Qed.

Lemma dailyPrecipitationData_eq (wd : WeatherData) :
  exists out,
    dailyPrecipitationData (Some wd) = Ok out /\
    List.length out = List.length (dailyTimesOf wd).
Proof.
  unfold dailyPrecipitationData. rewrite dailyTimes_some. cbn [bind].
  destruct (mapiM_total (dailyPrecipitationPoint (Some wd))
              (dailyTimesOf wd) 0) as (out & Hc & Hl & _).
  { intros date j. rewrite dailyPrecipitationPoint_some. eauto. }
  eauto.
Qed.

Lemma dailyConditions_eq (wd : WeatherData) :
  exists tiles,
    dailyConditions (Some wd) = Ok tiles /\
    (dailyTimesOf wd = [] -> tiles = None).
Proof.
  unfold dailyConditions, dailyTimesOf. cbn [qdot dot bind].
  destruct (daily wd) as [dl|]; cbn [qdot dot bind orEmpty]; [|eauto].
  destruct (d_time dl) as [ts|]; cbn [dot bind orEmpty]; [|eauto].
  destruct ts as [|t ts]; [cbn; eauto|].
  cbn [List.length Nat.ltb Nat.leb].
  destruct (mapiM_total (dailyConditionTile (Some wd)) (t :: ts) 0)
    as (tiles & Hc & _).
  { intros date j. rewrite dailyConditionTile_some. eauto. }
  rewrite Hc. cbn [bind]. eexists. split; [reflexivity|]. discriminate.
Qed.

Lemma length_zero_nil {A} (l : list A) : List.length l = 0 -> l = [].
Proof. now destruct l. Qed.

End Totality.

(** C8.  Whatever the responses are (absent, without an hourly or daily
    section, without a time array, with quantity arrays absent or shorter
    than the time array, with any weather code), the hourly series, the
    forecast tab and [formatHistoricalChartData] return a value and raise
    nothing; and where the time array is absent or empty the series are
    empty. *)
Theorem page_series_never_raise `{DatePlatform} (now : Date)
  (currentData forecastData historicalData : option WeatherData) :
  (exists out, hourlyTemperatureData now currentData = Ok out) /\
  (exists out, hourlyPrecipitationData now currentData = Ok out) /\
  (exists out, hourlyDetails now currentData = Ok out) /\
  (exists out, hourlyConditions now currentData = Ok out) /\
  (exists view, forecastTab forecastData = Ok view) /\
  (exists out, formatHistoricalChartData historicalData = Ok out) /\
  (hourlyTimes currentData = [] ->
   hourlyTemperatureData now currentData = Ok [] /\
   hourlyPrecipitationData now currentData = Ok [] /\
   hourlyDetails now currentData = Ok [] /\
   hourlyConditions now currentData = Ok []) /\
  (forall wd,
     forecastData = Some wd -> dailyTimesOf wd = [] ->
     forecastTab forecastData =
     Ok (Some {| fv_temperature := [];
                 fv_details := [];
                 fv_precipitation := [];
                 fv_conditions := None |})) /\
  (forall wd,
     historicalData = Some wd -> dailyTimesOf wd = [] ->
     formatHistoricalChartData historicalData = Ok []) /\
  forecastTab None = Ok None /\
  formatHistoricalChartData None = Ok [].
Proof.
  rewrite hourlyTemperatureData_eq, hourlyPrecipitationData_eq,
    hourlyDetails_eq, hourlyConditions_eq.
  do 4 (split; [eauto|]).
  split.
  { destruct forecastData as [wd|]; [|cbn; eauto].
    unfold forecastTab. rewrite dailyTemperatureData_eq. cbn [bind].
    destruct (dailyDetails_eq wd) as (cards & -> & _).
    destruct (dailyPrecipitationData_eq wd) as (bars & -> & _).
    destruct (dailyConditions_eq wd) as (tiles & -> & _).
    cbn [bind]. eauto. }
  split.
  { destruct historicalData as [wd|]; [|cbn; eauto].
    rewrite formatHistoricalChartData_eq. eauto. }
  split; [intros ->; repeat split|].
  split.
  { intros wd -> Ht. unfold forecastTab.
    rewrite dailyTemperatureData_eq. cbn [bind].
    destruct (dailyDetails_eq wd) as (cards & -> & Hc).
    destruct (dailyPrecipitationData_eq wd) as (bars & -> & Hb).
    destruct (dailyConditions_eq wd) as (tiles & -> & Hn).
    cbn [bind]. rewrite Ht in *. rewrite (Hn eq_refl).
    rewrite (length_zero_nil cards Hc), (length_zero_nil bars Hb).
    reflexivity. }
  split; [|split; reflexivity].
  intros wd -> Ht. now rewrite formatHistoricalChartData_eq, Ht.
Qed.

Lemma page_series_never_raise_witness :
  hourlyTemperatureData (H := IsoLocal.platform)
    (IsoLocal.at_ 2024 1 1 5 30)
    (Some {| hourly := Some noHourly; daily := None |}) = Ok [] /\
  forecastTab (H := IsoLocal.platform)
    (Some {| hourly := None; daily := Some noDaily |})
  = Ok (Some {| fv_temperature := [];
                fv_details := [];
                fv_precipitation := [];
                fv_conditions := None |}).
Proof.
  destruct (page_series_never_raise (H := IsoLocal.platform)
              (IsoLocal.at_ 2024 1 1 5 30)
              (Some {| hourly := Some noHourly; daily := None |})
              (Some {| hourly := None; daily := Some noDaily |})
              None)
    as (_ & _ & _ & _ & _ & _ & Hhourly & Hdaily & _).
  split.
  - apply Hhourly. reflexivity.
  - apply (Hdaily {| hourly := None; daily := Some noDaily |});
      reflexivity.
Defined.

(** ** Further properties of the page *)

(** *** The hourly boxes and the two hourly charts *)

Lemma sorted_byIndex_NoDup {A} (l : list (nat * A)) :
  StronglySorted byIndex l -> NoDup (map fst l).
Proof.
  induction 1 as [|p l Hs IH Hall]; simpl; constructor; [|exact IH].
  rewrite in_map_iff. intros (p' & Heq & Hin).
  rewrite Forall_forall in Hall. specialize (Hall p' Hin).
  unfold byIndex in Hall. lia.
Qed.

Lemma firstn_9_of_24 {A} (l : list A) :
  firstn 9 (firstn 24 l) = firstn 9 l.
Proof. now rewrite firstn_firstn. Qed.

(** The "Humidity and Wind" and the "Weather Conditions" boxes are built on
    the first nine samples of the chart window: at most nine boxes, keyed by
    the indices of the first nine chart samples, so the keys increase and
    no two boxes share a key; the two rows of boxes show the same hours,
    which are the hours of the first nine chart points. *)
Theorem hourly_boxes_are_first_nine_of_window `{DatePlatform} (now : Date)
  (currentData : option WeatherData) :
  exists boxes conds chart idx,
    hourlyDetails now currentData = Ok boxes /\
    hourlyConditions now currentData = Ok conds /\
    hourlyTemperatureData now currentData = Ok chart /\
    hourlyIndices now currentData = Ok idx /\
    List.length boxes = Nat.min 9 (List.length chart) /\
    List.length conds = List.length boxes /\
    map db_key boxes = firstn 9 idx /\
    map cb_key conds = firstn 9 idx /\
    NoDup (map db_key boxes) /\
    map db_hour boxes = firstn 9 (map tp_hour chart) /\
    map cb_hour conds = map db_hour boxes.
Proof.
  do 4 eexists.
  split; [apply hourlyDetails_eq|].
  split; [apply hourlyConditions_eq|].
  split; [apply hourlyTemperatureData_eq|].
  split; [apply hourlyIndices_eq|].
  set (l := qualifying now (hourlyTimes currentData)).
  rewrite !length_map, !length_firstn, !map_map.
  cbn [db_key cb_key db_hour cb_hour detailSample conditionSample
       temperatureSample tp_hour].
  rewrite <- !firstn_map, firstn_9_of_24.
  repeat split.
  - lia.
  - rewrite firstn_map.
    change (fun x : nat * string => fst x) with (@fst nat string).
    apply sorted_byIndex_NoDup, qualifying_sorted.
  - now rewrite firstn_9_of_24.
Qed.

(** The temperature chart and the precipitation chart of the current tab
    have a point for the same stamps: the same number of points and the
    same names, in the same order. *)
Theorem hourly_charts_share_their_axis `{DatePlatform} (now : Date)
  (currentData : option WeatherData) :
  exists temps bars,
    hourlyTemperatureData now currentData = Ok temps /\
    hourlyPrecipitationData now currentData = Ok bars /\
    List.length bars = List.length temps /\
    map pp_name bars = map tp_name temps.
Proof.
  do 2 eexists.
  split; [apply hourlyTemperatureData_eq|].
  split; [apply hourlyPrecipitationData_eq|].
  rewrite !length_map, !map_map. split; reflexivity.
Qed.

(** *** The daily series in closed form, continued *)

Section DailyClosedForms.

Context `{DatePlatform}.

Lemma dailyDetails_closed (wd : WeatherData) :
  dailyDetails (Some wd) =
  Ok (map (fun p => dailyCardSample wd (snd p) (fst p))
          (indexed (dailyTimesOf wd))).
Proof.
  unfold dailyDetails. rewrite dailyTimes_some. cbn [bind].
  apply mapiM_pure. intros date j. apply dailyCard_some.
Qed.


Lemma dailyConditions_closed (wd : WeatherData) :
  dailyConditions (Some wd) =
  Ok (match dailyTimesOf wd with
      | [] => None
      | _ :: _ =>
          Some (map (fun p => dailyTileSample wd (snd p) (fst p))
                    (indexed (dailyTimesOf wd)))
      end).
Proof.
  unfold dailyConditions, dailyTimesOf. cbn [qdot dot bind].
  destruct (daily wd) as [dl|] eqn:Hd; cbn [qdot dot bind orEmpty];
    [|reflexivity].
  destruct (d_time dl) as [ts|]; cbn [dot bind orEmpty]; [|reflexivity].
  destruct ts as [|t ts]; [reflexivity|].
  cbn [List.length Nat.ltb Nat.leb].
  rewrite (mapiM_pure (dailyConditionTile (Some wd)) (dailyTileSample wd))
    by (intros date j; apply dailyConditionTile_some).
  reflexivity.
Qed.

Lemma map_fst_indexed {A} (l : list A) :
  map fst (indexed l) = seq 0 (List.length l).
Proof.
  unfold indexed. generalize 0 as i.
  induction l as [|x l IH]; intros i; simpl; [reflexivity|].
  now rewrite IH.
Qed.

Lemma map_snd_indexed {A} (l : list A) : map snd (indexed l) = l.
Proof.
  unfold indexed. generalize 0 as i.
  induction l as [|x l IH]; intros i; simpl; [reflexivity|].
  now rewrite IH.
Qed.


End DailyClosedForms.

(** *** Icons and descriptions *)

Ltac by_chain v :=
  repeat match goal with
         | |- context [le v ?n] => destruct (le v n)
         end.

Lemma hourlyWeatherIcon_in_range (v : value) :
  In (hourlyWeatherIcon v) rangeIcons.
Proof. unfold hourlyWeatherIcon, rangeIcons. by_chain v; simpl; tauto. Qed.

Lemma dailyIcon_in_range (v : value) :
  In (fst (dailyIconDescription v)) rangeIcons.
Proof. unfold dailyIconDescription, rangeIcons. by_chain v; simpl; tauto. Qed.

Lemma in_rangeIcons_known (icon : string) :
  In icon rangeIcons -> icon <> "help_outline" /\ icon <> "".
Proof.
  unfold rangeIcons. simpl.
  intros Hin. repeat destruct Hin as [Hin|Hin]; subst;
    try contradiction; split; discriminate.
Qed.

Lemma in_rangeDescriptions_known (d : string) :
  In d rangeDescriptions -> d <> "Unknown".
Proof.
  unfold rangeDescriptions. simpl.
  intros Hin. repeat destruct Hin as [Hin|Hin]; subst;
    try contradiction; discriminate.
Qed.

(** The hourly and the daily range chain give every value the same
    description, and the same icon unless the description is Rain: a Rain
    hour gets the "ac_unit" icon, a Rain day the "rainy" icon.  On integer
    codes Rain is the band from 60 to 69. *)
Theorem hourly_and_daily_icons_differ_only_on_rain (v : value) :
  snd (dailyIconDescription v) = hourlyDescription v /\
  (hourlyDescription v <> "Rain" ->
   hourlyWeatherIcon v = fst (dailyIconDescription v)) /\
  (hourlyDescription v = "Rain" ->
   hourlyWeatherIcon v = "ac_unit" /\
   fst (dailyIconDescription v) = "rainy") /\
  (forall c, hourlyDescription (codeOf c) = "Rain" <-> (59 < c <= 69)%Z).
Proof.
  split; [apply dailyDescription_hourly|].
  split; [|split].
  - unfold hourlyDescription, hourlyWeatherIcon, dailyIconDescription.
    by_chain v; intros Hne; try reflexivity; now contradiction Hne.
  - unfold hourlyDescription, hourlyWeatherIcon, dailyIconDescription.
    by_chain v; intros Heq; try discriminate; now split.
  - intros c. rewrite hourlyDescription_bands.
    repeat match goal with
           | |- context [(c <=? ?n)%Z] => destruct (Z.leb_spec c n)
           end; split; intros Hc; try discriminate; try reflexivity; lia.
Qed.

Lemma hourly_and_daily_icons_differ_only_on_rain_witness :
  hourlyWeatherIcon (codeOf 80) = fst (dailyIconDescription (codeOf 80)) /\
  hourlyWeatherIcon (codeOf 61) = "ac_unit" /\
  fst (dailyIconDescription (codeOf 61)) = "rainy".
Proof.
  destruct (hourly_and_daily_icons_differ_only_on_rain (codeOf 80))
    as (_ & Hsame & _).
  destruct (hourly_and_daily_icons_differ_only_on_rain (codeOf 61))
    as (_ & _ & Hrain & _).
  split; [apply Hsame; discriminate|].
  apply Hrain. reflexivity.
Defined.

Lemma assocZ_iconMap_some (c : Z) (icon : string) :
  assocZ c iconMap = Some icon -> In c knownCodes /\ In icon rangeIcons.
Proof.
  unfold iconMap. cbn [assocZ].
  repeat match goal with
         | |- context [(c =? ?k)%Z] =>
             destruct (Z.eqb_spec c k) as [->|_];
             [intros Hs; inversion Hs; subst; split; simpl; tauto|]
         end.
  discriminate.
Qed.

Lemma assocZ_iconMap_listed (c : Z) :
  In c knownCodes -> exists icon, assocZ c iconMap = Some icon.
Proof.
  intros Hin. destruct (assocZ c iconMap) as [icon|] eqn:Ha; [eauto|].
  exfalso. revert Ha. simpl in Hin.
  repeat destruct Hin as [Hin|Hin]; subst; try discriminate; contradiction.
Qed.

Lemma Qred_integral (q : Q) (c : Z) :
  q == inject_Z c <-> Qred q = inject_Z c.
Proof.
  split.
  - intros Hq. rewrite (Qred_complete _ _ Hq).
    apply Qcanon.Qred_identity. apply Z.gcd_1_r.
  - intros Hr. rewrite <- (Qred_correct q), Hr. reflexivity.
Qed.

(** [getWeatherIcon] answers "help_outline" for every value except a listed
    integer code: a number that is not an integer, an integer the table
    does not list, [null], [undefined] and NaN all get "help_outline", and
    a listed code gets one of the six icons of the table. *)
Theorem getWeatherIcon_unknown_off_the_table (v : value) :
  (getWeatherIcon v <> "help_outline" <->
   exists c q, In c knownCodes /\ v = Num q /\ q == inject_Z c) /\
  (getWeatherIcon v = "help_outline" \/ In (getWeatherIcon v) rangeIcons).
Proof.
  assert (Hcases :
    (getWeatherIcon v = "help_outline" /\
     ~ exists c q, In c knownCodes /\ v = Num q /\ q == inject_Z c) \/
    (In (getWeatherIcon v) rangeIcons /\
     exists c q, In c knownCodes /\ v = Num q /\ q == inject_Z c)).
  { unfold getWeatherIcon, iconMapGet.
    destruct v as [| | |q];
      try (left; split; [reflexivity|];
           intros (c & q' & _ & Hv & _); discriminate).
    destruct (Z.eqb_spec (Z.pos (Qden (Qred q))) 1) as [Hden|Hden].
    - assert (Hred : Qred q = inject_Z (Qnum (Qred q))).
      { destruct (Qred q) as [n d]. simpl in *. inversion Hden.
        reflexivity. }
      destruct (assocZ (Qnum (Qred q)) iconMap) as [icon|] eqn:Ha.
      + right. destruct (assocZ_iconMap_some _ _ Ha) as [Hc Hi].
        destruct (in_rangeIcons_known icon Hi) as [_ Hne].
        apply String.eqb_neq in Hne. rewrite Hne. cbn [negb].
        split; [exact Hi|].
        exists (Qnum (Qred q)), q. repeat split; [exact Hc|].
        now apply Qred_integral.
      + left. split; [reflexivity|].
        intros (c & q' & Hc & Hv & Hq). inversion Hv; subst q'.
        apply Qred_integral in Hq. rewrite Hq in Ha.
        change (Qnum (inject_Z c)) with c in Ha.
        destruct (assocZ_iconMap_listed c Hc) as [icon Hi]. congruence.
    - left. split; [reflexivity|].
      intros (c & q' & Hc & Hv & Hq). inversion Hv; subst q'.
      apply Qred_integral in Hq. rewrite Hq in Hden. now apply Hden. }
  split.
  - split.
    + intros Hne. destruct Hcases as [[Heq _]|[_ Hex]];
        [contradiction|exact Hex].
    + intros Hex. destruct Hcases as [[_ Hno]|[Hin _]]; [contradiction|].
      now apply in_rangeIcons_known.
  - destruct Hcases as [[Heq _]|[Hin _]]; [now left|now right].
Qed.

Lemma getWeatherIcon_unknown_off_the_table_witness :
  In 95%Z knownCodes /\ getWeatherIcon (codeOf 95) <> "help_outline".
Proof.
  destruct (getWeatherIcon_unknown_off_the_table (codeOf 95)) as [Hiff _].
  split; [simpl; tauto|].
  apply Hiff. exists 95%Z, (inject_Z 95).
  split; [simpl; tauto|]. split; reflexivity.
Defined.

(** The boxes of the hourly "Weather Conditions" and the "Daily Weather
    Details" cards never show the initial "help_outline" icon or the
    initial "Unknown" description: whatever the response holds, each box
    and each card carries one of the six icons and one of the seven
    category names of the range chains. *)
Theorem range_boxes_never_show_unknown `{DatePlatform} (now : Date)
  (currentData : option WeatherData) (forecastData : WeatherData) :
  exists boxes cards,
    hourlyConditions now currentData = Ok boxes /\
    dailyDetails (Some forecastData) = Ok cards /\
    Forall (fun cb =>
              In (cb_weatherIcon cb) rangeIcons /\
              In (cb_description cb) rangeDescriptions /\
              cb_weatherIcon cb <> "help_outline" /\
              cb_description cb <> "Unknown") boxes /\
    Forall (fun c =>
              In (dc_weatherIcon c) rangeIcons /\
              In (dc_description c) rangeDescriptions /\
              dc_weatherIcon c <> "help_outline" /\
              dc_description c <> "Unknown") cards.
Proof.
  do 2 eexists.
  split; [apply hourlyConditions_eq|].
  split; [apply dailyDetails_closed|].
  split; apply Forall_forall; intros x Hin; apply in_map_iff in Hin;
    destruct Hin as (p & <- & _).
  - cbn [conditionSample cb_weatherIcon cb_description].
    pose proof (hourlyWeatherIcon_in_range
                  (resolve [hourlyField currentData h_weather_code] (fst p)
                           (Num 0))) as Hi.
    pose proof (hourlyDescription_named
                  (resolve [hourlyField currentData h_weather_code] (fst p)
                           (Num 0))) as Hd.
    repeat split; auto.
    + now apply in_rangeIcons_known.
    + now apply in_rangeDescriptions_known.
  - cbn [dailyCardSample dc_weatherIcon dc_description].
    pose proof (dailyIcon_in_range
                  (resolve [dailyField forecastData d_weather_code] (fst p)
                           (Num 0))) as Hi.
    pose proof (hourlyDescription_named
                  (resolve [dailyField forecastData d_weather_code] (fst p)
                           (Num 0))) as Hd.
    rewrite <- dailyDescription_hourly in Hd.
    repeat split; auto.
    + now apply in_rangeIcons_known.
    + now apply in_rangeDescriptions_known.
Qed.

Lemma or_codeOf_zero (c : Z) : or (codeOf c) (Num 0) = codeOf c.
Proof.
  unfold or, codeOf. cbn [truthy Qnum inject_Z].
  destruct (Z.eqb_spec c 0) as [->|_]; reflexivity.
Qed.

Lemma exact_icon_is_daily_icon (c : Z) :
  In c knownCodes -> c <> 2%Z -> c <> 3%Z ->
  getWeatherIcon (codeOf c) = fst (dailyIconDescription (codeOf c)).
Proof.
  intros Hin H2 H3. simpl in Hin.
  repeat destruct Hin as [Hin|Hin]; subst; try reflexivity;
    try contradiction; congruence.
Qed.

(** The card and the tile of one day read the same weather code through
    two tables.  They show the same icon when the code is missing or
    [null] ("wb_sunny" on both) and when it is a listed code other than 2
    and 3; for codes 2 and 3 the tile shows "cloud" and the card
    "wb_sunny"; for an integer the table does not list the tile shows
    "help_outline" and the card an icon of the range chain. *)
Theorem daily_card_and_tile_icons `{DatePlatform} (data : WeatherData)
  (date : string) (i : nat) :
  exists card tile,
    dailyCard (Some data) date i = Ok card /\
    dailyConditionTile (Some data) date i = Ok tile /\
    let code := optIndex (dailyField data d_weather_code) i in
    (present code = false ->
     dc_weatherIcon card = "wb_sunny" /\ dn_weatherIcon tile = "wb_sunny") /\
    (forall c, code = codeOf c -> In c knownCodes ->
               c <> 2%Z -> c <> 3%Z ->
               dn_weatherIcon tile = dc_weatherIcon card) /\
    (forall c, code = codeOf c -> c = 2%Z \/ c = 3%Z ->
               dn_weatherIcon tile = "cloud" /\
               dc_weatherIcon card = "wb_sunny") /\
    (forall c, code = codeOf c -> ~ In c knownCodes ->
               dn_weatherIcon tile = "help_outline" /\
               In (dc_weatherIcon card) rangeIcons).
Proof.
  do 2 eexists.
  split; [apply dailyCard_some|].
  split; [apply dailyConditionTile_some|].
  cbn zeta. cbn [dc_weatherIcon dn_weatherIcon resolve fold_right].
  split; [|split; [|split]].
  - intros Hp.
    destruct (optIndex (dailyField data d_weather_code) i);
      try discriminate; split; reflexivity.
  - intros c -> Hin H2 H3. rewrite or_codeOf_zero.
    now apply exact_icon_is_daily_icon.
  - intros c -> [-> | ->]; split; reflexivity.
  - intros c -> Hn. rewrite or_codeOf_zero.
    split; [now apply getWeatherIcon_unlisted|apply dailyIcon_in_range].
Qed.

Lemma daily_card_and_tile_icons_witness :
  exists card tile,
    dailyCard (H := IsoLocal.platform) (Some (dayWith (Some (3 # 1)) None None))
      "2024-03-10" 0 = Ok card /\
    dailyConditionTile (H := IsoLocal.platform)
      (Some (dayWith (Some (3 # 1)) None None)) "2024-03-10" 0 = Ok tile /\
    dn_weatherIcon tile = "cloud" /\ dc_weatherIcon card = "wb_sunny".
Proof.
  destruct (daily_card_and_tile_icons (H := IsoLocal.platform)
              (dayWith (Some (3 # 1)) None None) "2024-03-10" 0)
    as (card & tile & Hc & Ht & _ & _ & Hdiff & _).
  exists card, tile. split; [exact Hc|]. split; [exact Ht|].
  apply (Hdiff 3%Z); [reflexivity|now right].
Defined.

(** *** Values handed to the charts *)







(** *** The forecast tab as a whole *)

(** The daily "Weather Conditions" block shows its "No forecast data
    available" placeholder exactly when there is no date to show (no daily
    section, no time array, or an empty one); otherwise it shows one tile
    per date, keyed by the dates in input order. *)
Theorem daily_tiles_or_placeholder `{DatePlatform}
  (forecastData : WeatherData) :
  exists r,
    dailyConditions (Some forecastData) = Ok r /\
    (r = None <-> dailyTimesOf forecastData = []) /\
    (forall tiles,
       r = Some tiles ->
       tiles <> [] /\
       map dn_key tiles = dailyTimesOf forecastData).
Proof.
  assert (Hkeys : forall l,
            map dn_key
                (map (fun p => dailyTileSample forecastData (snd p) (fst p))
                     (indexed l)) = l).
  { intros l. rewrite map_map. apply map_snd_indexed. }
  eexists. split; [apply dailyConditions_closed|].
  destruct (dailyTimesOf forecastData) as [|t ts] eqn:Ht.
  - split; [tauto|]. intros tiles Hr. discriminate.
  - split; [split; discriminate|].
    intros tiles Hr. injection Hr as <-. split; [discriminate|].
    exact (Hkeys (t :: ts)).
Qed.

Lemma daily_tiles_or_placeholder_witness :
  exists tiles,
    dailyConditions (H := IsoLocal.platform) (Some weekData) = Ok (Some tiles)
    /\ map dn_key tiles = ["2024-01-01"; "2024-01-02"; "2024-01-03"].
Proof.
  destruct (daily_tiles_or_placeholder (H := IsoLocal.platform) weekData)
    as (r & Hr & _ & Htiles).
  destruct r as [tiles|].
  - exists tiles. split; [exact Hr|].
    exact (proj2 (Htiles tiles eq_refl)).
  - exfalso. rewrite dailyConditions_closed in Hr. discriminate Hr.
Defined.



(** The sunrise and sunset texts of a card: a non-empty entry shows as the
    platform's formatted time of that entry; an entry that is absent, out
    of range, [null] or the empty string shows as the dash. *)
Theorem sun_texts_of_a_card `{DatePlatform} (data : WeatherData)
  (date : string) (i : nat) :
  exists card,
    dailyCard (Some data) date i = Ok card /\
    (forall s, optIndexStr (dailyField data d_sunrise) i = Some s ->
               s <> "" ->
               dc_sunrise card = toLocaleTimeString (newDate s)) /\
    (forall s, optIndexStr (dailyField data d_sunset) i = Some s ->
               s <> "" ->
               dc_sunset card = toLocaleTimeString (newDate s)) /\
    (optIndexStr (dailyField data d_sunrise) i = Some "" \/
     optIndexStr (dailyField data d_sunrise) i = None ->
     dc_sunrise card = "–") /\
    (optIndexStr (dailyField data d_sunset) i = Some "" \/
     optIndexStr (dailyField data d_sunset) i = None ->
     dc_sunset card = "–").
Proof.
  eexists. split; [apply dailyCard_some|].
  cbn zeta. cbn [dc_sunrise dc_sunset].
  repeat split.
  - intros s -> Hs. apply String.eqb_neq in Hs. now rewrite Hs.
  - intros s -> Hs. apply String.eqb_neq in Hs. now rewrite Hs.
  - intros [-> | ->]; reflexivity.
  - intros [-> | ->]; reflexivity.
Qed.

Lemma sun_texts_of_a_card_witness :
  exists card,
    dailyCard (H := IsoLocal.platform)
      (Some (dayWith None (Some "2024-03-10T06:12") (Some ""))) "2024-03-10" 0
    = Ok card /\
    dc_sunrise card = "06:12" /\ dc_sunset card = "–".
Proof.
  destruct (sun_texts_of_a_card (H := IsoLocal.platform)
              (dayWith None (Some "2024-03-10T06:12") (Some ""))
              "2024-03-10" 0)
    as (card & Hc & Hrise & _ & _ & Hset).
  exists card. split; [exact Hc|]. split.
  - rewrite (Hrise "2024-03-10T06:12"); [reflexivity|reflexivity|].
    discriminate.
  - apply Hset. now left.
Defined.

(** *** The usual response: consecutive hours from midnight *)

Lemma firstn_filter_run {A} (q : A -> bool) (l : list A) (i a k : nat) :
  (forall j x, j < a -> nth_error l j = Some x -> q x = false) ->
  (forall j, a <= j < a + k -> exists x, nth_error l j = Some x /\ q x = true)
  ->
  map fst (firstn k (filter (fun p => q (snd p))
                            (combine (seq i (List.length l)) l)))
  = seq (i + a) k.
Proof.
  revert i a k. induction l as [|y l IH]; intros i a k Hskip Hrun.
  - destruct k as [|k]; [reflexivity|].
    destruct (Hrun a) as (x & Hx & _); [lia|]. now destruct a.
  - cbn [List.length seq combine filter snd].
    destruct a as [|a].
    + destruct k as [|k]; [now rewrite firstn_O|].
      destruct (Hrun 0) as (x & Hx & Hq); [lia|].
      injection Hx as ->. rewrite Hq. cbn [firstn map fst seq].
      rewrite (IH (S i) 0 k).
      * now rewrite !Nat.add_0_r.
      * intros j x' Hj. lia.
      * intros j Hj. apply (Hrun (S j)). lia.
    + rewrite (Hskip 0 y) by (reflexivity || lia).
      rewrite (IH (S i) a k).
      * f_equal. lia.
      * intros j x Hj Hn. apply (Hskip (S j)); [lia|exact Hn].
      * intros j Hj. apply (Hrun (S j)). lia.
Qed.

(** When [hourly.time] lists consecutive hours starting at midnight of the
    reference day, reaches at least 24 hours past the current hour, and
    the day after the reference day has the next day-of-month, the chart
    window is exactly the 24 hours that follow the current hour: the
    samples at indices h+1 to h+24, where h is the current hour. *)
Theorem hourly_window_is_next_24_hours `{DatePlatform} (now : Date)
  (currentData : option WeatherData) (h : nat) (d : Z) :
  getHours now = Some (Z.of_nat h) ->
  getDate now = Some d ->
  h < 24 ->
  h + 25 <= List.length (hourlyTimes currentData) ->
  (forall j t,
     j < 48 ->
     nth_error (hourlyTimes currentData) j = Some t ->
     getHours (newDate t) = Some (Z.of_nat (j mod 24)) /\
     getDate (newDate t) = Some (d + Z.of_nat (j / 24))%Z) ->
  hourlyIndices now currentData = Ok (seq (h + 1) 24).
Proof.
  intros Hh Hd Hlt Hlen Hts. rewrite hourlyIndices_eq.
  unfold qualifying, indexed. f_equal.
  apply (firstn_filter_run (fun t => afterNow now (newDate t))
           (hourlyTimes currentData) 0 (h + 1) 24).
  - intros j t Hj Hn. destruct (Hts j t) as [Hjh Hjd]; [lia|exact Hn|].
    unfold afterNow. rewrite Hjh, Hjd, Hh, Hd. cbn [gt].
    rewrite Nat.mod_small, Nat.div_small by lia.
    apply orb_false_iff. split; apply Z.ltb_ge; lia.
  - intros j Hj.
    destruct (nth_error (hourlyTimes currentData) j) as [t|] eqn:Hn.
    + exists t. split; [reflexivity|].
      destruct (Hts j t) as [Hjh Hjd]; [lia|exact Hn|].
      unfold afterNow. rewrite Hjh, Hjd, Hh, Hd. cbn [gt].
      apply orb_true_iff.
      destruct (Nat.lt_ge_cases j 24) as [Hsame|Hnext].
      * left. rewrite Nat.mod_small by lia. apply Z.ltb_lt. lia.
      * right. apply Z.ltb_lt.
        assert (1 <= j / 24) by (apply Nat.div_le_lower_bound; lia).
        lia.
    + apply nth_error_None in Hn. lia.
Qed.

Lemma hourly_window_is_next_24_hours_witness :
  hourlyIndices (H := IsoLocal.platform) (IsoLocal.at_ 2024 3 10 5 30)
    (Some (hourlyOf twoDaysOfHours None None None))
  = Ok (seq 6 24).
Proof.
  apply (hourly_window_is_next_24_hours (H := IsoLocal.platform)
           (IsoLocal.at_ 2024 3 10 5 30)
           (Some (hourlyOf twoDaysOfHours None None None)) 5 10%Z).
  - reflexivity.
  - reflexivity.
  - lia.
  - vm_compute. lia.
  - intros j t Hj Hn.
    change (hourlyTimes (Some (hourlyOf twoDaysOfHours None None None)))
      with twoDaysOfHours in Hn.
    do 48 (destruct j as [|j];
           [vm_compute in Hn; injection Hn as <-; split; reflexivity|]).
    lia.
Defined.

(** At the end of a month the test compares days-of-month only: when no
    stamp of the response has a greater day-of-month than the reference
    day, the window holds only stamps whose hour-of-day is strictly later
    than the current hour, so the hours of the following days up to and
    including the current hour-of-day never appear. *)
Theorem month_rollover_keeps_later_hours_only `{DatePlatform} (now : Date)
  (currentData : option WeatherData) (h d : Z) :
  getHours now = Some h ->
  getDate now = Some d ->
  (forall t d', In t (hourlyTimes currentData) ->
                getDate (newDate t) = Some d' -> (d' <= d)%Z) ->
  exists idx,
    hourlyIndices now currentData = Ok idx /\
    forall i, In i idx ->
              exists t h',
                nth_error (hourlyTimes currentData) i = Some t /\
                getHours (newDate t) = Some h' /\ (h < h')%Z.
Proof.
  intros Hh Hd Hdays. eexists. split; [apply hourlyIndices_eq|].
  intros i Hin. apply in_map_iff in Hin. destruct Hin as ([j t] & <- & Hin).
  apply qualifying_sound in Hin. cbn [fst snd] in Hin.
  destruct Hin as [Hn Hq]. exists t.
  apply afterNow_spec in Hq.
  destruct Hq as [(h' & h0 & Hh' & Hh0 & Hlt)|(d' & d0 & Hd' & Hd0 & Hlt)].
  - exists h'. rewrite Hh in Hh0. injection Hh0 as <-. auto.
  - exfalso. rewrite Hd in Hd0. injection Hd0 as <-.
    apply nth_error_In in Hn. specialize (Hdays t d' Hn Hd'). lia.
Qed.

Lemma month_rollover_keeps_later_hours_only_witness :
  exists idx,
    hourlyIndices (H := IsoLocal.platform) (IsoLocal.at_ 2024 1 31 5 0)
      (Some (hourlyOf ["2024-01-31T04:00"; "2024-01-31T09:00";
                       "2024-02-01T03:00"; "2024-02-01T08:00"]
                      None None None)) = Ok idx /\
    forall i, In i idx ->
              exists t h',
                nth_error ["2024-01-31T04:00"; "2024-01-31T09:00";
                           "2024-02-01T03:00"; "2024-02-01T08:00"] i
                = Some t /\
                getHours (DatePlatform := IsoLocal.platform) (newDate t)
                = Some h' /\
                (5 < h')%Z.
Proof.
  apply (month_rollover_keeps_later_hours_only (H := IsoLocal.platform)
           (IsoLocal.at_ 2024 1 31 5 0)
           (Some (hourlyOf ["2024-01-31T04:00"; "2024-01-31T09:00";
                            "2024-02-01T03:00"; "2024-02-01T08:00"]
                           None None None)) 5%Z 31%Z).
  - reflexivity.
  - reflexivity.
  - intros t d' Hin Hd'. cbn in Hin.
    repeat destruct Hin as [Hin|Hin]; subst; try contradiction;
      vm_compute in Hd'; injection Hd' as <-; lia.
Defined.

(** ** Properties of the device identifier *)

Section DeviceIdProperties.

Import Browser DeviceId.

Lemma nibble_range (x : Q) :
  (0 <= x)%Q -> (x < 1)%Q -> (0 <= toInt32 (x * 16) < 16)%Z.
Proof.
  destruct x as [n d]. unfold Qle, Qlt, toInt32. cbn. intros Hn Hd.
  rewrite Pos.mul_1_r.
  assert (Hq : (0 <= Z.quot (n * 16) (Z.pos d) < 16)%Z).
  { rewrite Z.quot_div_nonneg by lia. split.
    - apply Z.div_pos; lia.
    - apply Z.div_lt_upper_bound; lia. }
  rewrite Z.mod_small by lia. lia.
Qed.

Lemma small_cases (v : Z) :
  (0 <= v < 16)%Z ->
  In v [0; 1; 2; 3; 4; 5; 6; 7; 8; 9; 10; 11; 12; 13; 14; 15]%Z.
Proof.
  intros Hv. simpl.
  assert (v = 0 \/ v = 1 \/ v = 2 \/ v = 3 \/ v = 4 \/ v = 5 \/ v = 6 \/
          v = 7 \/ v = 8 \/ v = 9 \/ v = 10 \/ v = 11 \/ v = 12 \/
          v = 13 \/ v = 14 \/ v = 15)%Z by lia.
  intuition.
Qed.

Lemma replacement_char (t : ascii) (x : Q) :
  (0 <= x)%Q -> (x < 1)%Q ->
  exists c,
    replacement t x = String c EmptyString /\
    (Ascii.eqb t "x" = true -> In c hexDigits) /\
    (Ascii.eqb t "x" = false -> In c variantDigits).
Proof.
  intros H0 H1. unfold replacement.
  pose proof (small_cases _ (nibble_range x H0 H1)) as Hin.
  destruct (Ascii.eqb t "x"); simpl in Hin;
    repeat destruct Hin as [Hin|Hin]; try contradiction; rewrite <- Hin;
    eexists; (split; [reflexivity|]); split; intros Ht; try discriminate;
    vm_compute; tauto.
Qed.

Lemma replaceXY_shape (rnd : nat -> Q) (tmpl : string) (k : nat) :
  unitInterval rnd ->
  Forall2 charMatches (list_ascii_of_string tmpl)
          (list_ascii_of_string (fst (replaceXY rnd tmpl k))).
Proof.
  intros Hr. revert k. induction tmpl as [|t tmpl IH]; intros k; simpl.
  - constructor.
  - destruct (Ascii.eqb t "x" || Ascii.eqb t "y") eqn:Hxy.
    + specialize (IH (S k)).
      destruct (replaceXY rnd tmpl (S k)) as [s k'] eqn:Hrec.
      destruct (Hr k) as [H0 H1].
      destruct (replacement_char t (rnd k) H0 H1) as (c & -> & Hx & Hy).
      cbn. constructor; [|exact IH].
      unfold charMatches. destruct (Ascii.eqb t "x") eqn:Htx.
      * now apply Hx.
      * simpl in Hxy. rewrite Hxy. now apply Hy.
    + specialize (IH k).
      destruct (replaceXY rnd tmpl k) as [s k'] eqn:Hrec.
      cbn. constructor; [|exact IH].
      unfold charMatches. apply orb_false_iff in Hxy.
      destruct Hxy as [-> ->]. reflexivity.
Qed.

Lemma replaceXY_calls (rnd rnd' : nat -> Q) (tmpl : string) (k k' : nat) :
  snd (replaceXY rnd tmpl k) + k' = snd (replaceXY rnd' tmpl k') + k.
Proof.
  revert k k'. induction tmpl as [|t tmpl IH]; intros k k'; simpl; [lia|].
  destruct (Ascii.eqb t "x" || Ascii.eqb t "y").
  - rewrite (surjective_pairing (replaceXY rnd tmpl (S k))).
    rewrite (surjective_pairing (replaceXY rnd' tmpl (S k'))).
    cbn [snd]. specialize (IH (S k) (S k')). lia.
  - rewrite (surjective_pairing (replaceXY rnd tmpl k)).
    rewrite (surjective_pairing (replaceXY rnd' tmpl k')).
    cbn [snd]. apply IH.
Qed.

Lemma generateUUID_calls (rnd : nat -> Q) (k : nat) :
  snd (generateUUID rnd k) = k + 31.
Proof.
  unfold generateUUID.
  pose proof (replaceXY_calls rnd (fun _ => 0%Q) template k 0) as Hc.
  change (snd (replaceXY (fun _ => 0%Q) template 0)) with 31 in Hc. lia.
Qed.

Lemma length_list_ascii (s : string) :
  List.length (list_ascii_of_string s) = String.length s.
Proof. induction s as [|c s IH]; simpl; [reflexivity|now rewrite IH]. Qed.

Lemma wellFormed_length (id : string) :
  wellFormed id -> String.length id = 36.
Proof.
  intros Hw. apply Forall2_length in Hw.
  rewrite !length_list_ascii in Hw. now rewrite <- Hw.
Qed.

Lemma wellFormed_nonempty (id : string) : wellFormed id -> id <> "".
Proof. intros Hw ->. apply wellFormed_length in Hw. discriminate. Qed.

Lemma shape_keeps_literals (tmpl id : string) :
  Forall2 charMatches (list_ascii_of_string tmpl) (list_ascii_of_string id) ->
  forall i t,
    String.get i tmpl = Some t ->
    Ascii.eqb t "x" = false -> Ascii.eqb t "y" = false ->
    String.get i id = Some t.
Proof.
  revert id. induction tmpl as [|t0 tmpl IH]; intros id Hw i t Hg Hx Hy.
  - discriminate.
  - destruct id as [|c id]; cbn in Hw; [inversion Hw|].
    apply Forall2_cons_iff in Hw. destruct Hw as [Hc Hw].
    destruct i as [|i]; cbn in Hg |- *.
    + injection Hg as ->. unfold charMatches in Hc.
      rewrite Hx, Hy in Hc. now subst.
    + now apply (IH id Hw i t).
Qed.

End DeviceIdProperties.

(** [generateUUID] makes exactly 31 calls of [Math.random] and returns a
    string of 36 characters of the form
    [xxxxxxxx-xxxx-4xxx-yxxx-xxxxxxxxxxxx]: the hyphens and the 4 at their
    places, a lower-case hexadecimal digit for every [x] and one of 8, 9,
    a, b for the [y]. *)
Theorem generateUUID_is_well_formed (rnd : nat -> Q) (k : nat) :
  DeviceId.unitInterval rnd ->
  DeviceId.wellFormed (fst (DeviceId.generateUUID rnd k)) /\
  String.length (fst (DeviceId.generateUUID rnd k)) = 36 /\
  snd (DeviceId.generateUUID rnd k) = k + 31 /\
  String.get 8 (fst (DeviceId.generateUUID rnd k)) = Some "-"%char /\
  String.get 13 (fst (DeviceId.generateUUID rnd k)) = Some "-"%char /\
  String.get 14 (fst (DeviceId.generateUUID rnd k)) = Some "4"%char /\
  String.get 18 (fst (DeviceId.generateUUID rnd k)) = Some "-"%char /\
  String.get 23 (fst (DeviceId.generateUUID rnd k)) = Some "-"%char.
Proof.
  intros Hr.
  pose proof (replaceXY_shape rnd DeviceId.template k Hr) as Hw.
  fold (DeviceId.generateUUID rnd k) in Hw.
  split; [exact Hw|]. split; [now apply wellFormed_length|].
  split; [apply generateUUID_calls|].
  repeat split;
    apply (shape_keeps_literals DeviceId.template _ Hw); reflexivity.
Qed.

Lemma sampleRandom_unit : DeviceId.unitInterval sampleRandom.
Proof.
  intros j. unfold sampleRandom, Qle, Qlt. cbn [Qnum Qden].
  pose proof (Nat.mod_upper_bound (7 * j + 3) 37). lia.
Qed.

Lemma generateUUID_is_well_formed_witness :
  fst (DeviceId.generateUUID sampleRandom 0)
  = "147ad036-9cf2-458b-a147-ad0369c0369c" /\
  DeviceId.wellFormed (fst (DeviceId.generateUUID sampleRandom 0)).
Proof.
  split; [vm_compute; reflexivity|].
  apply (generateUUID_is_well_formed sampleRandom 0 sampleRandom_unit).
Defined.

Section GetDeviceId.

Import Browser DeviceId.

Lemma lookup_remove_same (key : string) (l : list (string * string)) :
  lookup key (remove key l) = None.
Proof.
  induction l as [|[k v] l IH]; simpl; [reflexivity|].
  destruct (String.eqb_spec k key) as [->|Hne]; simpl; [exact IH|].
  apply String.eqb_neq in Hne. now rewrite Hne.
Qed.

Lemma lookup_remove_other (key key' : string) (l : list (string * string)) :
  key' <> key -> lookup key' (remove key l) = lookup key' l.
Proof.
  intros Hne. induction l as [|[k v] l IH]; simpl; [reflexivity|].
  destruct (String.eqb_spec k key) as [->|Hk]; simpl.
  - apply not_eq_sym, String.eqb_neq in Hne. now rewrite Hne.
  - now rewrite IH.
Qed.

Lemma absent_false (o : option string) :
  absent o = false <-> exists s, o = Some s /\ s <> "".
Proof.
  destruct o as [s|]; simpl.
  - rewrite String.eqb_neq. split; [eauto|]. now intros (s' & [= <-] & Hs).
  - split; [discriminate|]. now intros (s' & Hs & _).
Qed.

(** A stored, non-empty identifier is returned as it is. *)
Lemma getDeviceId_stored (rnd : nat -> Q) (st : Storage) (k : nat)
  (s : string) :
  accessible st = true ->
  lookup DEVICE_ID_KEY (items st) = Some s -> s <> "" ->
  getDeviceId rnd st k = (s, st, k).
Proof.
  intros Ha Hl Hs. unfold getDeviceId, getItem. rewrite Ha, Hl.
  apply String.eqb_neq in Hs. cbn [absent]. now rewrite Hs.
Qed.

(** With a working storage and no identifier stored, one is generated and
    stored. *)
Lemma getDeviceId_fresh (rnd : nat -> Q) (st : Storage) (k : nat) :
  working st ->
  absent (lookup DEVICE_ID_KEY (items st)) = true ->
  getDeviceId rnd st k =
  (fst (generateUUID rnd k),
   {| accessible := true;
      full := false;
      items := (DEVICE_ID_KEY, fst (generateUUID rnd k))
               :: remove DEVICE_ID_KEY (items st) |},
   k + 31).
Proof.
  intros [Ha Hf] Habs. unfold getDeviceId, getItem, setItem.
  rewrite Ha, Hf, Habs.
  rewrite (surjective_pairing (generateUUID rnd k)), generateUUID_calls.
  reflexivity.
Qed.

Lemma getDeviceId_blocked (rnd : nat -> Q) (st : Storage) (k : nat) :
  accessible st = false ->
  getDeviceId rnd st k = (fst (generateUUID rnd k), st, k + 31).
Proof.
  intros Ha. unfold getDeviceId, getItem. rewrite Ha.
  rewrite (surjective_pairing (generateUUID rnd k)), generateUUID_calls.
  reflexivity.
Qed.

Lemma getDeviceId_full (rnd : nat -> Q) (st : Storage) (k : nat) :
  accessible st = true -> full st = true ->
  absent (lookup DEVICE_ID_KEY (items st)) = true ->
  getDeviceId rnd st k = (fst (generateUUID rnd (k + 31)), st, k + 62).
Proof.
  intros Ha Hf Habs. unfold getDeviceId, getItem, setItem.
  rewrite Ha, Hf, Habs.
  rewrite (surjective_pairing (generateUUID rnd k)), generateUUID_calls.
  rewrite (surjective_pairing (generateUUID rnd (k + 31))),
    generateUUID_calls.
  f_equal. lia.
Qed.

End GetDeviceId.

(** With a working [localStorage] the identifier is persistent: whatever
    was stored before, the first call leaves the identifier it returns
    under the key [device_id], and a second call returns that same
    identifier, makes no call of [Math.random] and leaves the storage as it
    is. *)
Theorem getDeviceId_is_persistent (rnd : nat -> Q) (st : Browser.Storage)
  (k : nat) :
  DeviceId.unitInterval rnd ->
  DeviceId.working st ->
  exists id st1 k1,
    DeviceId.getDeviceId rnd st k = (id, st1, k1) /\
    Browser.lookup DeviceId.DEVICE_ID_KEY (Browser.items st1) = Some id /\
    DeviceId.working st1 /\
    DeviceId.getDeviceId rnd st1 k1 = (id, st1, k1).
Proof.
  intros Hr Hw.
  destruct (DeviceId.absent
              (Browser.lookup DeviceId.DEVICE_ID_KEY (Browser.items st)))
    eqn:Habs.
  - do 3 eexists. split; [now apply getDeviceId_fresh|].
    cbn [Browser.items Browser.lookup]. rewrite String.eqb_refl.
    split; [reflexivity|]. split; [now split|].
    apply getDeviceId_stored.
    + reflexivity.
    + cbn [Browser.items Browser.lookup]. now rewrite String.eqb_refl.
    + apply wellFormed_nonempty.
      exact (replaceXY_shape rnd DeviceId.template k Hr).
  - apply absent_false in Habs. destruct Habs as (s & Hl & Hs).
    destruct Hw as [Ha Hf].
    exists s, st, k.
    split; [now apply getDeviceId_stored|].
    split; [exact Hl|]. split; [now split|].
    now apply getDeviceId_stored.
Qed.

Lemma getDeviceId_is_persistent_witness :
  exists st1,
    DeviceId.getDeviceId sampleRandom emptyStorage 0
    = ("147ad036-9cf2-458b-a147-ad0369c0369c", st1, 31) /\
    DeviceId.getDeviceId sampleRandom st1 31
    = ("147ad036-9cf2-458b-a147-ad0369c0369c", st1, 31).
Proof.
  destruct (getDeviceId_is_persistent sampleRandom emptyStorage 0
              sampleRandom_unit (conj eq_refl eq_refl))
    as (id & st1 & k1 & Hfirst & _ & _ & Hsecond).
  vm_compute in Hfirst. injection Hfirst as <- <- <-.
  eexists. split; [vm_compute; reflexivity|exact Hsecond].
Defined.

(** [getDeviceId] never raises and never returns an empty identifier: in
    every state of the storage it returns either the non-empty string
    stored under [device_id] or a well-formed identifier it has just
    generated; and it changes nothing in the storage but the entry
    [device_id]. *)
Theorem getDeviceId_returns_an_identifier (rnd : nat -> Q)
  (st : Browser.Storage) (k : nat) :
  DeviceId.unitInterval rnd ->
  exists id st1 k1,
    DeviceId.getDeviceId rnd st k = (id, st1, k1) /\
    id <> "" /\
    ((Browser.accessible st = true /\
      Browser.lookup DeviceId.DEVICE_ID_KEY (Browser.items st) = Some id /\
      st1 = st /\ k1 = k) \/
     DeviceId.wellFormed id) /\
    (forall key, key <> DeviceId.DEVICE_ID_KEY ->
                 Browser.lookup key (Browser.items st1)
                 = Browser.lookup key (Browser.items st)).
Proof.
  intros Hr.
  assert (Hshape : forall j,
            DeviceId.wellFormed (fst (DeviceId.generateUUID rnd j))).
  { intros j. exact (replaceXY_shape rnd DeviceId.template j Hr). }
  destruct (Browser.accessible st) eqn:Ha.
  - destruct (DeviceId.absent
                (Browser.lookup DeviceId.DEVICE_ID_KEY (Browser.items st)))
      eqn:Habs.
    + destruct (Browser.full st) eqn:Hf.
      * do 3 eexists. split; [now apply getDeviceId_full|].
        split; [now apply wellFormed_nonempty|]. split; [now right|].
        reflexivity.
      * do 3 eexists. split; [now apply getDeviceId_fresh|].
        split; [now apply wellFormed_nonempty|]. split; [now right|].
        intros key Hkey. cbn [Browser.items Browser.lookup].
        apply not_eq_sym, String.eqb_neq in Hkey. rewrite Hkey.
        apply lookup_remove_other. now apply String.eqb_neq in Hkey.
    + apply absent_false in Habs. destruct Habs as (s & Hl & Hs).
      exists s, st, k. split; [now apply getDeviceId_stored|].
      split; [exact Hs|]. split; [left; auto|]. reflexivity.
  - do 3 eexists. split; [now apply getDeviceId_blocked|].
    split; [now apply wellFormed_nonempty|]. split; [now right|].
    reflexivity.
Qed.

Lemma getDeviceId_returns_an_identifier_witness :
  exists id st1 k1,
    DeviceId.getDeviceId sampleRandom blockedStorage 0 = (id, st1, k1) /\
    id <> "".
Proof.
  destruct (getDeviceId_returns_an_identifier sampleRandom blockedStorage 0
              sampleRandom_unit) as (id & st1 & k1 & Hg & Hne & _).
  exists id, st1, k1. split; assumption.
Defined.

(** When the storage cannot keep the identifier nothing is stored and the
    identifier is not stable.  With an inaccessible storage every call
    returns a newly generated identifier, from the next 31 calls of
    [Math.random].  With a full storage and nothing stored, the identifier
    that could not be stored is dropped and the call returns a second one,
    generated from the 31 calls after those of the first. *)
Theorem getDeviceId_without_storage (rnd : nat -> Q) (st : Browser.Storage)
  (k : nat) :
  (Browser.accessible st = false ->
   DeviceId.getDeviceId rnd st k
   = (fst (DeviceId.generateUUID rnd k), st, k + 31) /\
   DeviceId.getDeviceId rnd st (k + 31)
   = (fst (DeviceId.generateUUID rnd (k + 31)), st, k + 62)) /\
  (Browser.accessible st = true -> Browser.full st = true ->
   DeviceId.absent
     (Browser.lookup DeviceId.DEVICE_ID_KEY (Browser.items st)) = true ->
   DeviceId.getDeviceId rnd st k
   = (fst (DeviceId.generateUUID rnd (k + 31)), st, k + 62)).
Proof.
  split.
  - intros Ha. split; [now apply getDeviceId_blocked|].
    rewrite getDeviceId_blocked by assumption. f_equal. lia.
  - intros Ha Hf Habs. now apply getDeviceId_full.
Qed.

Lemma getDeviceId_without_storage_witness :
  DeviceId.getDeviceId sampleRandom fullStorage 0
  = (fst (DeviceId.generateUUID sampleRandom 31), fullStorage, 62) /\
  fst (DeviceId.generateUUID sampleRandom 31)
  <> fst (DeviceId.generateUUID sampleRandom 0).
Proof.
  destruct (getDeviceId_without_storage sampleRandom fullStorage 0)
    as [_ Hfull].
  split; [apply Hfull; reflexivity|].
  vm_compute. discriminate.
Defined.

(** [clearDeviceId] never raises.  On an accessible storage it removes the
    entry [device_id] and nothing else, so that the next [getDeviceId]
    generates a new identifier (and stores it when the storage is not
    full); on an inaccessible storage it changes nothing. *)
Theorem clearDeviceId_forgets_the_identifier (rnd : nat -> Q)
  (st : Browser.Storage) (k : nat) :
  (Browser.accessible st = true ->
   Browser.lookup DeviceId.DEVICE_ID_KEY
     (Browser.items (DeviceId.clearDeviceId st)) = None /\
   (forall key, key <> DeviceId.DEVICE_ID_KEY ->
                Browser.lookup key (Browser.items (DeviceId.clearDeviceId st))
                = Browser.lookup key (Browser.items st)) /\
   Browser.accessible (DeviceId.clearDeviceId st) = true /\
   Browser.full (DeviceId.clearDeviceId st) = Browser.full st) /\
  (DeviceId.working st ->
   exists st1,
     DeviceId.getDeviceId rnd (DeviceId.clearDeviceId st) k
     = (fst (DeviceId.generateUUID rnd k), st1, k + 31) /\
     Browser.lookup DeviceId.DEVICE_ID_KEY (Browser.items st1)
     = Some (fst (DeviceId.generateUUID rnd k))) /\
  (Browser.accessible st = false -> DeviceId.clearDeviceId st = st).
Proof.
  unfold DeviceId.clearDeviceId, Browser.removeItem.
  split; [|split].
  - intros ->. cbn [Browser.items Browser.accessible Browser.full].
    split; [apply lookup_remove_same|].
    split; [intros key Hkey; now apply lookup_remove_other|].
    split; reflexivity.
  - intros [Ha Hf]. rewrite Ha. eexists.
    split.
    + apply getDeviceId_fresh.
      * split; [reflexivity|exact Hf].
      * cbn [Browser.items]. now rewrite lookup_remove_same.
    + cbn [Browser.items Browser.lookup]. now rewrite String.eqb_refl.
  - now intros ->.
Qed.

Lemma clearDeviceId_forgets_the_identifier_witness :
  Browser.lookup DeviceId.DEVICE_ID_KEY
    (Browser.items
       (DeviceId.clearDeviceId
          {| Browser.accessible := true; Browser.full := false;
             Browser.items := [("theme", "dark"); ("device_id", "abc")] |}))
  = None /\
  Browser.lookup "theme"
    (Browser.items
       (DeviceId.clearDeviceId
          {| Browser.accessible := true; Browser.full := false;
             Browser.items := [("theme", "dark"); ("device_id", "abc")] |}))
  = Some "dark".
Proof.
  destruct (clearDeviceId_forgets_the_identifier sampleRandom
              {| Browser.accessible := true; Browser.full := false;
                 Browser.items := [("theme", "dark"); ("device_id", "abc")] |}
              0) as (Hclear & _).
  destruct (Hclear eq_refl) as (Hnone & Hother & _).
  split; [exact Hnone|].
  rewrite Hother; [reflexivity|discriminate].
Defined.

(** ** Properties of the user context *)

(** [fetchUser] always settles with [loading] false and a user set.  When
    the server answers OK with a user, that user and its survey flag are
    taken over.  In every other case (the request fails, the response is
    not OK, the body is unreadable or [null]) the user is the demo user of
    some device identifier: its id is 0, its name is "device_" followed by
    the first eight characters of the identifier, it is not authenticated,
    and the survey flag of the state is left as it was. *)
Theorem fetchUser_settles_with_a_user {UserProfile : Type}
  (rnd : nat -> Q) (res : UserContext.FetchResult UserProfile)
  (st : Browser.Storage) (k : nat) (s : UserContext.State UserProfile) :
  exists s' st' k',
    UserContext.fetchUser rnd res st k s = (s', st', k') /\
    UserContext.s_loading s' = false /\
    UserContext.s_user s' <> None /\
    (forall u,
       res = UserContext.Response true (UserContext.BodyUser u) ->
       UserContext.s_user s' = Some u /\
       UserContext.s_hasSurveyCompleted s'
       = UserContext.u_hasSurveyCompleted u) /\
    ((forall u, res <> UserContext.Response true (UserContext.BodyUser u)) ->
     exists id,
       UserContext.s_user s' = Some (UserContext.demoUser id) /\
       UserContext.u_id (UserContext.demoUser (UserProfile := UserProfile) id)
       = 0%Z /\
       UserContext.u_username
         (UserContext.demoUser (UserProfile := UserProfile) id)
       = ("device_" ++ substring 0 8 id)%string /\
       UserContext.isAuthenticated s' = false /\
       UserContext.s_hasSurveyCompleted s'
       = UserContext.s_hasSurveyCompleted s).
Proof.
  unfold UserContext.fetchUser, UserContext.fetchUserCaught.
  destruct (DeviceId.getDeviceId rnd st k) as [[id1 st1] k1].
  destruct (DeviceId.getDeviceId rnd st1 k1) as [[id2 st2] k2] eqn:Hsecond.
  destruct res as [|[|] [| |u]]; do 3 eexists;
    (split; [reflexivity|]); cbn;
    (split; [reflexivity|]); (split; [discriminate|]);
    (split; [intros u' Hu; try discriminate;
             injection Hu as <-; split; reflexivity|]);
    intros Hno; try (now exfalso; apply (Hno u));
    eexists; repeat split.
Qed.

Lemma fetchUser_settles_with_a_user_witness :
  exists s' st' k',
    UserContext.fetchUser (UserProfile := unit) sampleRandom
      (UserContext.Response false UserContext.BodyNull) emptyStorage 0
      UserContext.initial = (s', st', k') /\
    UserContext.isAuthenticated s' = false /\
    UserContext.s_loading s' = false.
Proof.
  destruct (fetchUser_settles_with_a_user (UserProfile := unit) sampleRandom
              (UserContext.Response false UserContext.BodyNull) emptyStorage
              0 UserContext.initial)
    as (s' & st' & k' & Hf & Hl & _ & _ & Hdemo).
  exists s', st', k'. split; [exact Hf|]. split; [|exact Hl].
  destruct Hdemo as (id & _ & _ & _ & Hauth & _); [discriminate|].
  exact Hauth.
Defined.

Lemma getDeviceId_twice (rnd : nat -> Q) (st : Browser.Storage) (k : nat) :
  DeviceId.unitInterval rnd ->
  DeviceId.working st ->
  exists id st1 k1,
    DeviceId.getDeviceId rnd st k = (id, st1, k1) /\
    Browser.lookup DeviceId.DEVICE_ID_KEY (Browser.items st1) = Some id /\
    DeviceId.working st1 /\
    forall k', DeviceId.getDeviceId rnd st1 k' = (id, st1, k').
Proof.
  intros Hr Hw.
  destruct (DeviceId.absent
              (Browser.lookup DeviceId.DEVICE_ID_KEY (Browser.items st)))
    eqn:Habs.
  - do 3 eexists. split; [now apply getDeviceId_fresh|].
    cbn [Browser.items Browser.lookup]. rewrite String.eqb_refl.
    split; [reflexivity|]. split; [now split|].
    intros k'. apply getDeviceId_stored.
    + reflexivity.
    + cbn [Browser.items Browser.lookup]. now rewrite String.eqb_refl.
    + apply wellFormed_nonempty.
      exact (replaceXY_shape rnd DeviceId.template k Hr).
  - apply absent_false in Habs. destruct Habs as (s & Hl & Hs).
    destruct Hw as [Ha Hf].
    exists s, st, k.
    split; [now apply getDeviceId_stored|].
    split; [exact Hl|]. split; [now split|].
    intros k'. now apply getDeviceId_stored.
Qed.

Lemma fetchUser_demo {UserProfile : Type} (rnd : nat -> Q)
  (res : UserContext.FetchResult UserProfile) (st : Browser.Storage)
  (k : nat) (s : UserContext.State UserProfile) (id : string) :
  (forall u, res <> UserContext.Response true (UserContext.BodyUser u)) ->
  (forall k', DeviceId.getDeviceId rnd st k' = (id, st, k')) ->
  UserContext.fetchUser rnd res st k s
  = (UserContext.setLoading false
       (UserContext.setUser (Some (UserContext.demoUser id)) s), st, k).
Proof.
  intros Hno Hget. unfold UserContext.fetchUser, UserContext.fetchUserCaught.
  rewrite !Hget.
  destruct res as [|[|] [| |u]]; try reflexivity.
  now exfalso; apply (Hno u).
Qed.

(** With a working [localStorage] the demo user is the same on every load:
    when a profile request does not bring a user, the demo user carries the
    identifier found under [device_id] afterwards, and any later profile
    request that does not bring a user gives the demo user of that same
    identifier, with no further call of [Math.random] and no change of the
    storage. *)
Theorem demo_user_is_stable_across_loads {UserProfile : Type}
  (rnd : nat -> Q) (res res2 : UserContext.FetchResult UserProfile)
  (st : Browser.Storage) (k : nat) (s s2 : UserContext.State UserProfile) :
  DeviceId.unitInterval rnd ->
  DeviceId.working st ->
  (forall u, res <> UserContext.Response true (UserContext.BodyUser u)) ->
  (forall u, res2 <> UserContext.Response true (UserContext.BodyUser u)) ->
  exists id s' st' k' s2',
    UserContext.fetchUser rnd res st k s = (s', st', k') /\
    UserContext.s_user s' = Some (UserContext.demoUser id) /\
    Browser.lookup DeviceId.DEVICE_ID_KEY (Browser.items st') = Some id /\
    UserContext.fetchUser rnd res2 st' k' s2 = (s2', st', k') /\
    UserContext.s_user s2' = Some (UserContext.demoUser id).
Proof.
  intros Hr Hw Hno Hno2.
  destruct (getDeviceId_twice rnd st k Hr Hw)
    as (id & st1 & k1 & Hget & Hl & Hw1 & Hagain).
  exists id. do 4 eexists.
  split.
  { unfold UserContext.fetchUser, UserContext.fetchUserCaught.
    rewrite Hget, Hagain.
    destruct res as [|[|] [| |u]]; try reflexivity.
    now exfalso; apply (Hno u). }
  split; [reflexivity|]. split; [exact Hl|].
  split; [now apply fetchUser_demo|]. reflexivity.
Qed.

Lemma demo_user_is_stable_across_loads_witness :
  exists s' st' k' s2',
    UserContext.fetchUser (UserProfile := unit) sampleRandom
      UserContext.FetchRejected emptyStorage 0 UserContext.initial
    = (s', st', k') /\
    UserContext.fetchUser (UserProfile := unit) sampleRandom
      (UserContext.Response false UserContext.BodyNull) st' k'
      UserContext.initial = (s2', st', k') /\
    UserContext.s_user s2' = UserContext.s_user s'.
Proof.
  destruct (demo_user_is_stable_across_loads (UserProfile := unit)
              sampleRandom UserContext.FetchRejected
              (UserContext.Response false UserContext.BodyNull)
              emptyStorage 0 UserContext.initial UserContext.initial
              sampleRandom_unit (conj eq_refl eq_refl))
    as (id & s' & st' & k' & s2' & H1 & Hu1 & _ & H2 & Hu2);
    try discriminate.
  exists s', st', k', s2'. split; [exact H1|]. split; [exact H2|].
  now rewrite Hu1, Hu2.
Defined.

(** With an inaccessible [localStorage] the demo user has no stable
    identifier: a response that is not OK gives the demo user of the
    identifier generated by the call that opened the request, and a failed
    request gives the demo user of a second identifier, generated by the
    call in the [catch] block from the next 31 calls of [Math.random]. *)
Theorem demo_user_without_storage {UserProfile : Type} (rnd : nat -> Q)
  (st : Browser.Storage) (k : nat) (s : UserContext.State UserProfile)
  (body : UserContext.Body UserProfile) :
  Browser.accessible st = false ->
  UserContext.fetchUser rnd (UserContext.Response false body) st k s
  = (UserContext.setLoading false
       (UserContext.setUser
          (Some (UserContext.demoUser (fst (DeviceId.generateUUID rnd k))))
          s), st, k + 31) /\
  UserContext.fetchUser rnd UserContext.FetchRejected st k s
  = (UserContext.setLoading false
       (UserContext.setUser
          (Some (UserContext.demoUser
                   (fst (DeviceId.generateUUID rnd (k + 31))))) s),
     st, k + 62).
Proof.
  intros Ha. unfold UserContext.fetchUser, UserContext.fetchUserCaught.
  rewrite !getDeviceId_blocked by assumption.
  split; [reflexivity|]. f_equal. lia.
Qed.

Lemma demo_user_without_storage_witness :
  exists s1 s2,
    UserContext.fetchUser (UserProfile := unit) sampleRandom
      (UserContext.Response false UserContext.BodyNull) blockedStorage 0
      UserContext.initial = (s1, blockedStorage, 31) /\
    UserContext.fetchUser (UserProfile := unit) sampleRandom
      UserContext.FetchRejected blockedStorage 0 UserContext.initial
    = (s2, blockedStorage, 62) /\
    UserContext.s_user s1 <> UserContext.s_user s2.
Proof.
  destruct (demo_user_without_storage (UserProfile := unit) sampleRandom
              blockedStorage 0 UserContext.initial UserContext.BodyNull
              eq_refl) as [H1 H2].
  do 2 eexists. split; [exact H1|]. split; [exact H2|].
  vm_compute. discriminate.
Defined.

(** [updateUserProfile] changes nothing but the profile of the user: in
    every outcome the id, name, device identifier and survey flag of the
    user, the authentication status, [loading] and the survey flag of the
    state stay as they were, and no user appears where there was none.
    The "Profile Updated" toast is shown exactly when the response is OK
    and its body readable (also when there is no user to update); a
    response that is not OK changes nothing and shows no toast at all. *)
Theorem updateUserProfile_keeps_identity {UserProfile : Type}
  (rnd : nat -> Q) (res : UserContext.UpdateResult UserProfile)
  (st : Browser.Storage) (k : nat) (s : UserContext.State UserProfile) :
  exists s' st' k' toast,
    UserContext.updateUserProfile rnd res st k s = (s', st', k', toast) /\
    UserContext.s_loading s' = UserContext.s_loading s /\
    UserContext.s_hasSurveyCompleted s'
    = UserContext.s_hasSurveyCompleted s /\
    UserContext.isAuthenticated s' = UserContext.isAuthenticated s /\
    option_map UserContext.u_id (UserContext.s_user s')
    = option_map UserContext.u_id (UserContext.s_user s) /\
    option_map UserContext.u_username (UserContext.s_user s')
    = option_map UserContext.u_username (UserContext.s_user s) /\
    option_map UserContext.u_deviceId (UserContext.s_user s')
    = option_map UserContext.u_deviceId (UserContext.s_user s) /\
    option_map UserContext.u_hasSurveyCompleted (UserContext.s_user s')
    = option_map UserContext.u_hasSurveyCompleted (UserContext.s_user s) /\
    (toast = Some UserContext.ProfileUpdated <->
     exists u, res = UserContext.UpdateResponse true (Some u)) /\
    (forall u,
       res = UserContext.UpdateResponse true (Some u) ->
       option_map UserContext.u_userProfile (UserContext.s_user s')
       = option_map (fun _ => UserContext.u_userProfile u)
                    (UserContext.s_user s)) /\
    (forall body,
       res = UserContext.UpdateResponse false body ->
       s' = s /\ toast = None).
Proof.
  unfold UserContext.updateUserProfile.
  destruct (DeviceId.getDeviceId rnd st k) as [[id1 st1] k1].
  destruct res as [|[|] [u|]]; do 4 eexists;
    (split; [reflexivity|]);
    unfold UserContext.isAuthenticated; cbn;
    destruct (UserContext.s_user s) as [prev|]; cbn;
    repeat split; try discriminate; try reflexivity;
    try (intros (u' & Hu); discriminate);
    try (intros _; now exists u);
    try (intros u' Hu; try discriminate; now injection Hu as <-);
    try (intros body Hb; discriminate).
Qed.

Lemma updateUserProfile_keeps_identity_witness :
  exists s' st' k',
    UserContext.updateUserProfile (UserProfile := unit) sampleRandom
      (UserContext.UpdateResponse false None) emptyStorage 0
      UserContext.initial = (s', st', k', None) /\
    s' = UserContext.initial.
Proof.
  destruct (updateUserProfile_keeps_identity (UserProfile := unit)
              sampleRandom (UserContext.UpdateResponse false None)
              emptyStorage 0 UserContext.initial)
    as (s' & st' & k' & toast & Hu & _ & _ & _ & _ & _ & _ & _ & _ & _ & Hno).
  destruct (Hno None eq_refl) as [Hs Ht]. subst toast.
  exists s', st', k'. split; [exact Hu|exact Hs].
Defined.

(** A successful [logout] clears the user, so that nobody is authenticated
    afterwards, but it does not clear the device identifier: with a working
    [localStorage] the identifier is still under [device_id], and a profile
    request after the logout that does not bring a user gives the demo user
    of that identifier.  A [logout] whose request fails leaves the state as
    it was and shows no toast. *)
Theorem logout_keeps_the_device {UserProfile : Type} (rnd : nat -> Q)
  (st : Browser.Storage) (k : nat) (s : UserContext.State UserProfile) :
  DeviceId.unitInterval rnd ->
  DeviceId.working st ->
  exists id s1 st1 k1,
    UserContext.logout rnd true st k s
    = (s1, st1, k1, Some UserContext.LoggedOut) /\
    UserContext.s_user s1 = None /\
    UserContext.isAuthenticated s1 = false /\
    Browser.lookup DeviceId.DEVICE_ID_KEY (Browser.items st1) = Some id /\
    UserContext.logout rnd false st k s = (s, st1, k1, None) /\
    forall res,
      (forall u, res <> UserContext.Response true (UserContext.BodyUser u)) ->
      exists s2,
        UserContext.fetchUser rnd res st1 k1 s1 = (s2, st1, k1) /\
        UserContext.s_user s2 = Some (UserContext.demoUser id).
Proof.
  intros Hr Hw.
  destruct (getDeviceId_twice rnd st k Hr Hw)
    as (id & st1 & k1 & Hget & Hl & Hw1 & Hagain).
  exists id. do 3 eexists. unfold UserContext.logout. rewrite Hget.
  split; [reflexivity|]. split; [reflexivity|]. split; [reflexivity|].
  split; [exact Hl|]. split; [reflexivity|].
  intros res Hno. eexists. split; [now apply fetchUser_demo|]. reflexivity.
Qed.

Lemma logout_keeps_the_device_witness :
  exists s1 st1 k1,
    UserContext.logout (UserProfile := unit) sampleRandom true emptyStorage 0
      (UserContext.setUser
         (Some {| UserContext.u_id := 7;
                  UserContext.u_username := "an";
                  UserContext.u_hasSurveyCompleted := true;
                  UserContext.u_userProfile := None;
                  UserContext.u_deviceId := "d" |}) UserContext.initial)
    = (s1, st1, k1, Some UserContext.LoggedOut) /\
    UserContext.isAuthenticated s1 = false.
Proof.
  destruct (logout_keeps_the_device (UserProfile := unit) sampleRandom
              emptyStorage 0
              (UserContext.setUser
                 (Some {| UserContext.u_id := 7;
                          UserContext.u_username := "an";
                          UserContext.u_hasSurveyCompleted := true;
                          UserContext.u_userProfile := None;
                          UserContext.u_deviceId := "d" |})
                 UserContext.initial)
              sampleRandom_unit (conj eq_refl eq_refl))
    as (id & s1 & st1 & k1 & Hout & _ & Hauth & _).
  exists s1, st1, k1. split; [exact Hout|exact Hauth].
Defined.
